(** * Scrapler: extraction normalizers, fetch retry and snapshot diff

    A shallow embedding of the core of the Scrapler price monitor
    (src/scrapers/*.py, src/reports/report_generator.py, src/config.py)
    together with the properties the specification states about it.

    Conventions of the embedding.
    - A Python [str] is a Rocq [string] holding its UTF-8 encoding.  Substring
      tests, concatenation and replacement commute with the encoding.  The
      regular-expression classes [\d] and [\s], [str.isdigit] and [str.lower]
      are given on ASCII ([lower] also on the Latin-1 letters, which covers
      the accented keywords of the source); texts with digits, blanks or
      capitals of other scripts are outside the model.
    - A Python [float] obtained from a decimal numeral is represented by the
      rational the numeral denotes, and float arithmetic by exact rational
      arithmetic; [nan] (a missing DataFrame cell) is [None].
    - [raise] / [try ... except] are modelled by the [Result] type.
    - A Python [dict] with string keys is a [gmap string Value].
    - Iteration over a Python [set] visits every member once, in an order
      the language does not fix: the order is a parameter ([SetOrder]). *)

From Stdlib Require Import Ascii String QArith Qround Qabs.
From stdpp Require Import gmap strings list.

Open Scope Z_scope.

(* ===================================================================== *)
(** * Python runtime primitives used by the source                        *)
(* ===================================================================== *)

Module Py.

(** ** Exceptions *)

Inductive Result (A : Type) : Type :=
| Return (a : A)
| Raise (msg : string).
Arguments Return {A} a.
Arguments Raise {A} msg.

Definition bind {A B} (m : Result A) (k : A -> Result B) : Result B :=
  match m with
  | Return a => k a
  | Raise e => Raise e
  end.

(** [try: body  except Exception as e: handler(str(e))] *)
Definition try_except {A} (body : Result A) (handler : string -> Result A) : Result A :=
  match body with
  | Return a => Return a
  | Raise e => handler e
  end.

(** ** Characters *)

Definition code (c : ascii) : N := N_of_ascii c.

(** [\d] and [str.isdigit] *)
Definition is_digit (c : ascii) : bool := ((48 <=? code c) && (code c <=? 57))%N.

(** [\s]: space, \t \n \v \f \r and the separators 0x1c..0x1f *)
Definition is_space (c : ascii) : bool :=
  ((code c =? 32) || ((9 <=? code c) && (code c <=? 13))
   || ((28 <=? code c) && (code c <=? 31)))%N.

Definition is_upper (c : ascii) : bool := ((65 <=? code c) && (code c <=? 90))%N.

Definition shift32 (c : ascii) : ascii := ascii_of_N (code c + 32).

(** second byte of a two-byte sequence led by 0xC3: the capitals
    U+00C0..U+00DE except the sign U+00D7 *)
Definition is_latin1_upper_tail (c : ascii) : bool :=
  ((128 <=? code c) && (code c <=? 158) && negb (code c =? 151))%N.

(** ** Strings *)

Fixpoint str_filter (p : ascii -> bool) (s : string) : string :=
  match s with
  | EmptyString => EmptyString
  | String c r => if p c then String c (str_filter p r) else str_filter p r
  end.

Fixpoint str_forallb (p : ascii -> bool) (s : string) : bool :=
  match s with
  | EmptyString => true
  | String c r => p c && str_forallb p r
  end.

Fixpoint str_existsb (p : ascii -> bool) (s : string) : bool :=
  match s with
  | EmptyString => false
  | String c r => p c || str_existsb p r
  end.

(** [c in s] for a one-character [c] *)
Definition has_char (c : ascii) (s : string) : bool :=
  str_existsb (Ascii.eqb c) s.

(** [s.startswith(sub)] *)
Fixpoint starts_with (sub s : string) : bool :=
  match sub, s with
  | EmptyString, _ => true
  | String a sub', String b s' => Ascii.eqb a b && starts_with sub' s'
  | String _ _, EmptyString => false
  end.

(** [sub in s] *)
Fixpoint contains (sub s : string) : bool :=
  starts_with sub s ||
  match s with
  | EmptyString => false
  | String _ r => contains sub r
  end.

(** [any(k in s for k in keywords)] *)
Definition any_in (keywords : list string) (s : string) : bool :=
  existsb (fun k => contains k s) keywords.

(** [s.replace(c, by)] for a one-character [c] *)
Fixpoint replace_char (c : ascii) (by_ : string) (s : string) : string :=
  match s with
  | EmptyString => EmptyString
  | String d r =>
      if Ascii.eqb d c then by_ +:+ replace_char c by_ r
      else String d (replace_char c by_ r)
  end.

(** [s.rfind(c)] from position [i] on: the largest index, or -1 *)
Fixpoint rfind_from (c : ascii) (s : string) (i : Z) : Z :=
  match s with
  | EmptyString => -1
  | String d r =>
      let later := rfind_from c r (i + 1) in
      if 0 <=? later then later
      else if Ascii.eqb d c then i else -1
  end.

Definition rfind (c : ascii) (s : string) : Z := rfind_from c s 0.

(** [s.split(c)[-1]]: what follows the last [c], all of [s] without one *)
Fixpoint split_last (c : ascii) (s : string) : string :=
  match s with
  | EmptyString => EmptyString
  | String d r =>
      if has_char c r then split_last c r
      else if Ascii.eqb d c then r
      else String d r
  end.

(** [s.lower()] *)
Fixpoint lower_from (after_c3 : bool) (s : string) : string :=
  match s with
  | EmptyString => EmptyString
  | String c r =>
      if after_c3 && is_latin1_upper_tail c then String (shift32 c) (lower_from false r)
      else if is_upper c then String (shift32 c) (lower_from false r)
      else String c (lower_from (code c =? 195)%N r)
  end.

Definition lower (s : string) : string := lower_from false s.

(** ** Numerals *)

Definition digit_value (c : ascii) : N := (code c - 48)%N.

(** value of a string of decimal digits, most significant first *)
Fixpoint digits_value_from (acc : N) (s : string) : N :=
  match s with
  | EmptyString => acc
  | String c r => digits_value_from (10 * acc + digit_value c)%N r
  end.

Definition digits_value (s : string) : N := digits_value_from 0 s.

(** the longest prefix satisfying [p], and the rest *)
Fixpoint span (p : ascii -> bool) (s : string) : string * string :=
  match s with
  | EmptyString => (EmptyString, EmptyString)
  | String c r =>
      if p c then let '(a, b) := span p r in (String c a, b)
      else (EmptyString, s)
  end.

(** the number written [ip.fp] *)
Definition decimal_value (ip fp : string) : Q :=
  Z.of_N (digits_value (ip +:+ fp)) # Z.to_pos (10 ^ Z.of_nat (String.length fp)).

(** [float(s)] for [s] over the alphabet [0-9.]: digits, at most one
    point, at least one digit; anything else is a [ValueError] ([None]).
    [_clean_price] never passes a string outside that alphabet. *)
Definition float_of_decimal (s : string) : option Q :=
  let '(ip, r) := span is_digit s in
  match r with
  | EmptyString =>
      if (String.length ip =? 0)%nat then None else Some (decimal_value ip "")
  | String c r' =>
      if Ascii.eqb c "." then
        let '(fp, r'') := span is_digit r' in
        match r'' with
        | EmptyString =>
            if (String.length ip + String.length fp =? 0)%nat then None
            else Some (decimal_value ip fp)
        | String _ _ => None
        end
      else None
  end.

(** [int(s)] for a non-empty string of digits *)
Definition int_of_digits (s : string) : option Z :=
  if (negb (String.length s =? 0)%nat) && str_forallb is_digit s
  then Some (Z.of_N (digits_value s)) else None.

(** [s[:n]]: the first [n] characters; the bytes 10xxxxxx continue the
    character before them *)
Definition is_continuation (c : ascii) : bool :=
  ((128 <=? code c) && (code c <=? 191))%N.

Fixpoint take_chars (n : nat) (s : string) : string :=
  match s with
  | EmptyString => EmptyString
  | String c r =>
      if is_continuation c then String c (take_chars n r)
      else match n with
           | O => EmptyString
           | S m => String c (take_chars m r)
           end
  end.

(** the first [n] bytes *)
Fixpoint take_bytes (n : nat) (s : string) : string :=
  match n, s with
  | S m, String c r => String c (take_bytes m r)
  | _, _ => EmptyString
  end.

(** the text of the CSS attribute selector that compares [attribute]
    with the quoted [value] *)
Definition attribute_is (attribute value : string) : string :=
  let quote := String (ascii_of_N 34) EmptyString in
  "[" +:+ attribute +:+ "=" +:+ quote +:+ value +:+ quote +:+ "]".

(** [s.split()[0]]: the first run of non-blank characters; [None] stands
    for the [IndexError] on a blank string *)
Fixpoint lstrip (s : string) : string :=
  match s with
  | EmptyString => EmptyString
  | String c r => if is_space c then lstrip r else s
  end.

Definition first_token (s : string) : option string :=
  match lstrip s with
  | EmptyString => None
  | String c r => Some (span (fun x => negb (is_space x)) (String c r)).1
  end.

(** [s.rstrip()] *)
Fixpoint rstrip (s : string) : string :=
  match s with
  | EmptyString => EmptyString
  | String c r =>
      match rstrip r with
      | EmptyString => if is_space c then EmptyString else String c EmptyString
      | String d r' => String c (String d r')
      end
  end.

(** [int(s)] for [s] over digits and blanks: the blanks around the
    digits are dropped, a blank between digits is a [ValueError] *)
Definition int_of_padded_digits (s : string) : option Z :=
  int_of_digits (rstrip (lstrip s)).

(** ** Floats and values *)

Inductive PyFloat : Type :=
| Finite (q : Q)
| Infinity (negative : bool)
| NaN.

(** [f <= 5] *)
Definition le5 (f : PyFloat) : bool :=
  match f with
  | Finite q => Qle_bool q 5
  | Infinity negative => negative
  | NaN => false
  end.

Inductive Value : Type :=
| VNone
| VBool (b : bool)
| VInt (z : Z)
| VFloat (f : PyFloat)
| VStr (s : string).

Abbreviation Dict := (gmap string Value).

(** [d.update(e)]: the entries of [e] win *)
Definition update (d e : Dict) : Dict := e ∪ d.

(** [d.get(k, default)] *)
Definition get (d : Dict) (k : string) (default : Value) : Value :=
  match d !! k with
  | Some v => v
  | None => default
  end.

(** [round(x, 2)]: to the nearest hundredth, ties to the even one *)
Definition round_half_even (q : Q) : Z :=
  let f := Qfloor q in
  let twice_rest := Qfloor (2 * (q - inject_Z f))%Q in
  if Qeq_bool (2 * (q - inject_Z f)) 1
  then (if Z.even f then f else f + 1)
  else f + twice_rest.

Definition round2 (q : Q) : Q := Qred (round_half_even (q * 100) # 100).

End Py.

(* ===================================================================== *)
(** * The fragment of [re] the source uses                                *)
(* ===================================================================== *)

Module Re.
Import Py.

Inductive Quant : Type := One | Opt | Star | Plus.

(** an atom is a character class; a literal is the class of one byte *)
Record Item : Type := { cls : ascii -> bool; quant : Quant }.

(** one capturing group followed by an uncaptured tail; all the
    patterns of the source have this shape *)
Record Pattern : Type := { group : list Item; tail : list Item }.

Definition chr (c : ascii) : Item := {| cls := Ascii.eqb c; quant := One |}.

Fixpoint lit (s : string) : list Item :=
  match s with
  | EmptyString => []
  | String c r => chr c :: lit r
  end.

Definition one_of (s : string) : Item :=
  {| cls := fun c => has_char c s; quant := One |}.

(** greedy repetition with backtracking: the longest run first *)
Fixpoint greedy {A} (p : ascii -> bool) (k : string -> option A) (s : string) : option A :=
  match s with
  | EmptyString => k s
  | String c r =>
      if p c then
        match greedy p k r with
        | Some x => Some x
        | None => k s
        end
      else k s
  end.

Fixpoint match_items {A} (items : list Item) (k : string -> option A) (s : string) : option A :=
  match items with
  | [] => k s
  | it :: rest =>
      let k' := match_items rest k in
      match quant it with
      | One =>
          match s with
          | String c r => if cls it c then k' r else None
          | EmptyString => None
          end
      | Opt =>
          match s with
          | String c r =>
              if cls it c then
                match k' r with
                | Some x => Some x
                | None => k' s
                end
              else k' s
          | EmptyString => k' s
          end
      | Star => greedy (cls it) k' s
      | Plus =>
          match s with
          | String c r => if cls it c then greedy (cls it) k' r else None
          | EmptyString => None
          end
      end
  end.

(** a match starting at the head of [s]: the text of group 1 *)
Definition match_here (p : Pattern) (s : string) : option string :=
  match_items (group p)
    (fun after_group =>
       match_items (tail p)
         (fun _ => Some (take_bytes (String.length s - String.length after_group) s))
         after_group)
    s.

(** [re.search(p, s).group(1)]: the leftmost match *)
Fixpoint search (p : Pattern) (s : string) : option string :=
  match match_here p s with
  | Some g => Some g
  | None =>
      match s with
      | EmptyString => None
      | String _ r => search p r
      end
  end.

Definition digits : Item := {| cls := is_digit; quant := Plus |}.
Definition spaces : Item := {| cls := is_space; quant := Star |}.
Definition opt (c : ascii) : Item := {| cls := Ascii.eqb c; quant := Opt |}.

End Re.

(* ===================================================================== *)
(** * src/config.py                                                       *)
(* ===================================================================== *)

Module Config.
Definition MAX_RETRIES : Z := 3.
Definition PRICE_CHANGE_THRESHOLD : Q := 5.0.
End Config.

(* ===================================================================== *)
(** * src/scrapers/base_scraper.py: normalizers                           *)
(* ===================================================================== *)

Module BaseScraper.
Import Py.

(** [re.sub(r'[^\d.,]', '', price_text)] *)
Definition is_price_char (c : ascii) : bool :=
  is_digit c || Ascii.eqb c "." || Ascii.eqb c ",".

Definition strip_non_price (s : string) : string := str_filter is_price_char s.

(** the separator handling of [_clean_price], on the stripped text *)
Definition normalize_separators (price_clean : string) : string :=
  if has_char "," price_clean && has_char "." price_clean then
    if rfind "," price_clean >? rfind "." price_clean then
      replace_char "," "." (replace_char "." "" price_clean)
    else
      replace_char "," "" price_clean
  else if has_char "," price_clean then
    if (String.length (split_last "," price_clean) <=? 2)%nat then
      replace_char "," "." price_clean
    else
      replace_char "," "" price_clean
  else price_clean.

Definition _clean_price (price_text : string) : Q :=
  if (String.length price_text =? 0)%nat then 0.0%Q
  else
    let price_clean := strip_non_price price_text in
    let price_clean := normalize_separators price_clean in
    match float_of_decimal price_clean with
    | Some v => v
    | None => 0.0%Q
    end.


(** ** _extract_rating *)

Definition number : list Re.Item := [Re.digits; Re.one_of ".,"; Re.digits].

(** the patterns are applied to [rating_text.lower()] *)
Definition rating_patterns : list Re.Pattern :=
  [ {| Re.group := number;
       Re.tail := [Re.spaces; Re.one_of "/sur"; Re.spaces; Re.chr "5"] |};
    {| Re.group := number; Re.tail := Re.spaces :: Re.lit "★" |};
    {| Re.group := number; Re.tail := Re.spaces :: Re.lit "étoile" ++ [Re.opt "s"] |};
    {| Re.group := number; Re.tail := Re.spaces :: Re.lit "star" ++ [Re.opt "s"] |} ].

Definition review_patterns : list Re.Pattern :=
  [ {| Re.group := [Re.digits]; Re.tail := Re.spaces :: Re.lit "avis" |};
    {| Re.group := [Re.digits]; Re.tail := Re.spaces :: Re.lit "review" ++ [Re.opt "s"] |};
    {| Re.group := [Re.digits]; Re.tail := Re.spaces :: Re.lit "évaluation" ++ [Re.opt "s"] |} ].

(** [for pattern in patterns: match = re.search(...); if match: try:
    result = convert(match.group(1)); break  except ValueError: continue] *)
Fixpoint first_converted {A} (convert : string -> option A)
    (patterns : list Re.Pattern) (text : string) : option A :=
  match patterns with
  | [] => None
  | p :: rest =>
      match Re.search p text with
      | Some g =>
          match convert g with
          | Some v => Some v
          | None => first_converted convert rest text
          end
      | None => first_converted convert rest text
      end
  end.

Record RatingInfo : Type := { rating : option Q; review_count : option Z }.

Definition _extract_rating (rating_text : string) : RatingInfo :=
  if (String.length rating_text =? 0)%nat
  then {| rating := None; review_count := None |}
  else
    {| rating :=
         first_converted (fun g => float_of_decimal (replace_char "," "." g))
           rating_patterns (lower rating_text);
       review_count :=
         first_converted int_of_digits review_patterns (lower rating_text) |}.

(** ** The parsed page *)

Record Element : Type := {
  name : string;                   (* tag name *)
  classes : list string;           (* element.get('class', []) *)
  attrs : gmap string string;      (* the other attributes *)
  text : string;                   (* element.get_text() *)
  text_stripped : string           (* element.get_text(strip=True) *)
}.

(** [select] is the CSS engine on this page; soupsieve raises only on a
    malformed selector and every selector of the source is a well-formed
    literal, so the [except] branch around [select_one] in
    [_extract_text] is not reachable and [select] is total. *)
Record Soup : Type := {
  select : string -> list Element;     (* soup.select(selector) *)
  descendants : list Element;          (* every tag, in document order *)
  page_text : string                   (* soup.get_text() *)
}.

Definition select_one (soup : Soup) (selector : string) : option Element :=
  head (select soup selector).

Definition truthy (s : string) : bool := negb (String.length s =? 0)%nat.

(** ** _extract_text: the selector cascade *)

Fixpoint _extract_text (soup : Soup) (selectors : list string) : string :=
  match selectors with
  | [] => ""
  | selector :: rest =>
      match select_one soup selector with
      | Some element =>
          if truthy (text_stripped element) then text_stripped element
          else _extract_text soup rest
      | None => _extract_text soup rest
      end
  end.

(** ** _make_request *)

Record Response : Type := { status_code : Z; content : string }.

(** what one [session.get] does *)
Inductive Outcome : Type :=
| Responds (r : Response)
| RequestException (msg : string).

(** what the program does to the outside, in order *)
Inductive Event : Type :=
| SleepRetry                (* time.sleep(DELAY + uniform(1, 3)) *)
| Get (attempt : nat)       (* session.get(url, ...) *)
| SleepBlocked.             (* time.sleep(uniform(5, 10)) *)

(** [max_retries or self.config.MAX_RETRIES] *)
Definition effective_retries (max_retries : option Z) : Z :=
  match max_retries with
  | None => Config.MAX_RETRIES
  | Some n => if n =? 0 then Config.MAX_RETRIES else n
  end.

(** the body of [for attempt in range(max_retries)], for the [remaining]
    iterations from [attempt] on; [server k] is the outcome of the GET
    of iteration [k] *)
Fixpoint attempts (server : nat -> Outcome) (attempt remaining : nat)
    (trace : list Event) : option Response * list Event :=
  match remaining with
  | O => (None, trace)
  | S remaining' =>
      let trace := if (0 <? attempt)%nat then trace ++ [SleepRetry] else trace in
      let trace := trace ++ [Get attempt] in
      match server attempt with
      | Responds response =>
          if status_code response =? 200 then (Some response, trace)
          else if (status_code response =? 403) || (status_code response =? 429)
          then attempts server (S attempt) remaining' (trace ++ [SleepBlocked])
          else attempts server (S attempt) remaining' trace
      | RequestException _ =>
          attempts server (S attempt) remaining' trace
      end
  end.

Definition _make_request (server : nat -> Outcome) (max_retries : option Z)
    : option Response * list Event :=
  attempts server 0 (Z.to_nat (effective_retries max_retries)) [].

Definition is_get (e : Event) : bool :=
  match e with Get _ => true | _ => false end.

Definition attempts_made (trace : list Event) : nat :=
  length (List.filter is_get trace).

(** ** _parse_html *)

Definition _parse_html (parser : string -> Result Soup) (response : Response)
    : option Soup :=
  match parser (content response) with
  | Return soup => Some soup
  | Raise _ => None
  end.

(** ** get_product_data *)

Record Clock : Type := {
  strftime : string;        (* time.strftime('%Y-%m-%d %H:%M:%S') *)
  start_time : Q;           (* the first time.time() *)
  end_time : Q              (* the second time.time() *)
}.

Definition base_product_data (clock : Clock) (url : string) : Dict :=
  <["url" := VStr url]>
  (<["title" := VStr ""]>
  (<["price" := VFloat (Finite 0.0)]>
  (<["availability" := VStr ""]>
  (<["rating" := VNone]>
  (<["review_count" := VNone]>
  (<["description" := VStr ""]>
  (<["scraped_at" := VStr (strftime clock)]>
  (<["scraping_duration" := VFloat (Finite 0.0)]>
  (<["success" := VBool false]>
  (<["error_message" := VStr ""]> ∅)))))))))).

(** [if product_info:] holds for a dict that is given and not empty *)
Definition with_product_info (product_info : option Dict) (product_data : Dict) : Dict :=
  match product_info with
  | Some info =>
      if decide (info = ∅) then product_data
      else
        update product_data
          (<["product_name" := get info "name" (VStr "")]>
          (<["category" := get info "category" (VStr "")]>
          (<["site" := get info "site" (VStr "")]> ∅)))
  | None => product_data
  end.

Definition get_product_data
    (scrape_product : string -> option Dict -> Result Dict)
    (clock : Clock) (url : string) (product_info : option Dict) : Result Dict :=
  let product_data := with_product_info product_info (base_product_data clock url) in
  bind
    (try_except
       (bind (scrape_product url product_info) (fun scraped_data =>
          let product_data := update product_data scraped_data in
          Return (<["success" := VBool true]> product_data)))
       (fun e => Return (<["error_message" := VStr e]> product_data)))
    (fun product_data =>
       Return (<["scraping_duration" :=
                   VFloat (Finite (round2 (end_time clock - start_time clock)))]>
                 product_data)).

End BaseScraper.

(* ===================================================================== *)
(** * src/scrapers/shopify_scraper.py                                     *)
(* ===================================================================== *)

Module ShopifyScraper.
Import Py BaseScraper.

Definition in_stock_keywords : list string :=
  ["en stock"; "disponible"; "in stock"; "available"].

Definition out_of_stock_keywords : list string :=
  ["rupture"; "épuisé"; "indisponible"; "out of stock"; "sold out"].

(** [lambda x: x and any(cls in x.lower() for cls in [...])], which
    BeautifulSoup applies to each class of the tag *)
Definition is_cart_class (x : string) : bool :=
  truthy x && any_in ["add-to-cart"; "btn-cart"; "product-submit"] (lower x).

(** [soup.find_all(['button', 'input'], attrs={'class': ...})] *)
Definition add_to_cart_buttons (soup : Soup) : list Element :=
  List.filter
    (fun e => (String.eqb (name e) "button" || String.eqb (name e) "input")
              && existsb is_cart_class (classes e))
    (descendants soup).

(** [button.get('disabled') or 'disabled' in button.get('class', [])] *)
Definition is_disabled (button : Element) : bool :=
  match attrs button !! "disabled" with
  | Some v => truthy v
  | None => false
  end || existsb (String.eqb "disabled") (classes button).

Fixpoint scan_buttons (buttons : list Element) : string :=
  match buttons with
  | [] => "Disponibilité inconnue"
  | button :: rest =>
      if is_disabled button then "Rupture de stock"
      else if any_in out_of_stock_keywords (lower (text_stripped button))
      then "Rupture de stock"
      else scan_buttons rest
  end.

Definition _determine_availability (availability_text : string) (soup : Soup) : string :=
  let availability_text := lower availability_text in
  if any_in out_of_stock_keywords availability_text then "Rupture de stock"
  else if any_in in_stock_keywords availability_text then "En stock"
  else scan_buttons (add_to_cart_buttons soup).

End ShopifyScraper.

(* ===================================================================== *)
(** * src/scrapers/amazon_scraper.py                                      *)
(* ===================================================================== *)

Module AmazonScraper.
Import Py BaseScraper.

Definition availability_selectors : list string :=
  ["#availability span"; ".a-alert-content"; ".availability-msg"].

Definition classify (availability_text : string) : string :=
  if negb (truthy availability_text) then "Disponibilité inconnue"
  else
    let availability_lower := lower availability_text in
    if any_in ["en stock"; "in stock"; "disponible"] availability_lower
    then "En stock"
    else if any_in ["temporairement"; "currently unavailable"; "indisponible"]
              availability_lower
    then "Temporairement indisponible"
    else if any_in ["rupture"; "out of stock"] availability_lower
    then "Rupture de stock"
    else availability_text.

Definition _extract_amazon_availability (soup : Soup) : string :=
  classify (_extract_text soup availability_selectors).

Section Reviews.
(** [float(text)] on arbitrary text (signs, exponents, inf, nan, blanks) *)
Variable py_float : string -> Result PyFloat.

(** the rating loop; the bare [except] also covers the [IndexError] *)
Fixpoint rating_loop (rating_elements : list Element) : option PyFloat :=
  match rating_elements with
  | [] => None
  | element :: rest =>
      let text := text element in
      if contains "sur 5" text || contains "out of 5" text then
        match first_token text with
        | Some token =>
            match py_float (replace_char "," "." token) with
            | Return rating => Some rating
            | Raise _ => rating_loop rest
            end
        | None => rating_loop rest
        end
      else rating_loop rest
  end.

(** [([\d\s,]+)] *)
Definition count_pattern : Re.Pattern :=
  {| Re.group := [ {| Re.cls := fun c => is_digit c || is_space c || Ascii.eqb c ",";
                      Re.quant := Re.Plus |} ];
     Re.tail := [] |}.

Fixpoint review_loop (review_elements : list Element) : option Z :=
  match review_elements with
  | [] => None
  | element :: rest =>
      let text := text element in
      let text := replace_char " " EmptyString (replace_char "." EmptyString text) in
      match Re.search count_pattern text with
      | Some g =>
          match int_of_padded_digits
                  (replace_char " " EmptyString (replace_char "," EmptyString g)) with
          | Some review_count => Some review_count
          | None => review_loop rest
          end
      | None => review_loop rest
      end
  end.

Record Reviews : Type := { rating : option PyFloat; review_count : option Z }.

Definition _extract_amazon_reviews (soup : Soup) : Reviews :=
  {| rating :=
       rating_loop
         (select soup (attribute_is "data-hook" "average-star-rating"
                       +:+ " .a-offscreen, .a-icon-alt"));
     review_count :=
       review_loop
         (select soup (attribute_is "data-hook" "total-review-count"
                       +:+ ", #acrCustomerReviewText")) |}.

End Reviews.

End AmazonScraper.

(* ===================================================================== *)
(** * src/scrapers/etsy_scraper.py                                        *)
(* ===================================================================== *)

Module EtsyScraper.
Import Py BaseScraper.

Definition stock_selectors : list string :=
  [attribute_is "data-test-id" "listing-page-inventory";
   ".listing-page-availability"; ".stock-level"].

Definition add_to_cart_button : string :=
  attribute_is "data-test-id" "add-to-cart-button".

(** the part [if stock_text: ...]: [Some] label when it returns *)
Definition classify_stock (stock_text : string) : option string :=
  if truthy stock_text then
    let stock_lower := lower stock_text in
    if contains "en stock" stock_lower || any_in ["disponible"; "available"] stock_lower
    then Some "En stock"
    else if any_in ["épuisé"; "sold out"; "unavailable"] stock_lower
    then Some "Rupture de stock"
    else if str_existsb is_digit stock_text
    then Some ("En stock (" +:+ stock_text +:+ ")")
    else None
  else None.

(** the part that looks at the add-to-cart button *)
Definition classify_button (soup : Soup) : string :=
  match select_one soup add_to_cart_button with
  | Some add_button =>
      if ShopifyScraper.is_disabled add_button then "Rupture de stock"
      else "En stock"
  | None => "Disponibilité inconnue"
  end.

Definition _extract_etsy_availability (soup : Soup) : string :=
  match classify_stock (_extract_text soup stock_selectors) with
  | Some label => label
  | None => classify_button soup
  end.

End EtsyScraper.

(* ===================================================================== *)
(** * src/scrapers/fiverr_scraper.py                                      *)
(* ===================================================================== *)

Module FiverrScraper.
Import Py BaseScraper.

Section Runtime.
(** [float(text)] on arbitrary text (signs, exponents, inf, nan, blanks) *)
Variable py_float : string -> Result PyFloat.
(** [BeautifulSoup(content, 'lxml')] *)
Variable parser : string -> Result Soup.
(** the outcome of the [k]-th GET of a URL *)
Variable server : string -> nat -> Outcome.

(** [for element in rating_elements: ...]; [rating] is the value the
    variable holds when the iteration starts *)
Fixpoint rating_loop (rating_elements : list Element) (rating : option PyFloat)
    : option PyFloat :=
  match rating_elements with
  | [] => rating
  | element :: rest =>
      let text := text_stripped element in
      if truthy text then
        match py_float (replace_char "," "." text) with
        | Return r => if le5 r then Some r else rating_loop rest (Some r)
        | Raise _ => rating_loop rest rating
        end
      else rating_loop rest rating
  end.

Definition count_pattern : Re.Pattern :=
  {| Re.group := [Re.digits]; Re.tail := [] |}.

Fixpoint review_loop (review_elements : list Element) : Result (option Z) :=
  match review_elements with
  | [] => Return None
  | element :: rest =>
      match Re.search count_pattern (replace_char "," EmptyString (text element)) with
      | Some g =>
          match int_of_digits g with
          | Some n => Return (Some n)
          | None => Raise "ValueError"
          end
      | None => review_loop rest
      end
  end.

Record Reviews : Type := { rating : option PyFloat; review_count : option Z }.

Definition _extract_fiverr_reviews (soup : Soup) : Result Reviews :=
  let rating := rating_loop (select soup ".rating-score, [data-rating], .star-rating") None in
  bind (review_loop (select soup ".reviews-count, [data-reviews], .review-count"))
    (fun review_count => Return {| rating := rating; review_count := review_count |}).

Definition of_float (f : option PyFloat) : Value :=
  match f with Some r => VFloat r | None => VNone end.

Definition of_int (n : option Z) : Value :=
  match n with Some z => VInt z | None => VNone end.

(** [bool(response)] is [response.ok]: no status in 400..599 *)
Definition response_ok (response : Response) : bool :=
  negb ((400 <=? status_code response) && (status_code response <? 600)).

Definition scrape_product (url : string) (product_info : option Dict) : Result Dict :=
  match fst (_make_request (server url) None) with
  | None => Raise "Impossible de récupérer la page Fiverr"
  | Some response =>
      if negb (response_ok response)
      then Raise "Impossible de récupérer la page Fiverr"
      else
        match _parse_html parser response with
        | None => Raise "Impossible de parser le HTML Fiverr"
        | Some soup =>
            let title_selectors :=
              ["[data-gig-title]"; "h1.gig-page-title"; ".gig-title"; "h1"] in
            let price_selectors :=
              [".price-value"; ".starting-price"; "[data-price]"; ".price"] in
            let description_selectors :=
              [".gig-desc-container"; ".description"; ".gig-description"] in
            let title := _extract_text soup title_selectors in
            let price_text := _extract_text soup price_selectors in
            let price := _clean_price price_text in
            let availability := "Disponible" in
            bind (_extract_fiverr_reviews soup) (fun rating_info =>
              let description := _extract_text soup description_selectors in
              Return
                (<["title" := VStr title]>
                (<["price" := VFloat (Finite price)]>
                (<["availability" := VStr availability]>
                (<["rating" := of_float (rating rating_info)]>
                (<["review_count" := of_int (review_count rating_info)]>
                (<["description" :=
                     VStr (if truthy description then take_chars 500 description
                           else EmptyString)]> ∅)))))))
        end
  end.

End Runtime.

End FiverrScraper.

(* ===================================================================== *)
(** * src/scrapers/scraper_factory.py and src/main.py: the batch          *)
(* ===================================================================== *)

Module ScraperFactory.
Import Py.

(** the keys of [SCRAPERS] *)
Definition SCRAPERS : list string :=
  ["shopify"; "amazon"; "etsy"; "leboncoin"; "beacon"; "fiverr"].

(** [classes site] is the [scrape_product] of the class registered under
    the key [site] *)
Definition get_scraper (classes : string -> string -> option Dict -> Result Dict)
    (site_type : string) : option (string -> option Dict -> Result Dict) :=
  if existsb (String.eqb (lower site_type)) SCRAPERS
  then Some (classes (lower site_type))
  else None.

End ScraperFactory.

Module Main.
Import Py BaseScraper.

(** one entry of [urls_data]: [url_data['url']], [url_data['site']] and the
    dict itself, which is passed on as [product_info] *)
Record UrlData : Type := { url : string; site : string; as_dict : Dict }.

(** the body of the loop of [scrape_products] for the entry at position
    [i]: the records it appends *)
Definition scrape_one (classes : string -> string -> option Dict -> Result Dict)
    (clocks : nat -> Clock) (isoformat : nat -> string) (i : nat) (url_data : UrlData)
    : list Dict :=
  let attempt :=
    match ScraperFactory.get_scraper classes (site url_data) with
    | None => Return []
    | Some scrape_product =>
        bind (get_product_data scrape_product (clocks i) (url url_data)
                (Some (as_dict url_data)))
          (fun product_data => Return [product_data])
    end in
  match attempt with
  | Return appended => appended
  | Raise e =>
      [ <["url" := VStr (url url_data)]>
        (<["success" := VBool false]>
        (<["error_message" := VStr e]>
        (<["scraped_at" := VStr (isoformat i)]> ∅))) ]
  end.

Fixpoint scrape_from (classes : string -> string -> option Dict -> Result Dict)
    (clocks : nat -> Clock) (isoformat : nat -> string) (i : nat)
    (urls_data : list UrlData) : list Dict :=
  match urls_data with
  | [] => []
  | url_data :: rest =>
      scrape_one classes clocks isoformat i url_data
      ++ scrape_from classes clocks isoformat (S i) rest
  end.

Definition scrape_products (classes : string -> string -> option Dict -> Result Dict)
    (clocks : nat -> Clock) (isoformat : nat -> string) (urls_data : list UrlData)
    : list Dict :=
  scrape_from classes clocks isoformat 0 urls_data.

Definition supported (url_data : UrlData) : bool :=
  existsb (String.eqb (lower (site url_data))) ScraperFactory.SCRAPERS.

End Main.

(* ===================================================================== *)
(** * src/reports/report_generator.py                                     *)
(* ===================================================================== *)

Module ReportGenerator.
Import Py.

(** One row of the DataFrame built from a snapshot.  A cell is [None]
    when the record had no such key (pandas stores [nan]).  Every record
    has its URL, so the frames of non-empty snapshots have the column
    'url' and the guard on that column does not fire. *)
Record Row : Type := {
  url : string;
  title : option string;
  price : option Q;
  availability : option string
}.

Record PriceChange : Type := {
  pc_url : string;
  pc_title : option string;
  old_price : Q;
  new_price : Q;
  change_percent : Q
}.

Record AvailabilityChange : Type := {
  ac_url : string;
  ac_title : option string;
  old_availability : option string;
  new_availability : option string
}.

Record NewProduct : Type := {
  np_url : string;
  np_title : option string;
  np_price : option Q
}.

Record RemovedProduct : Type := {
  rp_url : string;
  rp_title : option string;
  last_price : option Q
}.

(** the summary without [generated_at], which is the wall clock *)
Record Summary : Type := {
  total_price_changes : nat;
  total_availability_changes : nat;
  new_products_count : nat;
  removed_products_count : nat
}.

Record Report : Type := {
  price_changes : list PriceChange;
  availability_changes : list AvailabilityChange;
  new_products : list NewProduct;
  removed_products : list RemovedProduct;
  summary : Summary
}.

(** The order in which [for url in <set>] visits a set built from the
    list [l]: every member once. *)
Record SetOrder : Type := {
  iter : list string -> list string;
  iter_NoDup : forall l, NoDup (iter l);
  iter_elem : forall l x, x ∈ iter l <-> x ∈ l
}.

Definition column_url (df : list Row) : list string := map url df.

Definition mem (u : string) (l : list string) : bool := existsb (String.eqb u) l.

(** [set(a).intersection(set(b))] and [set(a) - set(b)], as lists of members *)
Definition intersection (a b : list string) : list string :=
  List.filter (fun u => mem u b) a.
Definition difference (a b : list string) : list string :=
  List.filter (fun u => negb (mem u b)) a.

(** [df[df['url'] == url]] *)
Definition rows_of (df : list Row) (u : string) : list Row :=
  List.filter (fun r => String.eqb (url r) u) df.

(** [.iloc[0]] and [.iloc[-1]]: an [IndexError] on an empty frame *)
Definition iloc_first (rows : list Row) : Result Row :=
  match rows with
  | r :: _ => Return r
  | [] => Raise "IndexError"
  end.

Definition iloc_last (rows : list Row) : Result Row :=
  match last rows with
  | Some r => Return r
  | None => Raise "IndexError"
  end.

Definition Qlt_bool (x y : Q) : bool := negb (Qle_bool y x).

(** [a != b] on cells: [nan] differs from everything, itself included *)
Definition cell_ne (a b : option string) : bool :=
  match a, b with
  | Some x, Some y => negb (String.eqb x y)
  | _, _ => true
  end.

(** [current_price > 0 and historical_price > 0] *)
Definition comparable (current_price historical_price : option Q) : option (Q * Q) :=
  match current_price, historical_price with
  | Some c, Some h => if Qlt_bool 0 c && Qlt_bool 0 h then Some (c, h) else None
  | _, _ => None
  end.

Definition price_change_pct (current_price historical_price : Q) : Q :=
  ((current_price - historical_price) / historical_price) * 100.

(** the price part of the loop body: the records to append *)
Definition price_change_of (u : string) (current_product historical_product : Row)
    : list PriceChange :=
  match comparable (price current_product) (price historical_product) with
  | Some (current_price, historical_price) =>
      let pct := price_change_pct current_price historical_price in
      if Qle_bool Config.PRICE_CHANGE_THRESHOLD (Qabs pct)
      then [ {| pc_url := u; pc_title := title current_product;
                old_price := historical_price; new_price := current_price;
                change_percent := round2 pct |} ]
      else []
  | None => []
  end.

(** the availability part of the loop body *)
Definition availability_change_of (u : string) (current_product historical_product : Row)
    : list AvailabilityChange :=
  if cell_ne (availability current_product) (availability historical_product)
  then [ {| ac_url := u; ac_title := title current_product;
            old_availability := availability historical_product;
            new_availability := availability current_product |} ]
  else [].

(** [for x in xs: state = body(x, state)], stopping at the first raise *)
Fixpoint for_each {S} (body : string -> S -> Result S) (xs : list string) (state : S)
    : Result S :=
  match xs with
  | [] => Return state
  | x :: rest => bind (body x state) (for_each body rest)
  end.

Definition compare_common (current_df historical_df : list Row) (u : string)
    (acc : list PriceChange * list AvailabilityChange)
    : Result (list PriceChange * list AvailabilityChange) :=
  bind (iloc_first (rows_of current_df u)) (fun current_product =>
  bind (iloc_last (rows_of historical_df u)) (fun historical_product =>
    Return (acc.1 ++ price_change_of u current_product historical_product,
            acc.2 ++ availability_change_of u current_product historical_product))).

Definition add_new (current_df : list Row) (u : string) (acc : list NewProduct)
    : Result (list NewProduct) :=
  bind (iloc_first (rows_of current_df u)) (fun product =>
    Return (acc ++ [ {| np_url := u; np_title := title product;
                        np_price := price product |} ])).

Definition add_removed (historical_df : list Row) (u : string) (acc : list RemovedProduct)
    : Result (list RemovedProduct) :=
  bind (iloc_last (rows_of historical_df u)) (fun product =>
    Return (acc ++ [ {| rp_url := u; rp_title := title product;
                        last_price := price product |} ])).

(** [None] is the empty dict [{}] returned when a snapshot is empty *)
Definition generate_comparison_report (order : SetOrder)
    (current_data historical_data : list Row) : Result (option Report) :=
  match current_data, historical_data with
  | [], _ | _, [] => Return None
  | _, _ =>
      let current_df := current_data in
      let historical_df := historical_data in
      let common_urls :=
        intersection (column_url current_df) (column_url historical_df) in
      bind (for_each (compare_common current_df historical_df)
              (iter order common_urls) ([], []))
        (fun changes =>
      let new_urls := difference (column_url current_df) (column_url historical_df) in
      bind (for_each (add_new current_df) (iter order new_urls) [])
        (fun new_products =>
      let removed_urls := difference (column_url historical_df) (column_url current_df) in
      bind (for_each (add_removed historical_df) (iter order removed_urls) [])
        (fun removed_products =>
      Return (Some
        {| price_changes := changes.1;
           availability_changes := changes.2;
           new_products := new_products;
           removed_products := removed_products;
           summary :=
             {| total_price_changes := length changes.1;
                total_availability_changes := length changes.2;
                new_products_count := length new_products;
                removed_products_count := length removed_products |} |}))))
  end.

End ReportGenerator.

(* ===================================================================== *)
(** * More of the Python runtime                                          *)
(* ===================================================================== *)

From Stdlib Require Import DecimalString.

Module PyStr.
Import Py.

(** [s.strip()] *)
Definition strip (s : string) : string := rstrip (lstrip s).


(** [s.split(c)] for a one-character [c] *)
Fixpoint split_on (c : ascii) (s : string) : list string :=
  match s with
  | EmptyString => [EmptyString]
  | String d r =>
      if Ascii.eqb d c then EmptyString :: split_on c r
      else match split_on c r with
           | piece :: pieces => String d piece :: pieces
           | [] => [String d EmptyString]
           end
  end.

(** [sep.join(pieces)] *)
Fixpoint join (sep : string) (pieces : list string) : string :=
  match pieces with
  | [] => EmptyString
  | [piece] => piece
  | piece :: rest => piece +:+ sep +:+ join sep rest
  end.

(** [str(n)] for a natural number *)
Definition str_of_nat (n : nat) : string :=
  NilEmpty.string_of_uint (Nat.to_uint n).

End PyStr.

(* ===================================================================== *)
(** * src/config.py: SITE_CONFIGS                                         *)
(* ===================================================================== *)

Module SiteConfigs.
Import Py.

Record Selectors : Type := {
  title : list string;
  price : list string;
  availability : list string;
  reviews : list string;
  description : list string
}.

Definition shopify : Selectors :=
  {| title := ["h1.product-title"; ".product__title"; ".product-single__title"; "h1"];
     price := [".price"; ".product-price"; ".money"; ".current_price"];
     availability := [".product-availability"; ".inventory_quantity"; ".stock-level"];
     reviews := [".reviews-summary"; ".product-reviews"; ".review-count"];
     description := [".product-description"; ".product-single__description"; ".rte"] |}.

Definition amazon : Selectors :=
  {| title := ["#productTitle"; ".product-title"];
     price := ["#priceblock_dealprice"; "#priceblock_ourprice"; ".a-price-whole"];
     availability := ["#availability span"; ".availability-msg"];
     reviews := ["#acrCustomerReviewText"; ".review-count"];
     description := ["#feature-bullets"; ".product-description"] |}.

Definition etsy : Selectors :=
  {| title := ["h1" +:+ attribute_is "data-test-id" "listing-page-title";
               ".listing-page-title"];
     price := [".currency-value"; ".notranslate"];
     availability := [".listing-page-availability"; ".stock-level"];
     reviews := [".shop2-review-average"; ".review-text"];
     description := [".listing-description"; ".shop2-listing-description"] |}.

Definition leboncoin : Selectors :=
  {| title := ["h1" +:+ attribute_is "data-qa-id" "adview_title"; ".ad-title"];
     price := [attribute_is "data-qa-id" "adview_price"; ".price"];
     availability := [".availability"; ".stock-info"];
     reviews := [".rating"; ".review-count"];
     description := [attribute_is "data-qa-id" "adview_description_container";
                     ".ad-description"] |}.

End SiteConfigs.

(* ===================================================================== *)
(** * The scrapers: prices, reviews, descriptions and [scrape_product]    *)
(* ===================================================================== *)

(** What the scrapers share in shape.  The source repeats these lines in
    every class; they are written once here and used under the source's
    names below. *)
Module Scraping.
Import Py BaseScraper.

(** [for element in elements: price = self._clean_price(
    element.get_text(strip=True)); if price > 0: return price] *)
Fixpoint scan_prices (elements : list Element) : option Q :=
  match elements with
  | [] => None
  | element :: rest =>
      let price := _clean_price (text_stripped element) in
      if ReportGenerator.Qlt_bool 0 price then Some price else scan_prices rest
  end.

(** [for selector in price_selectors: elements = soup.select(selector);
    <the loop above>] and then [return 0.0] *)
Fixpoint price_cascade (soup : Soup) (price_selectors : list string) : Q :=
  match price_selectors with
  | [] => 0.0%Q
  | selector :: rest =>
      match scan_prices (select soup selector) with
      | Some price => price
      | None => price_cascade soup rest
      end
  end.

(** [description[:500] if description else ''] *)
Definition bounded (description : string) : string :=
  if truthy description then take_chars 500 description else EmptyString.

Definition of_rating (rating : option Q) : Value :=
  match rating with
  | Some q => VFloat (Finite q)
  | None => VNone
  end.

(** the dict every [scrape_product] returns *)
Definition product_fields (title : string) (price : Q) (availability : string)
    (rating review_count : Value) (description : string) : Dict :=
  <["title" := VStr title]>
  (<["price" := VFloat (Finite price)]>
  (<["availability" := VStr availability]>
  (<["rating" := rating]>
  (<["review_count" := review_count]>
  (<["description" := VStr description]> ∅))))).

(** [response = self._make_request(url); if not response: raise ...;
    soup = self._parse_html(response); if not soup: raise ...], then the
    extraction [extract] on the page *)
Definition fetch_and_parse (parser : string -> Result Soup)
    (server : string -> nat -> Outcome) (url : string)
    (fetch_failed parse_failed : string) (extract : Soup -> Result Dict) : Result Dict :=
  match (_make_request (server url) None).1 with
  | None => Raise fetch_failed
  | Some response =>
      if negb (FiverrScraper.response_ok response) then Raise fetch_failed
      else
        match _parse_html parser response with
        | None => Raise parse_failed
        | Some soup => extract soup
        end
  end.

End Scraping.

Module Shopify.
Import Py BaseScraper Scraping.

Definition scrape_product (parser : string -> Result Soup)
    (server : string -> nat -> Outcome) (url : string) (product_info : option Dict)
    : Result Dict :=
  fetch_and_parse parser server url
    "Impossible de récupérer la page" "Impossible de parser le HTML"
    (fun soup =>
       let selectors := SiteConfigs.shopify in
       let title := _extract_text soup (SiteConfigs.title selectors) in
       let price_text := _extract_text soup (SiteConfigs.price selectors) in
       let price := _clean_price price_text in
       let availability_text := _extract_text soup (SiteConfigs.availability selectors) in
       let availability :=
         ShopifyScraper._determine_availability availability_text soup in
       let reviews_text := _extract_text soup (SiteConfigs.reviews selectors) in
       let rating_info := _extract_rating reviews_text in
       let description := _extract_text soup (SiteConfigs.description selectors) in
       Return (product_fields title price availability
                 (of_rating (rating rating_info))
                 (FiverrScraper.of_int (review_count rating_info))
                 (bounded description))).

End Shopify.

Module Etsy.
Import Py BaseScraper Scraping.

Definition price_selectors : list string :=
  [attribute_is "data-test-id" "listing-page-price" +:+ " .currency-value";
   ".currency-value"; ".notranslate"; ".shop2-listing-price"].

Definition _extract_etsy_price (soup : Soup) : Q := price_cascade soup price_selectors.

Definition rating_selectors : list string :=
  [attribute_is "data-test-id" "review-star-rating"; ".shop2-review-average";
   ".rating-text"].

Definition review_selectors : list string :=
  [attribute_is "data-test-id" "review-count"; ".review-count"; "[data-review-count]"].

(** [if rating_info['rating']:] fails for [None] and for 0.0 *)
Definition rating_truthy (rating : option Q) : bool :=
  match rating with
  | Some q => negb (Qeq_bool q 0)
  | None => false
  end.

Fixpoint rating_loop (soup : Soup) (selectors : list string) : option Q :=
  match selectors with
  | [] => None
  | selector :: rest =>
      match select_one soup selector with
      | Some element =>
          let rating_info := _extract_rating (text_stripped element) in
          if rating_truthy (rating rating_info) then rating rating_info
          else rating_loop soup rest
      | None => rating_loop soup rest
      end
  end.

Fixpoint review_loop (soup : Soup) (selectors : list string) : Result (option Z) :=
  match selectors with
  | [] => Return None
  | selector :: rest =>
      match select_one soup selector with
      | Some element =>
          match Re.search FiverrScraper.count_pattern
                  (replace_char "," EmptyString (text_stripped element)) with
          | Some g =>
              match int_of_digits g with
              | Some n => Return (Some n)
              | None => Raise "ValueError"
              end
          | None => review_loop soup rest
          end
      | None => review_loop soup rest
      end
  end.

Definition _extract_etsy_reviews (soup : Soup) : Result RatingInfo :=
  let rating := rating_loop soup rating_selectors in
  bind (review_loop soup review_selectors) (fun review_count =>
    Return {| rating := rating; review_count := review_count |}).

Definition scrape_product (parser : string -> Result Soup)
    (server : string -> nat -> Outcome) (url : string) (product_info : option Dict)
    : Result Dict :=
  fetch_and_parse parser server url
    "Impossible de récupérer la page Etsy" "Impossible de parser le HTML Etsy"
    (fun soup =>
       let selectors := SiteConfigs.etsy in
       let title := _extract_text soup (SiteConfigs.title selectors) in
       let price := _extract_etsy_price soup in
       let availability := EtsyScraper._extract_etsy_availability soup in
       bind (_extract_etsy_reviews soup) (fun rating_info =>
         let description := _extract_text soup (SiteConfigs.description selectors) in
         Return (product_fields title price availability
                   (of_rating (rating rating_info))
                   (FiverrScraper.of_int (review_count rating_info))
                   (bounded description)))).

End Etsy.

Module Amazon.
Import Py BaseScraper Scraping.

Definition blocked_indicators : list string :=
  ["api-services-support@amazon.com"; "Robot Check";
   "Enter the characters you see below";
   "Sorry, we just need to make sure you're not a robot"].

Definition _is_blocked (soup : Soup) : bool :=
  let page_text := lower (page_text soup) in
  existsb (fun indicator => contains (lower indicator) page_text) blocked_indicators.

Definition price_selectors : list string :=
  [".a-price-whole"; "#priceblock_dealprice"; "#priceblock_ourprice"; ".a-offscreen";
   ".a-price.a-text-price.a-size-medium.apexPriceToPay"; ".a-price-range"].

Definition _extract_amazon_price (soup : Soup) : Q := price_cascade soup price_selectors.

Definition desc_selectors : list string :=
  ["#feature-bullets ul"; ".product-description"; "#productDescription"].

Section Page.
(** [element.find_all('li')] *)
Variable find_all_li : Element -> list Element.
(** [float(text)] on arbitrary text *)
Variable py_float : string -> Result PyFloat.

Fixpoint description_cascade (soup : Soup) (selectors : list string) : string :=
  match selectors with
  | [] => EmptyString
  | selector :: rest =>
      match select_one soup selector with
      | Some element =>
          let description :=
            if String.eqb (name element) "ul" then
              PyStr.join " | " (map text_stripped (take 5 (find_all_li element)))
            else text_stripped element in
          if truthy description then take_chars 500 description
          else description_cascade soup rest
      | None => description_cascade soup rest
      end
  end.

Definition _extract_amazon_description (soup : Soup) : string :=
  description_cascade soup desc_selectors.

Definition scrape_product (parser : string -> Result Soup)
    (server : string -> nat -> Outcome) (url : string) (product_info : option Dict)
    : Result Dict :=
  fetch_and_parse parser server url
    "Impossible de récupérer la page Amazon" "Impossible de parser le HTML Amazon"
    (fun soup =>
       if _is_blocked soup then Raise "Requête bloquée par Amazon"
       else
         let selectors := SiteConfigs.amazon in
         let title := _extract_text soup (SiteConfigs.title selectors) in
         let price := _extract_amazon_price soup in
         let availability := AmazonScraper._extract_amazon_availability soup in
         let rating_info := AmazonScraper._extract_amazon_reviews py_float soup in
         let description := _extract_amazon_description soup in
         Return (product_fields title price availability
                   (FiverrScraper.of_float (AmazonScraper.rating rating_info))
                   (FiverrScraper.of_int (AmazonScraper.review_count rating_info))
                   description)).

End Page.

End Amazon.

Module Leboncoin.
Import Py BaseScraper Scraping.

Definition unavailable_indicators : list string :=
  ["Cette annonce n'est plus disponible"; "Annonce expirée";
   "Cette annonce a été supprimée"].

Definition _extract_leboncoin_availability (soup : Soup) : string :=
  if existsb (fun indicator => contains indicator (page_text soup)) unavailable_indicators
  then "Annonce expirée"
  else "Disponible".

Definition scrape_product (parser : string -> Result Soup)
    (server : string -> nat -> Outcome) (url : string) (product_info : option Dict)
    : Result Dict :=
  fetch_and_parse parser server url
    "Impossible de récupérer la page Leboncoin" "Impossible de parser le HTML Leboncoin"
    (fun soup =>
       let selectors := SiteConfigs.leboncoin in
       let title := _extract_text soup (SiteConfigs.title selectors) in
       let price_text := _extract_text soup (SiteConfigs.price selectors) in
       let price := _clean_price price_text in
       let availability := _extract_leboncoin_availability soup in
       let description := _extract_text soup (SiteConfigs.description selectors) in
       Return (product_fields title price availability VNone VNone
                 (bounded description))).

End Leboncoin.

Module Beacon.
Import Py BaseScraper Scraping.

Definition scrape_product (parser : string -> Result Soup)
    (server : string -> nat -> Outcome) (url : string) (product_info : option Dict)
    : Result Dict :=
  fetch_and_parse parser server url
    "Impossible de récupérer la page Beacon" "Impossible de parser le HTML Beacon"
    (fun soup =>
       let title_selectors := ["h1.service-title"; ".service-name"; "h1"; ".title"] in
       let price_selectors := [".price"; ".service-price"; ".pricing"; "[data-price]"] in
       let availability_selectors := [".availability"; ".service-status"; ".status"] in
       let description_selectors :=
         [".service-description"; ".description"; ".service-details"] in
       let title := _extract_text soup title_selectors in
       let price_text := _extract_text soup price_selectors in
       let price := _clean_price price_text in
       let availability_text := _extract_text soup availability_selectors in
       let availability :=
         if truthy availability_text then availability_text else "Disponible" in
       let description := _extract_text soup description_selectors in
       Return (product_fields title price availability VNone VNone
                 (bounded description))).

End Beacon.

(* ===================================================================== *)
(** * src/scrapers/scraper_factory.py: the classes behind [SCRAPERS]      *)
(* ===================================================================== *)

Module Registry.
Import Py BaseScraper.

(** what the scrapers use of the outside world *)
Record World : Type := {
  parser : string -> Result Soup;          (* BeautifulSoup(content, 'lxml') *)
  server : string -> nat -> Outcome;       (* the k-th GET of a URL *)
  find_all_li : Element -> list Element;   (* element.find_all('li') *)
  py_float : string -> Result PyFloat      (* float(text) *)
}.

(** [ScraperFactory.SCRAPERS]: each key with the [scrape_product] of the
    class registered under it *)
Definition SCRAPERS (world : World)
    : list (string * (string -> option Dict -> Result Dict)) :=
  [("shopify", Shopify.scrape_product (parser world) (server world));
   ("amazon", Amazon.scrape_product (find_all_li world) (py_float world)
                (parser world) (server world));
   ("etsy", Etsy.scrape_product (parser world) (server world));
   ("leboncoin", Leboncoin.scrape_product (parser world) (server world));
   ("beacon", Beacon.scrape_product (parser world) (server world));
   ("fiverr", FiverrScraper.scrape_product (py_float world) (parser world)
                (server world))].

(** [SCRAPERS[site]]; [get_scraper] asks for registered keys only *)
Definition classes (world : World) (site : string)
    : string -> option Dict -> Result Dict :=
  match List.find (fun entry => String.eqb entry.1 site) (SCRAPERS world) with
  | Some entry => entry.2
  | None => fun _ _ => Raise "KeyError"
  end.

End Registry.

(* ===================================================================== *)
(** * src/utils/file_loader.py                                            *)
(* ===================================================================== *)

Module FileLoader.
Import Py BaseScraper.

Definition _detect_site (url : string) : string :=
  let url_lower := lower url in
  if contains "amazon." url_lower then "amazon"
  else if contains "shopify" url_lower || contains ".myshopify.com" url_lower
  then "shopify"
  else if contains "etsy.com" url_lower then "etsy"
  else if contains "leboncoin.fr" url_lower then "leboncoin"
  else if contains "beacon.by" url_lower then "beacon"
  else if contains "fiverr.com" url_lower then "fiverr"
  else "unknown".

(** the dict [{'url': ..., 'name': ..., 'category': ..., 'site': ...}] *)
Definition url_data (url name category site : string) : Main.UrlData :=
  {| Main.url := url;
     Main.site := site;
     Main.as_dict :=
       <["url" := VStr url]>
       (<["name" := VStr name]>
       (<["category" := VStr category]>
       (<["site" := VStr site]> ∅))) |}.

(** ** The TXT branch *)

(** [for line_num, line in enumerate(file, 1): ...] from [line_num] on *)
Fixpoint load_txt (line_num : nat) (lines : list string) : list Main.UrlData :=
  match lines with
  | [] => []
  | line :: rest =>
      let url := PyStr.strip line in
      if truthy url && negb (starts_with "#" url)
      then url_data url ("Product_" +:+ PyStr.str_of_nat line_num) "" (_detect_site url)
           :: load_txt (S line_num) rest
      else load_txt (S line_num) rest
  end.

(** ** The CSV branch *)

(** a cell of the frame [pd.read_csv] gives: a string, or something that
    has no [strip] (the [nan] of an empty cell, a number) *)
Inductive Cell : Type :=
| Text (s : string)
| NotText.

(** the frame: its column names, and each row as the cell it holds in
    each column *)
Record Frame : Type := {
  columns : list string;
  rows : list (string -> Cell)
}.

Definition has_column (frame : Frame) (col : string) : bool :=
  existsb (String.eqb col) (columns frame).

(** [row.get(col, '')] *)
Definition row_get (frame : Frame) (row : string -> Cell) (col : string) : Cell :=
  if has_column frame col then row col else Text "".

(** [cell.strip()] *)
Definition strip_cell (cell : Cell) : Result string :=
  match cell with
  | Text s => Return (PyStr.strip s)
  | NotText => Raise "AttributeError"
  end.

(** [cell.lower()], the first step of [_detect_site(cell)] *)
Definition detect_cell (cell : Cell) : Result string :=
  match cell with
  | Text s => Return (_detect_site s)
  | NotText => Raise "AttributeError"
  end.

(** the body of [for _, row in df.iterrows(): ...] *)
Definition load_row (frame : Frame) (row : string -> Cell) : Result Main.UrlData :=
  bind (strip_cell (row "url")) (fun url =>
  bind (strip_cell (row_get frame row "name")) (fun name =>
  bind (strip_cell (row_get frame row "category")) (fun category =>
  bind (detect_cell (row "url")) (fun site =>
  Return (url_data url name category site))))).

Fixpoint load_rows (frame : Frame) (rows : list (string -> Cell))
    : Result (list Main.UrlData) :=
  match rows with
  | [] => Return []
  | row :: rest =>
      bind (load_row frame row) (fun entry =>
      bind (load_rows frame rest) (fun entries => Return (entry :: entries)))
  end.

(** ** load_urls *)

(** the file at [file_path], as [load_urls] meets it *)
Inductive File : Type :=
| Missing                              (* not file_path.exists() *)
| Csv (read_csv : Result Frame)        (* suffix .csv, with what pd.read_csv does *)
| Txt (lines : list string)            (* suffix .txt, with its lines *)
| Other.                               (* any other suffix *)

Definition load_urls (file : File) : list Main.UrlData :=
  match file with
  | Missing => []
  | Csv read_csv =>
      let body :=
        bind read_csv (fun df =>
          if negb (forallb (has_column df) ["url"]) then Return []
          else load_rows df (rows df)) in
      match body with
      | Return urls_data => urls_data
      | Raise _ => []
      end
  | Txt lines => load_txt 1 lines
  | Other => []
  end.

End FileLoader.

(* ===================================================================== *)
(** * src/main.py: CompetitiveScraper.load_urls                           *)
(* ===================================================================== *)

Module CompetitiveScraper.
Import Py.

(** [ScraperFactory.is_site_supported(url_data['site'])] is
    [Main.supported] *)
Definition load_urls (file : FileLoader.File) : list Main.UrlData :=
  let urls_data := FileLoader.load_urls file in
  match urls_data with
  | [] => []
  | _ => List.filter Main.supported urls_data
  end.

End CompetitiveScraper.

(* ===================================================================== *)
(** * src/reports/report_generator.py: the CSV reports                    *)
(* ===================================================================== *)

Module Reports.
Import Py.

(** ** The frame and the Python operations on its columns *)

(** a DataFrame: its column names in order, and its rows.  A cell a row
    does not have is [nan]. *)
Record Frame : Type := {
  columns : list string;
  rows : list Dict
}.

Definition nan : Value := VFloat NaN.

Definition cell (row : Dict) (col : string) : Value := get row col nan.

(** [df[col]] *)
Definition column (df : Frame) (col : string) : list Value :=
  map (fun row => cell row col) (rows df).

(** [col in df.columns] *)
Definition has_column (df : Frame) (col : string) : bool :=
  existsb (String.eqb col) (columns df).

(** [df[col] = cells] for a column the frame has *)
Definition set_column (df : Frame) (col : string) (cells : list Value) : Frame :=
  {| columns := columns df;
     rows := imap (fun i row => <[col := default nan (cells !! i)]> row) (rows df) |}.

(** [df[cols]] *)
Definition select_columns (df : Frame) (cols : list string) : Frame :=
  {| columns := cols; rows := rows df |}.

(** float addition, on exact values *)
Definition float_add (a b : PyFloat) : PyFloat :=
  match a, b with
  | NaN, _ | _, NaN => NaN
  | Finite p, Finite q => Finite (p + q)
  | Infinity s, Finite _ | Finite _, Infinity s => Infinity s
  | Infinity s, Infinity t => if Bool.eqb s t then Infinity s else NaN
  end.

(** a value as a number: a bool counts as 0 or 1 *)
Definition numeric (v : Value) : option (Z + PyFloat) :=
  match v with
  | VBool b => Some (inl (Z.b2z b))
  | VInt z => Some (inl z)
  | VFloat f => Some (inr f)
  | VStr _ | VNone => None
  end.

Definition as_float (n : Z + PyFloat) : PyFloat :=
  match n with
  | inl z => Finite (inject_Z z)
  | inr f => f
  end.

(** [a + b] *)
Definition py_add (a b : Value) : Result Value :=
  match a, b with
  | VStr s, VStr t => Return (VStr (s +:+ t))
  | _, _ =>
      match numeric a, numeric b with
      | Some (inl x), Some (inl y) => Return (VInt (x + y))
      | Some x, Some y => Return (VFloat (float_add (as_float x) (as_float y)))
      | _, _ => Raise "TypeError"
      end
  end.

(** [sum(cells)]: the additions start from the integer 0 *)
Definition py_sum (cells : list Value) : Result Value :=
  fold_left (fun total v => bind total (fun t => py_add t v)) cells (Return (VInt 0)).

(** [~v] for one cell: the negation of a bool, the complement of an
    integer; strings and floats have none *)
Definition invert_cell (v : Value) : Result Value :=
  match v with
  | VBool b => Return (VBool (negb b))
  | VInt z => Return (VInt (- z - 1))
  | VFloat _ | VStr _ | VNone => Raise "TypeError"
  end.

(** [~cells] *)
Fixpoint series_invert (cells : list Value) : Result (list Value) :=
  match cells with
  | [] => Return []
  | v :: rest =>
      bind (invert_cell v) (fun w =>
      bind (series_invert rest) (fun ws => Return (w :: ws)))
  end.

(** ** generate_csv_report *)

(** [Config.REPORTS_DIR] *)
Definition REPORTS_DIR : string := "reports_output".

Definition preferred_columns : list string :=
  ["product_name"; "title"; "url"; "site"; "category"; "price"; "availability";
   "rating"; "review_count"; "description"; "scraped_at"; "success"; "error_message"].

Definition available_columns (df : Frame) : list string :=
  List.filter (has_column df) preferred_columns.

Definition remaining_columns (df : Frame) : list string :=
  List.filter (fun col => negb (existsb (String.eqb col) (available_columns df)))
    (columns df).

Definition final_columns (df : Frame) : list string :=
  available_columns df ++ remaining_columns df.

(** [{True: 'Oui', False: 'Non'}] applied to a cell by [Series.map]: the
    keys are found by equality, so 1 and 1.0 read as True and 0 and 0.0 as
    False; a cell that is no key becomes [nan] *)
Definition map_success (v : Value) : Value :=
  match v with
  | VBool b => VStr (if b then "Oui" else "Non")
  | VInt z => if z =? 1 then VStr "Oui" else if z =? 0 then VStr "Non" else nan
  | VFloat (Finite q) =>
      if Qeq_bool q 1 then VStr "Oui" else if Qeq_bool q 0 then VStr "Non" else nan
  | VFloat _ | VStr _ | VNone => nan
  end.

(** a file written by [to_csv] *)
Record Written : Type := { path : string; frame : Frame }.

Section Pandas.
(** [Series.round(2)] *)
Variable series_round : list Value -> Result (list Value).
(** [Series.str.replace(old, new)] *)
Variable series_str_replace : string -> string -> list Value -> Result (list Value).
(** [df.to_csv(path, ...)]: writing can fail *)
Variable to_csv : string -> Frame -> Result unit.
(** [reports_dir / filename], as a string *)
Variable path_join : string -> string -> string.

Definition _clean_dataframe (df : Frame) : Result Frame :=
  bind
    (if has_column df "price"
     then bind (series_round (column df "price")) (fun cells =>
            Return (set_column df "price" cells))
     else Return df) (fun df =>
  bind
    (if has_column df "description"
     then bind (series_str_replace (String (ascii_of_N 10) "") " "
                  (column df "description")) (fun cells =>
          bind (series_str_replace (String (ascii_of_N 13) "") " " cells) (fun cells =>
            Return (set_column df "description" cells)))
     else Return df) (fun df =>
  Return
    (if has_column df "success"
     then set_column df "success" (map map_success (column df "success"))
     else df))).

(** [df[col]] in an expression: a [KeyError] without the column *)
Definition get_column (df : Frame) (col : string) : Result (list Value) :=
  if has_column df col then Return (column df col) else Raise "KeyError".

(** the lines after [to_csv]: the three log messages are formatted, then
    the path is returned *)
Definition log_and_return (df : Frame) (filepath : string) : Result string :=
  bind (get_column df "success") (fun success =>
  bind (py_sum success) (fun _ =>
  bind (get_column df "success") (fun success =>
  bind (series_invert success) (fun inverted =>
  bind (py_sum inverted) (fun _ =>
  Return filepath))))).

(** [df] is the frame [pd.DataFrame(data)] makes, one row per record;
    [timestamp] is the formatted [datetime.now()].  The result is the
    returned string and the files written. *)
Definition generate_csv_report (df : Frame) (filename : option string)
    (timestamp : string) : string * list Written :=
  match rows df with
  | [] => (EmptyString, [])
  | _ :: _ =>
      let filename :=
        match filename with
        | Some name =>
            if BaseScraper.truthy name then name
            else "competitive_report_" +:+ timestamp +:+ ".csv"
        | None => "competitive_report_" +:+ timestamp +:+ ".csv"
        end in
      let filepath := path_join REPORTS_DIR filename in
      match _clean_dataframe (select_columns df (final_columns df)) with
      | Raise _ => (EmptyString, [])
      | Return df =>
          match to_csv filepath df with
          | Raise _ => (EmptyString, [])
          | Return _ =>
              let written := [ {| path := filepath; frame := df |} ] in
              match log_and_return df filepath with
              | Return returned => (returned, written)
              | Raise _ => (EmptyString, written)
              end
          end
      end
  end.

(** ** save_comparison_report *)

(** [f"{price}€"] and [f"{percent}%"] need [str] of a float *)
Variable str_of_float : Q -> string.
(** [pd.DataFrame(all_changes).to_csv(path, ...)]: writing can fail *)
Variable changes_to_csv : string -> list (list (string * option string)) -> Result unit.

(** a row of [all_changes], key by key; a value is [None] where the
    report had no title or no availability *)
Definition price_row (change : ReportGenerator.PriceChange)
    : list (string * option string) :=
  [("type", Some "Prix");
   ("url", Some (ReportGenerator.pc_url change));
   ("titre", ReportGenerator.pc_title change);
   ("ancienne_valeur",
    Some (str_of_float (ReportGenerator.old_price change) +:+ "€"));
   ("nouvelle_valeur",
    Some (str_of_float (ReportGenerator.new_price change) +:+ "€"));
   ("details", Some (str_of_float (ReportGenerator.change_percent change) +:+ "%"))].

Definition availability_row (change : ReportGenerator.AvailabilityChange)
    : list (string * option string) :=
  [("type", Some "Disponibilité");
   ("url", Some (ReportGenerator.ac_url change));
   ("titre", ReportGenerator.ac_title change);
   ("ancienne_valeur", ReportGenerator.old_availability change);
   ("nouvelle_valeur", ReportGenerator.new_availability change);
   ("details", Some "")].

(** the result is the returned string and the files written, each with
    its rows *)
Definition save_comparison_report (comparison_data : ReportGenerator.Report)
    (filename : option string) (timestamp : string)
    : string * list (string * list (list (string * option string))) :=
  let filename :=
    match filename with
    | Some name =>
        if BaseScraper.truthy name then name
        else "comparison_report_" +:+ timestamp +:+ ".csv"
    | None => "comparison_report_" +:+ timestamp +:+ ".csv"
    end in
  let filepath := path_join REPORTS_DIR filename in
  let all_changes :=
    map price_row (ReportGenerator.price_changes comparison_data)
    ++ map availability_row (ReportGenerator.availability_changes comparison_data) in
  match all_changes with
  | [] => (filepath, [])
  | _ :: _ =>
      match changes_to_csv filepath all_changes with
      | Return _ => (filepath, [(filepath, all_changes)])
      | Raise _ => (EmptyString, [])
      end
  end.

End Pandas.

(** ** generate_summary_report *)

(** [df.get('success', [])] *)
Definition get_success (df : Frame) : list Value :=
  if has_column df "success" then column df "success" else [].

(** the entries total_products, successful_scrapes and failed_scrapes of
    the summary *)
Record Counts : Type := {
  total_products : nat;
  successful_scrapes : Value;
  failed_scrapes : Value
}.

Section Summary.
(** the entries that follow in the dict: the statistics pandas computes
    on sites, prices, availability and ratings, and the wall clock *)
Variable Statistics : Type.
Variable statistics : Frame -> Result Statistics.

(** [None] is the empty dict returned when there is no data *)
Definition generate_summary_report (df : Frame) : Result (option (Counts * Statistics)) :=
  match rows df with
  | [] => Return None
  | _ :: _ =>
      bind (py_sum (get_success df)) (fun successful =>
      bind (if has_column df "success"
            then bind (series_invert (get_success df)) py_sum
            else Return (VInt 0)) (fun failed =>
      bind (statistics df) (fun others =>
      Return (Some ({| total_products := length (rows df);
                       successful_scrapes := successful;
                       failed_scrapes := failed |}, others)))))
  end.

End Summary.

End Reports.

(* ===================================================================== *)
(** * src/config.py and src/alerts/notifier.py: the e-mail alert          *)
(* ===================================================================== *)

Module EmailNotifier.
Import Py.

(** [os.getenv(name, default)] in an environment *)
Definition getenv (environ : string -> option string) (name default : string) : string :=
  match environ name with
  | Some value => value
  | None => default
  end.

(** the e-mail settings of [Config], read from the environment *)
Definition EMAIL_ENABLED (environ : string -> option string) : bool :=
  String.eqb (lower (getenv environ "EMAIL_ENABLED" "False")) "true".

Definition EMAIL_USER (environ : string -> option string) : string :=
  getenv environ "EMAIL_USER" "".

Definition EMAIL_PASSWORD (environ : string -> option string) : string :=
  getenv environ "EMAIL_PASSWORD" "".

Definition EMAIL_RECIPIENTS (environ : string -> option string) : list string :=
  PyStr.split_on "," (getenv environ "EMAIL_RECIPIENTS" "").

(** the message handed to the SMTP session *)
Record Message : Type := {
  From : string;
  To : string;
  Subject : string;
  body : string;
  subtype : string
}.

(** [smtp] is the SMTP session (connect, starttls, login, send_message),
    which can fail.  The result is the returned bool and the messages
    sent. *)
Definition send_alert (environ : string -> option string)
    (smtp : Message -> Result unit) (subject message : string)
    (recipients : option (list string)) : bool * list Message :=
  if negb (EMAIL_ENABLED environ) then (false, [])
  else
    let recipients :=
      match recipients with
      | Some (first :: others) => first :: others
      | _ => EMAIL_RECIPIENTS environ
      end in
    if match recipients with [] => true | _ => false end
       || negb (BaseScraper.truthy (EMAIL_USER environ))
       || negb (BaseScraper.truthy (EMAIL_PASSWORD environ))
    then (false, [])
    else
      let msg :=
        {| From := EMAIL_USER environ;
           To := PyStr.join ", " recipients;
           Subject := subject;
           body := message;
           subtype := if contains "<html>" message then "html" else "plain" |} in
      match smtp msg with
      | Return _ => (true, [msg])
      | Raise _ => (false, [])
      end.

End EmailNotifier.

(* ===================================================================== *)
(** * Properties                                                          *)
(* ===================================================================== *)

Import Py BaseScraper.

(** ** Strings and the regular-expression fragment *)

Lemma str_app_cons c (a b : string) : String c a +:+ b = String c (a +:+ b).
Proof. reflexivity. Qed.



Lemma str_app_nil_l (b : string) : EmptyString +:+ b = b.
Proof. reflexivity. Qed.



















(** ** Price normalization *)

(** digits, and possibly the separator [c] *)
Definition digits_or (c : ascii) (t : string) : bool :=
  str_forallb (fun x => is_digit x || Ascii.eqb x c) t.

Definition all_digits (t : string) : bool := str_forallb is_digit t.








Lemma all_digits_or c t : all_digits t = true -> digits_or c t = true.
Proof.
  unfold all_digits, digits_or. induction t as [|x t IH]; [done|]. simpl.
  intros [-> Ht]%andb_true_iff. simpl. auto.
Qed.



















(** ** Availability classification *)

(** the five values of the availability enumeration, as the scrapers spell
    them: InStock, OutOfStock, TemporarilyUnavailable, Expired, Unknown *)
Definition availability_enum : list string :=
  ["En stock"; "Rupture de stock"; "Temporairement indisponible";
   "Annonce expirée"; "Disponibilité inconnue"].

Definition element_with_text (t : string) : Element :=
  {| name := "span"; classes := []; attrs := ∅; text := t; text_stripped := t |}.

(** a page on which [selector] selects one element reading [t] *)
Definition page_with (selector t : string) : Soup :=
  {| select := fun s => if String.eqb s selector then [element_with_text t] else [];
     descendants := [element_with_text t];
     page_text := t |}.

Definition in_list (s : string) (l : list string) : bool := existsb (String.eqb s) l.

(** C2, as stated, fails: a text without any keyword comes back from the
    Amazon classifier as it is, and a stock text with a digit comes back
    from the Etsy classifier wrapped in 'En stock (...)'; neither result is
    one of the five values. *)
Lemma availability_raw_text_counterexample :
  AmazonScraper._extract_amazon_availability
    (page_with "#availability span" "Usually ships within 2 to 3 days")
  = "Usually ships within 2 to 3 days"
  /\ in_list "Usually ships within 2 to 3 days" availability_enum = false
  /\ EtsyScraper._extract_etsy_availability
       (page_with ".stock-level" "Only 3 left")
     = "En stock (Only 3 left)"
  /\ in_list "En stock (Only 3 left)" availability_enum = false.
Proof. by vm_compute. Qed.

(** C2 (amended): on every page both classifiers return a string (they
    contain no raising operation).  The Amazon result is one of
    'Disponibilité inconnue', 'En stock', 'Temporairement indisponible',
    'Rupture de stock', or else the extracted text itself, which is then
    non-empty and free of every keyword.  The Etsy result is one of
    'En stock', 'Rupture de stock', 'Disponibilité inconnue', or else
    'En stock (<stock text>)' for a keyword-free stock text with a digit. *)
Theorem availability_labels_or_raw_text :
  forall soup : Soup,
    (let raw := _extract_text soup AmazonScraper.availability_selectors in
     let result := AmazonScraper._extract_amazon_availability soup in
     in_list result ["Disponibilité inconnue"; "En stock";
                     "Temporairement indisponible"; "Rupture de stock"] = true
     \/ (result = raw /\ truthy raw = true
         /\ any_in ["en stock"; "in stock"; "disponible"; "temporairement";
                    "currently unavailable"; "indisponible"; "rupture"; "out of stock"]
              (lower raw) = false))
    /\
    (let raw := _extract_text soup EtsyScraper.stock_selectors in
     let result := EtsyScraper._extract_etsy_availability soup in
     in_list result ["En stock"; "Rupture de stock"; "Disponibilité inconnue"] = true
     \/ (result = "En stock (" +:+ raw +:+ ")" /\ str_existsb is_digit raw = true
         /\ any_in ["en stock"; "disponible"; "available"; "épuisé"; "sold out";
                    "unavailable"] (lower raw) = false)).
Proof.
  intros soup. split; cbv zeta.
  - unfold AmazonScraper._extract_amazon_availability, AmazonScraper.classify.
    generalize (_extract_text soup AmazonScraper.availability_selectors) as raw.
    intros raw. destruct (truthy raw) eqn:Ht; simpl; [|by left].
    destruct (contains "en stock" (lower raw)); [by left|].
    destruct (contains "in stock" (lower raw)); [by left|].
    destruct (contains "disponible" (lower raw)); [by left|].
    destruct (contains "temporairement" (lower raw)); [by left|].
    destruct (contains "currently unavailable" (lower raw)); [by left|].
    destruct (contains "indisponible" (lower raw)); [by left|].
    destruct (contains "rupture" (lower raw)); [by left|].
    destruct (contains "out of stock" (lower raw)); [by left|].
    by right.
  - unfold EtsyScraper._extract_etsy_availability, EtsyScraper.classify_stock.
    generalize (_extract_text soup EtsyScraper.stock_selectors) as raw.
    intros raw.
    assert (Hb : in_list (EtsyScraper.classify_button soup)
                   ["En stock"; "Rupture de stock"; "Disponibilité inconnue"] = true).
    { unfold EtsyScraper.classify_button.
      destruct (select_one soup EtsyScraper.add_to_cart_button) as [b|]; [|done].
      by destruct (ShopifyScraper.is_disabled b). }
    destruct (truthy raw) eqn:Ht; simpl; [|by left].
    destruct (contains "en stock" (lower raw)); [by left|].
    destruct (contains "disponible" (lower raw)); [by left|].
    destruct (contains "available" (lower raw)); [by left|].
    destruct (contains "épuisé" (lower raw)); [by left|].
    destruct (contains "sold out" (lower raw)); [by left|].
    destruct (contains "unavailable" (lower raw)); [by left|].
    simpl. destruct (str_existsb is_digit raw); [by right | by left].
Qed.

(** every occurrence of 'indisponible' is an occurrence of 'disponible' *)
Lemma contains_unfold sub c s :
  contains sub (String c s) = starts_with sub (String c s) || contains sub s.
Proof. reflexivity. Qed.

Lemma contains_indisponible s :
  contains "indisponible" s = true -> contains "disponible" s = true.
Proof.
  induction s as [|c s IH]; [done|].
  rewrite !contains_unfold.
  intros [Hp|Hc]%orb_true_iff; apply orb_true_iff; right; [|by auto].
  cbn [starts_with] in Hp. apply andb_true_iff in Hp as [_ Hp].
  destruct s as [|c' s]; [done|].
  apply andb_true_iff in Hp as [_ Hp].
  rewrite contains_unfold. apply orb_true_iff. right.
  destruct s as [|c'' s]; [done|].
  rewrite contains_unfold. apply orb_true_iff. by left.
Qed.

(** C3 (the code departs from the claim): the Amazon classifier tests the
    in-stock keywords first, and 'disponible' occurs in 'indisponible', so
    'Temporairement indisponible' is reported as 'En stock' (the Shopify
    classifier, which tests the out-of-stock keywords first, answers
    'Rupture de stock' on the same text); more generally every text in
    which 'indisponible' occurs is reported as 'En stock' by Amazon. *)
Theorem amazon_unavailable_reported_in_stock :
  AmazonScraper._extract_amazon_availability
    (page_with "#availability span" "Temporairement indisponible") = "En stock"
  /\ ShopifyScraper._determine_availability "Temporairement indisponible"
       (page_with "#availability span" "Temporairement indisponible") = "Rupture de stock"
  /\ (forall raw, contains "indisponible" (lower raw) = true ->
        AmazonScraper.classify raw = "En stock").
Proof.
  split; [by vm_compute|]. split; [by vm_compute|].
  intros raw H. unfold AmazonScraper.classify.
  destruct raw as [|c raw]; [done|]. cbn [truthy String.length Nat.eqb negb].
  cbv zeta. unfold any_in. cbn [existsb].
  apply contains_indisponible in H. rewrite H.
  by rewrite !orb_true_r.
Qed.

Lemma amazon_unavailable_reported_in_stock_witness :
  contains "indisponible" (lower "Actuellement INDISPONIBLE") = true
  /\ AmazonScraper.classify "Actuellement INDISPONIBLE" = "En stock".
Proof.
  split; [by vm_compute|].
  apply (proj2 (proj2 amazon_unavailable_reported_in_stock)). by vm_compute.
Defined.

(** the Etsy classifier has the same slip: 'available' occurs in
    'unavailable' and is tested first *)
Lemma etsy_unavailable_reported_in_stock :
  EtsyScraper._extract_etsy_availability (page_with ".stock-level" "Currently unavailable")
  = "En stock".
Proof. by vm_compute. Qed.


(** ** Ratings and review counts *)









(** ** The fetcher: retry budget *)

(** [succeeds o]: the GET answered with status 200 *)
Definition succeeds (o : Outcome) : bool :=
  match o with
  | Responds r => status_code r =? 200
  | RequestException _ => false
  end.

Lemma attempts_made_app t1 t2 :
  attempts_made (t1 ++ t2) = (attempts_made t1 + attempts_made t2)%nat.
Proof. unfold attempts_made. by rewrite List.filter_app, length_app. Qed.

Lemma attempts_step server a n tr :
  attempts server a (S n) tr =
    let tr1 := (if (0 <? a)%nat then tr ++ [SleepRetry] else tr) ++ [Get a] in
    match server a with
    | Responds r =>
        if status_code r =? 200 then (Some r, tr1)
        else attempts server (S a) n
               (if (status_code r =? 403) || (status_code r =? 429)
                then tr1 ++ [SleepBlocked] else tr1)
    | RequestException _ => attempts server (S a) n tr1
    end.
Proof.
  simpl. destruct (server a) as [r|]; [|done].
  destruct (status_code r =? 200); [done|].
  by destruct ((status_code r =? 403) || (status_code r =? 429)).
Qed.

Lemma attempts_made_step a tr :
  attempts_made ((if (0 <? a)%nat then tr ++ [SleepRetry] else tr) ++ [Get a])
  = S (attempts_made tr).
Proof.
  destruct (0 <? a)%nat; rewrite ?attempts_made_app; simpl; unfold attempts_made; simpl; lia.
Qed.

(** the loop, characterised: it stops at the first iteration whose GET
    answers 200, having made one GET per iteration so far *)
Lemma attempts_spec server n : forall a tr,
  match attempts server a n tr with
  | (Some r, tr') =>
      exists k, (k < n)%nat /\ server (a + k)%nat = Responds r /\ status_code r = 200
        /\ (forall j, (j < k)%nat -> succeeds (server (a + j)%nat) = false)
        /\ attempts_made tr' = (attempts_made tr + S k)%nat
  | (None, tr') =>
      (forall j, (j < n)%nat -> succeeds (server (a + j)%nat) = false)
      /\ attempts_made tr' = (attempts_made tr + n)%nat
  end.
Proof.
  induction n as [|n IH]; intros a tr.
  - simpl. split; [lia | lia].
  - rewrite attempts_step. cbv zeta.
    set (tr1 := (if (0 <? a)%nat then tr ++ [SleepRetry] else tr) ++ [Get a]).
    assert (Hm : attempts_made tr1 = S (attempts_made tr)) by apply attempts_made_step.
    assert (Hrec : forall tr2, attempts_made tr2 = S (attempts_made tr) ->
       succeeds (server a) = false ->
       match attempts server (S a) n tr2 with
       | (Some r, tr') =>
           exists k, (k < S n)%nat /\ server (a + k)%nat = Responds r /\ status_code r = 200
             /\ (forall j, (j < k)%nat -> succeeds (server (a + j)%nat) = false)
             /\ attempts_made tr' = (attempts_made tr + S k)%nat
       | (None, tr') =>
           (forall j, (j < S n)%nat -> succeeds (server (a + j)%nat) = false)
           /\ attempts_made tr' = (attempts_made tr + S n)%nat
       end).
    { intros tr2 H2 Hf. specialize (IH (S a) tr2).
      destruct (attempts server (S a) n tr2) as [[r|] tr'].
      - destruct IH as (k & Hk & Hs & H200 & Hb & Hc).
        exists (S k). replace (a + S k)%nat with (S a + k)%nat by lia.
        repeat split; [lia | done | done | | lia].
        intros [|j] Hj; [by rewrite Nat.add_0_r|].
        replace (a + S j)%nat with (S a + j)%nat by lia. apply Hb. lia.
      - destruct IH as [Hb Hc]. split; [|lia].
        intros [|j] Hj; [by rewrite Nat.add_0_r|].
        replace (a + S j)%nat with (S a + j)%nat by lia. apply Hb. lia. }
    destruct (server a) as [r|msg] eqn:Hs.
    + destruct (status_code r =? 200) eqn:H200.
      * exists 0%nat. rewrite Nat.add_0_r. repeat split; [lia | done | lia | lia | lia].
      * apply Hrec; [|by simpl].
        destruct ((status_code r =? 403) || (status_code r =? 429));
          rewrite ?attempts_made_app; simpl; unfold attempts_made in *; simpl; lia.
    + apply Hrec; done.
Qed.

Definition ok_response : Response := {| status_code := 200; content := "page" |}.
Definition always_ok : nat -> Outcome := fun _ => Responds ok_response.
Definition blocked_twice : nat -> Outcome := fun k =>
  if (k <? 2)%nat then Responds {| status_code := 429; content := "slow down" |}
  else Responds {| status_code := 200; content := "third" |}.

(** C7, as stated, fails: with [max_retries = 0] the idiom
    [max_retries or MAX_RETRIES] restores the default budget, so a GET is
    made although the budget asked for is zero. *)
Lemma make_request_zero_budget_counterexample :
  (_make_request always_ok (Some 0%Z)).1 = Some ok_response
  /\ attempts_made (_make_request always_ok (Some 0%Z)).2 = 1%nat
  /\ ~ (attempts_made (_make_request always_ok (Some 0%Z)).2 <= Z.to_nat 0)%nat.
Proof. vm_compute. repeat split; lia. Qed.

(** C7 (amended): for every server behaviour and every budget [n >= 1],
    [_make_request] makes at most [n] GETs; it returns the response of the
    first GET answered with status 200, after exactly that many GETs, and
    returns [None] exactly when none of the [n] GETs is answered with 200
    (403/429, other statuses and request exceptions each use up one
    attempt).  Without a budget the default of 3 applies.  With budget 3,
    429, 429, 200 yields the third response. *)
Theorem make_request_retry_budget :
  (forall (server : nat -> Outcome) (n : Z), 1 <= n ->
     let result := (_make_request server (Some n%Z)).1 in
     let made := attempts_made (_make_request server (Some n%Z)).2 in
     (made <= Z.to_nat n)%nat
     /\ (forall r, result = Some r <->
           exists k, (k < Z.to_nat n)%nat /\ server k = Responds r /\ status_code r = 200
             /\ (forall j, (j < k)%nat -> succeeds (server j) = false)
             /\ made = S k)
     /\ (result = None <->
           (forall j, (j < Z.to_nat n)%nat -> succeeds (server j) = false)
           /\ made = Z.to_nat n))
  /\ (forall server, _make_request server None = _make_request server (Some Config.MAX_RETRIES))
  /\ (_make_request blocked_twice (Some 3%Z)).1 = Some {| status_code := 200; content := "third" |}.
Proof.
  split; [|split; [done | by vm_compute]].
  intros server n Hn. cbv zeta.
  unfold _make_request, effective_retries.
  replace (n =? 0) with false by lia.
  pose proof (attempts_spec server (Z.to_nat n) 0%nat []) as H.
  destruct (attempts server 0 (Z.to_nat n) []) as [[r|] tr]; cbn [fst snd Nat.add] in *.
  - destruct H as (k & Hk & Hs & H200 & Hb & Hc).
    change (attempts_made []) with 0%nat in Hc.
    split; [lia|]. split.
    + intros r'. split.
      * intros [= <-]. exists k. done.
      * intros (k' & Hk' & Hs' & H200' & Hb' & Hc').
        assert (k' = k) as -> by lia. congruence.
    + split; [done|]. intros [Hb' _]. specialize (Hb' k Hk).
      rewrite Hs in Hb'. simpl in Hb'. lia.
  - destruct H as [Hb Hc]. change (attempts_made []) with 0%nat in Hc.
    split; [lia|]. split.
    + intros r'. split; [done|].
      intros (k' & Hk' & Hs' & H200' & _). specialize (Hb k' Hk').
      rewrite Hs' in Hb. simpl in Hb. lia.
    + split; [|done]. intros _. split; [done | lia].
Qed.

Lemma make_request_retry_budget_witness :
  1 <= 3 /\
  (exists k, (k < Z.to_nat 3)%nat
     /\ blocked_twice k = Responds {| status_code := 200; content := "third" |}
     /\ attempts_made (_make_request blocked_twice (Some 3%Z)).2 = S k).
Proof.
  split; [lia|].
  destruct (proj1 make_request_retry_budget blocked_twice 3 ltac:(lia)) as (_ & Hsome & _).
  destruct (proj1 (Hsome {| status_code := 200; content := "third" |}) eq_refl)
    as (k & Hk & Hs & _ & _ & Hm).
  exists k. auto.
Defined.

Lemma make_request_status server m r tr :
  _make_request server m = (Some r, tr) -> status_code r = 200.
Proof.
  unfold _make_request. intros H.
  pose proof (attempts_spec server (Z.to_nat (effective_retries m)) 0%nat []) as Hs.
  rewrite H in Hs. by destruct Hs as (k & _ & _ & H200 & _).
Qed.

(** ** The record assembler *)


Lemma with_product_info_other info d k :
  k <> "product_name" -> k <> "category" -> k <> "site" ->
  with_product_info info d !! k = d !! k.
Proof.
  intros H1 H2 H3. unfold with_product_info.
  destruct info as [info|]; [|done].
  destruct (decide (info = ∅)); [done|].
  unfold update. rewrite lookup_union_r; [done|].
  by rewrite !lookup_insert_ne.
Qed.


Definition noon : Clock :=
  {| strftime := "2024-01-01 12:00:00"; start_time := 10; end_time := 12.5 |}.




(** ** Fiverr *)



(** ** The diff engine *)

Import ReportGenerator.

(** the rows the loop body compares for a URL *)
Definition selected_current (current_df : list Row) (u : string) : option Row :=
  head (rows_of current_df u).
Definition selected_historical (historical_df : list Row) (u : string) : option Row :=
  last (rows_of historical_df u).

(** what one URL contributes to each list of the report *)
Definition price_changes_for (current_df historical_df : list Row) (u : string)
    : list PriceChange :=
  match selected_current current_df u, selected_historical historical_df u with
  | Some c, Some h => price_change_of u c h
  | _, _ => []
  end.

Definition availability_changes_for (current_df historical_df : list Row) (u : string)
    : list AvailabilityChange :=
  match selected_current current_df u, selected_historical historical_df u with
  | Some c, Some h => availability_change_of u c h
  | _, _ => []
  end.

Definition new_product_for (current_df : list Row) (u : string) : list NewProduct :=
  match selected_current current_df u with
  | Some p => [ {| np_url := u; np_title := title p; np_price := price p |} ]
  | None => []
  end.

Definition removed_product_for (historical_df : list Row) (u : string) : list RemovedProduct :=
  match selected_historical historical_df u with
  | Some p => [ {| rp_url := u; rp_title := title p; last_price := price p |} ]
  | None => []
  end.

Lemma mem_elem_of u l : mem u l = true <-> u ∈ l.
Proof.
  unfold mem. induction l as [|x l IH]; simpl.
  - split; [done | by intros ?%elem_of_nil].
  - rewrite orb_true_iff, IH, elem_of_cons, String.eqb_eq. done.
Qed.

Lemma mem_not_elem_of u l : mem u l = false <-> u ∉ l.
Proof. rewrite <- mem_elem_of. by destruct (mem u l). Qed.

Lemma filter_elem_of {A} (f : A -> bool) l x : x ∈ List.filter f l <-> x ∈ l /\ f x = true.
Proof. rewrite !list_elem_of_In. apply filter_In. Qed.

Lemma intersection_elem_of u a b : u ∈ intersection a b <-> u ∈ a /\ u ∈ b.
Proof. unfold intersection. by rewrite filter_elem_of, mem_elem_of. Qed.

Lemma difference_elem_of u a b : u ∈ difference a b <-> u ∈ a /\ u ∉ b.
Proof. unfold difference. by rewrite filter_elem_of, negb_true_iff, mem_not_elem_of. Qed.

Lemma rows_of_elem_of df u r : r ∈ rows_of df u <-> r ∈ df /\ url r = u.
Proof. unfold rows_of. by rewrite filter_elem_of, String.eqb_eq. Qed.

Lemma rows_of_nonempty df u : u ∈ column_url df -> rows_of df u <> [].
Proof.
  unfold column_url. intros (r & Hu & Hr)%list_elem_of_fmap.
  assert (r ∈ rows_of df u) as H by (by apply rows_of_elem_of).
  intros E. rewrite E in H. by apply elem_of_nil in H.
Qed.

Lemma selected_current_is_Some df u :
  u ∈ column_url df -> exists c, selected_current df u = Some c /\ rows_of df u <> [].
Proof.
  intros H%rows_of_nonempty. unfold selected_current.
  destruct (rows_of df u) as [|c l]; [done|]. by exists c.
Qed.

Lemma selected_historical_is_Some df u :
  u ∈ column_url df -> exists h, selected_historical df u = Some h.
Proof.
  intros H%rows_of_nonempty. unfold selected_historical.
  destruct (last (rows_of df u)) as [h|] eqn:E; [by exists h|].
  by apply last_None in E.
Qed.

Lemma selected_current_url df u c : selected_current df u = Some c -> c ∈ df /\ url c = u.
Proof.
  unfold selected_current. intros H. apply rows_of_elem_of.
  destruct (rows_of df u); [done|]. injection H as ->. by left.
Qed.

Lemma selected_historical_url df u h : selected_historical df u = Some h -> h ∈ df /\ url h = u.
Proof.
  unfold selected_historical. intros H. apply rows_of_elem_of.
  apply last_Some in H as [l ->]. apply elem_of_app. right. by left.
Qed.

Lemma iloc_first_selected df u c :
  selected_current df u = Some c -> iloc_first (rows_of df u) = Return c.
Proof. unfold selected_current, iloc_first. by destruct (rows_of df u); [|intros [= ->]]. Qed.

Lemma iloc_last_selected df u h :
  selected_historical df u = Some h -> iloc_last (rows_of df u) = Return h.
Proof. unfold selected_historical, iloc_last. by intros ->. Qed.

(** the loops never reach an [IndexError] and append, URL by URL, what
    the URL contributes *)
Lemma for_each_compare cur hist l acc :
  (forall u, u ∈ l -> u ∈ column_url cur /\ u ∈ column_url hist) ->
  for_each (compare_common cur hist) l acc
  = Return (acc.1 ++ (l ≫= price_changes_for cur hist),
            acc.2 ++ (l ≫= availability_changes_for cur hist)).
Proof.
  revert acc. induction l as [|u l IH]; intros [pcs acs] H.
  - simpl. by rewrite !app_nil_r.
  - destruct (H u ltac:(by left)) as [Hc Hh].
    destruct (selected_current_is_Some _ _ Hc) as (c & Hsc & _).
    destruct (selected_historical_is_Some _ _ Hh) as (h & Hsh).
    cbn [for_each]. unfold compare_common at 1.
    rewrite (iloc_first_selected _ _ _ Hsc), (iloc_last_selected _ _ _ Hsh).
    cbn [bind]. rewrite IH by (intros; apply H; by right).
    cbn [fst snd]. rewrite !bind_cons.
    unfold price_changes_for at 2, availability_changes_for at 2.
    rewrite Hsc, Hsh. by rewrite !app_assoc.
Qed.

Lemma for_each_add_new cur l acc :
  (forall u, u ∈ l -> u ∈ column_url cur) ->
  for_each (add_new cur) l acc = Return (acc ++ (l ≫= new_product_for cur)).
Proof.
  revert acc. induction l as [|u l IH]; intros acc H.
  - simpl. by rewrite app_nil_r.
  - destruct (selected_current_is_Some cur u (H u ltac:(by left))) as (c & Hsc & _).
    cbn [for_each]. unfold add_new at 1.
    rewrite (iloc_first_selected _ _ _ Hsc). cbn [bind].
    rewrite IH by (intros; apply H; by right).
    rewrite bind_cons. unfold new_product_for at 2. rewrite Hsc. by rewrite <- app_assoc.
Qed.

Lemma for_each_add_removed hist l acc :
  (forall u, u ∈ l -> u ∈ column_url hist) ->
  for_each (add_removed hist) l acc = Return (acc ++ (l ≫= removed_product_for hist)).
Proof.
  revert acc. induction l as [|u l IH]; intros acc H.
  - simpl. by rewrite app_nil_r.
  - destruct (selected_historical_is_Some hist u (H u ltac:(by left))) as (h & Hsh).
    cbn [for_each]. unfold add_removed at 1.
    rewrite (iloc_last_selected _ _ _ Hsh). cbn [bind].
    rewrite IH by (intros; apply H; by right).
    rewrite bind_cons. unfold removed_product_for at 2. rewrite Hsh. by rewrite <- app_assoc.
Qed.

(** the report of two non-empty snapshots, list by list *)
Definition report_of (order : SetOrder) (cur hist : list Row) : Report :=
  let common := iter order (intersection (column_url cur) (column_url hist)) in
  let added := iter order (difference (column_url cur) (column_url hist)) in
  let removed := iter order (difference (column_url hist) (column_url cur)) in
  {| price_changes := common ≫= price_changes_for cur hist;
     availability_changes := common ≫= availability_changes_for cur hist;
     new_products := added ≫= new_product_for cur;
     removed_products := removed ≫= removed_product_for hist;
     summary :=
       {| total_price_changes := length (common ≫= price_changes_for cur hist);
          total_availability_changes := length (common ≫= availability_changes_for cur hist);
          new_products_count := length (added ≫= new_product_for cur);
          removed_products_count := length (removed ≫= removed_product_for hist) |} |}.

Lemma generate_comparison_report_shape order cur hist :
  generate_comparison_report order cur hist =
    Return (match cur, hist with
            | [], _ | _, [] => None
            | _, _ => Some (report_of order cur hist)
            end).
Proof.
  unfold generate_comparison_report.
  destruct cur as [|c0 cur]; [done|]. destruct hist as [|h0 hist]; [done|].
  rewrite for_each_compare.
  2:{ intros u Hu%iter_elem. by apply intersection_elem_of in Hu. }
  cbn [bind]. rewrite for_each_add_new.
  2:{ intros u Hu%iter_elem. by apply difference_elem_of in Hu as [? _]. }
  cbn [bind]. rewrite for_each_add_removed.
  2:{ intros u Hu%iter_elem. by apply difference_elem_of in Hu as [? _]. }
  cbn [bind]. done.
Qed.

(** *** What a URL contributes *)

Lemma Qlt_bool_iff x y : Qlt_bool x y = true <-> (x < y)%Q.
Proof.
  unfold Qlt_bool. rewrite negb_true_iff. split.
  - intros H. apply Qnot_le_lt. intros Hle. apply Qle_bool_iff in Hle. congruence.
  - intros H. destruct (Qle_bool y x) eqn:E; [|done].
    apply Qle_bool_iff in E. by apply Qlt_not_le in H.
Qed.

Lemma comparable_spec cp hp c h :
  comparable cp hp = Some (c, h) <->
  cp = Some c /\ hp = Some h /\ (0 < c)%Q /\ (0 < h)%Q.
Proof.
  unfold comparable. destruct cp as [c'|], hp as [h'|]; try (by split; [|intros (?&?&_)]).
  destruct (Qlt_bool 0 c') eqn:Ec, (Qlt_bool 0 h') eqn:Eh; simpl.
  - apply Qlt_bool_iff in Ec, Eh. split; [by intros [= <- <-] | by intros ([= ->] & [= ->] & _)].
  - split; [done | intros ([= ->] & [= ->] & _ & Hh%Qlt_bool_iff); congruence].
  - split; [done | intros ([= ->] & [= ->] & Hc%Qlt_bool_iff & _); congruence].
  - split; [done | intros ([= ->] & [= ->] & Hc%Qlt_bool_iff & _); congruence].
Qed.

Lemma price_change_of_spec u c h pc :
  pc ∈ price_change_of u c h <->
  exists pn po,
    price c = Some pn /\ price h = Some po /\ (0 < pn)%Q /\ (0 < po)%Q
    /\ (Config.PRICE_CHANGE_THRESHOLD <= Qabs (((pn - po) / po) * 100))%Q
    /\ pc = {| pc_url := u; pc_title := title c; old_price := po; new_price := pn;
               change_percent := round2 (((pn - po) / po) * 100) |}.
Proof.
  unfold price_change_of, price_change_pct.
  destruct (comparable (price c) (price h)) as [[pn po]|] eqn:E.
  - apply comparable_spec in E as (Hc & Hh & Hpn & Hpo).
    destruct (Qle_bool _ _) eqn:Et.
    + apply Qle_bool_iff in Et. rewrite list_elem_of_singleton. split.
      * intros ->. by exists pn, po.
      * intros (pn' & po' & Hc' & Hh' & _ & _ & _ & ->). congruence.
    + split; [by intros ?%elem_of_nil|].
      intros (pn' & po' & Hc' & Hh' & _ & _ & Ht & _).
      assert (pn' = pn) as -> by congruence. assert (po' = po) as -> by congruence.
      apply Qle_bool_iff in Ht. congruence.
  - split; [by intros ?%elem_of_nil|].
    intros (pn & po & Hc & Hh & Hpn & Hpo & _).
    assert (comparable (price c) (price h) = Some (pn, po)) by (by apply comparable_spec).
    congruence.
Qed.

Lemma availability_change_of_spec u c h ac :
  ac ∈ availability_change_of u c h <->
  cell_ne (availability c) (availability h) = true
  /\ ac = {| ac_url := u; ac_title := title c;
             old_availability := availability h; new_availability := availability c |}.
Proof.
  unfold availability_change_of. destruct (cell_ne _ _).
  - rewrite list_elem_of_singleton. split; [by intros -> | by intros [_ ->]].
  - split; [by intros ?%elem_of_nil | by intros [? _]].
Qed.


Lemma price_changes_for_url cur hist u pc :
  pc ∈ price_changes_for cur hist u -> pc_url pc = u.
Proof.
  unfold price_changes_for.
  destruct (selected_current cur u), (selected_historical hist u);
    try (by intros ?%elem_of_nil).
  by intros (?&?&?&?&?&?&?& ->)%price_change_of_spec.
Qed.

Lemma availability_changes_for_url cur hist u ac :
  ac ∈ availability_changes_for cur hist u -> ac_url ac = u.
Proof.
  unfold availability_changes_for.
  destruct (selected_current cur u), (selected_historical hist u);
    try (by intros ?%elem_of_nil).
  by intros [_ ->]%availability_change_of_spec.
Qed.

Lemma new_product_for_url cur u np : np ∈ new_product_for cur u -> np_url np = u.
Proof.
  unfold new_product_for. destruct (selected_current cur u); [|by intros ?%elem_of_nil].
  by intros ->%list_elem_of_singleton.
Qed.

Lemma removed_product_for_url hist u rp : rp ∈ removed_product_for hist u -> rp_url rp = u.
Proof.
  unfold removed_product_for. destruct (selected_historical hist u); [|by intros ?%elem_of_nil].
  by intros ->%list_elem_of_singleton.
Qed.

(** *** Lists produced URL by URL *)

Section Keyed.
Context {A : Type} (key : A -> string) (f : string -> list A).
Hypothesis key_f : forall u x, x ∈ f u -> key x = u.

Lemma keyed_elem_of (l : list string) x :
  x ∈ l ≫= f <-> key x ∈ l /\ x ∈ f (key x).
Proof.
  rewrite list_elem_of_bind. split.
  - intros (u & Hx & Hu). by rewrite (key_f _ _ Hx).
  - intros [H1 H2]. eauto.
Qed.

Lemma keyed_keys (l : list string) u :
  u ∈ map key (l ≫= f) <-> u ∈ l /\ f u <> [].
Proof.
  change (map key (l ≫= f)) with (key <$> (l ≫= f)).
  rewrite list_elem_of_fmap. split.
  - intros (x & -> & [H1 H2]%keyed_elem_of). split; [done|].
    intros E. rewrite E in H2. by apply elem_of_nil in H2.
  - intros [Hu Hne]. destruct (f u) as [|x r] eqn:E; [done|].
    assert (x ∈ f u) as Hx by (rewrite E; by left).
    exists x. split; [by rewrite (key_f _ _ Hx)|].
    apply list_elem_of_bind. eauto.
Qed.

Hypothesis short_f : forall u, (length (f u) <= 1)%nat.

Lemma keyed_NoDup (l : list string) : NoDup l -> NoDup (map key (l ≫= f)).
Proof.
  induction 1 as [|u l Hu Hl IH]; [constructor|].
  rewrite bind_cons, map_app. pose proof (short_f u) as Hs.
  destruct (f u) as [|x [|y r]] eqn:E; simpl in *; [done | | lia].
  constructor; [|done].
  assert (x ∈ f u) as Hx by (rewrite E; by left).
  rewrite (key_f _ _ Hx). by intros [? _]%keyed_keys.
Qed.
End Keyed.

Lemma price_changes_for_short cur hist u : (length (price_changes_for cur hist u) <= 1)%nat.
Proof.
  unfold price_changes_for, price_change_of.
  repeat match goal with |- context [match ?x with _ => _ end] => destruct x end; simpl; lia.
Qed.

Lemma availability_changes_for_short cur hist u :
  (length (availability_changes_for cur hist u) <= 1)%nat.
Proof.
  unfold availability_changes_for, availability_change_of.
  repeat match goal with |- context [match ?x with _ => _ end] => destruct x end; simpl; lia.
Qed.

Lemma new_product_for_short cur u : (length (new_product_for cur u) <= 1)%nat.
Proof. unfold new_product_for. destruct (selected_current cur u); simpl; lia. Qed.

Lemma removed_product_for_short hist u : (length (removed_product_for hist u) <= 1)%nat.
Proof. unfold removed_product_for. destruct (selected_historical hist u); simpl; lia. Qed.


(** *** Sample snapshots *)

Definition insertion_order : SetOrder :=
  {| iter := remove_dups; iter_NoDup := NoDup_remove_dups; iter_elem := elem_of_remove_dups |}.

Definition product (u : string) (p : Q) (a : string) : Row :=
  {| url := u; title := Some "Lampe"; price := Some p; availability := Some a |}.

(** *** Price and availability changes of a common URL *)



(** *** Partition by URL membership *)

(** C5, as stated, fails: with an empty historical snapshot the guard at
    the head of [generate_comparison_report] returns the empty dict, so the
    URL of the current snapshot, which is in current minus historical, is
    in no new_products list. *)
Lemma diff_empty_history_counterexample :
  generate_comparison_report insertion_order [product "X" 100 "En stock"] [] = Return None
  /\ "X" ∈ difference (column_url [product "X" 100 "En stock"]) (column_url []).
Proof. split; [done | by vm_compute; left]. Qed.

(** C5 (amended): for every pair of non-empty snapshots the report is
    produced and its lists partition the URLs by membership: new_products
    holds exactly the URLs of current minus historical, removed_products
    exactly those of historical minus current, each removed product with
    the price of the last historical row of its URL; the URLs of
    price_changes and availability_changes are in both snapshots, hence in
    neither of the other two lists; no URL occurs twice in a list. *)
Theorem diff_partitions_urls :
  forall (order : SetOrder) (cur hist : list Row),
    cur <> [] -> hist <> [] ->
    exists rep,
      generate_comparison_report order cur hist = Return (Some rep)
      /\ (forall u, u ∈ map np_url (new_products rep) <->
                    u ∈ column_url cur /\ u ∉ column_url hist)
      /\ (forall u, u ∈ map rp_url (removed_products rep) <->
                    u ∈ column_url hist /\ u ∉ column_url cur)
      /\ (forall u, u ∈ map pc_url (price_changes rep)
                    \/ u ∈ map ac_url (availability_changes rep) ->
                    u ∈ column_url cur /\ u ∈ column_url hist)
      /\ (forall rp, rp ∈ removed_products rep ->
            exists h, selected_historical hist (rp_url rp) = Some h
                      /\ last_price rp = price h /\ rp_title rp = title h)
      /\ (forall np, np ∈ new_products rep ->
            exists c, selected_current cur (np_url np) = Some c
                      /\ np_price np = price c /\ np_title np = title c)
      /\ NoDup (map pc_url (price_changes rep))
      /\ NoDup (map ac_url (availability_changes rep))
      /\ NoDup (map np_url (new_products rep))
      /\ NoDup (map rp_url (removed_products rep)).
Proof.
  intros order cur hist Hcur Hhist. exists (report_of order cur hist).
  split.
  { rewrite generate_comparison_report_shape. by destruct cur, hist. }
  cbn [report_of price_changes availability_changes new_products removed_products].
  split; [|split; [|split; [|split; [|split]]]].
  - intros u. rewrite (keyed_keys np_url _ (new_product_for_url cur)).
    rewrite iter_elem, difference_elem_of. split; [tauto|].
    intros [Hc Hh]. split; [done|].
    destruct (selected_current_is_Some _ _ Hc) as (c & Hsc & _).
    unfold new_product_for. by rewrite Hsc.
  - intros u. rewrite (keyed_keys rp_url _ (removed_product_for_url hist)).
    rewrite iter_elem, difference_elem_of. split; [tauto|].
    intros [Hh Hc]. split; [done|].
    destruct (selected_historical_is_Some _ _ Hh) as (h & Hsh).
    unfold removed_product_for. by rewrite Hsh.
  - intros u [H|H].
    + apply (keyed_keys pc_url _ (price_changes_for_url cur hist)) in H as [H _].
      by apply iter_elem, intersection_elem_of in H.
    + apply (keyed_keys ac_url _ (availability_changes_for_url cur hist)) in H as [H _].
      by apply iter_elem, intersection_elem_of in H.
  - intros rp [_ H]%(keyed_elem_of rp_url _ (removed_product_for_url hist)).
    unfold removed_product_for in H.
    destruct (selected_historical hist (rp_url rp)) as [h|]; [|by apply elem_of_nil in H].
    apply list_elem_of_singleton in H. exists h. by rewrite H.
  - intros np [_ H]%(keyed_elem_of np_url _ (new_product_for_url cur)).
    unfold new_product_for in H.
    destruct (selected_current cur (np_url np)) as [c|]; [|by apply elem_of_nil in H].
    apply list_elem_of_singleton in H. exists c. by rewrite H.
  - repeat split.
    + apply keyed_NoDup;
        [apply price_changes_for_url | apply price_changes_for_short | apply iter_NoDup].
    + apply keyed_NoDup;
        [apply availability_changes_for_url | apply availability_changes_for_short
        | apply iter_NoDup].
    + apply keyed_NoDup;
        [apply new_product_for_url | apply new_product_for_short | apply iter_NoDup].
    + apply keyed_NoDup;
        [apply removed_product_for_url | apply removed_product_for_short | apply iter_NoDup].
Qed.

Definition sample_current : list Row :=
  [product "A" 10 "En stock"; product "B" 20 "En stock"].
Definition sample_historical : list Row :=
  [product "B" 20 "En stock"; product "C" 30 "En stock"; product "C" 31 "En stock"].

Lemma diff_partitions_urls_witness :
  exists rep,
    generate_comparison_report insertion_order sample_current sample_historical
    = Return (Some rep)
    /\ map np_url (new_products rep) = ["A"]
    /\ removed_products rep
       = [ {| rp_url := "C"; rp_title := Some "Lampe"; last_price := Some 31%Q |} ]
    /\ NoDup (map rp_url (removed_products rep)).
Proof.
  destruct (diff_partitions_urls insertion_order sample_current sample_historical
              ltac:(done) ltac:(done)) as (rep & Hrep & H).
  exists rep. split; [done|].
  assert (E : rep = report_of insertion_order sample_current sample_historical).
  { rewrite generate_comparison_report_shape in Hrep. by injection Hrep. }
  split; [rewrite E; by vm_compute|]. split; [rewrite E; by vm_compute|].
  apply H.
Defined.

(** *** Independence of the row order *)

(** two reports with the same content, list order aside *)
Definition same_report (r r' : option Report) : Prop :=
  match r, r' with
  | None, None => True
  | Some a, Some b =>
      price_changes a ≡ₚ price_changes b
      /\ availability_changes a ≡ₚ availability_changes b
      /\ new_products a ≡ₚ new_products b
      /\ removed_products a ≡ₚ removed_products b
      /\ summary a = summary b
  | _, _ => False
  end.

Lemma iter_singleton (order : SetOrder) l u :
  (forall x, x ∈ l <-> x = u) -> iter order l = [u].
Proof.
  intros H. pose proof (iter_NoDup order l) as Hn.
  assert (He : forall x, x ∈ iter order l <-> x = u).
  { intros x. by rewrite iter_elem. }
  destruct (iter order l) as [|a [|b r]].
  - exfalso. apply (elem_of_nil u). by apply He.
  - f_equal. apply He. by left.
  - assert (a = u) as -> by (apply He; by left).
    assert (b = u) as -> by (apply He; right; by left).
    apply NoDup_cons in Hn as [Hn _]. exfalso. apply Hn. by left.
Qed.

(** C6, as stated, fails: when a URL occurs twice in the current
    snapshot the first of its rows is compared, so swapping the two rows
    changes the report, whatever the iteration order of the sets. *)
Lemma diff_row_order_counterexample :
  exists cur cur' hist,
    cur ≡ₚ cur'
    /\ forall order : SetOrder,
         exists rep rep',
           generate_comparison_report order cur hist = Return (Some rep)
           /\ generate_comparison_report order cur' hist = Return (Some rep')
           /\ price_changes rep = []
           /\ length (price_changes rep') = 1%nat
           /\ ~ same_report (Some rep) (Some rep').
Proof.
  exists [product "X" 100 "En stock"; product "X" 200 "En stock"],
         [product "X" 200 "En stock"; product "X" 100 "En stock"],
         [product "X" 100 "En stock"].
  split; [apply Permutation_swap|]. intros order.
  eexists _, _. rewrite !generate_comparison_report_shape.
  split; [done|]. split; [done|].
  cbn [report_of price_changes].
  assert (Hi : iter order (intersection ["X"; "X"] ["X"]) = ["X"]).
  { apply iter_singleton. intros x. rewrite intersection_elem_of. split.
    - by intros [_ ?%list_elem_of_singleton].
    - intros ->. split; by left. }
  assert (H1 : iter order (intersection
            (column_url [product "X" 100 "En stock"; product "X" 200 "En stock"])
            (column_url [product "X" 100 "En stock"])) ≫=
          price_changes_for [product "X" 100 "En stock"; product "X" 200 "En stock"]
            [product "X" 100 "En stock"] = []).
  { cbn [column_url map url product]. rewrite Hi. by vm_compute. }
  assert (H2 : length (iter order (intersection
            (column_url [product "X" 200 "En stock"; product "X" 100 "En stock"])
            (column_url [product "X" 100 "En stock"])) ≫=
          price_changes_for [product "X" 200 "En stock"; product "X" 100 "En stock"]
            [product "X" 100 "En stock"]) = 1%nat).
  { cbn [column_url map url product]. rewrite Hi. by vm_compute. }
  split; [done|]. split; [done|].
  intros (Hp & _). cbn [report_of price_changes] in Hp.
  apply Permutation_length in Hp. rewrite H1, H2 in Hp. done.
Qed.

Lemma rows_of_absent df u : u ∉ column_url df -> rows_of df u = [].
Proof.
  intros H. destruct (rows_of df u) as [|r l] eqn:E; [done|]. exfalso. apply H.
  assert (r ∈ rows_of df u) as [Hr <-]%rows_of_elem_of by (rewrite E; by left).
  unfold column_url. change (map url df) with (url <$> df). by apply list_elem_of_fmap_2.
Qed.

Lemma rows_of_unique df u : NoDup (column_url df) -> (length (rows_of df u) <= 1)%nat.
Proof.
  induction df as [|r df IH]; simpl; [lia|].
  intros [Hr Hn]%NoDup_cons. destruct (String.eqb_spec (url r) u) as [<-|].
  - rewrite rows_of_absent by done. simpl. lia.
  - by apply IH.
Qed.

Lemma rows_of_Permutation df df' u : df ≡ₚ df' -> rows_of df u ≡ₚ rows_of df' u.
Proof.
  unfold rows_of. induction 1 as [|x l l' _ IH|x y l|l l' l'' _ IH1 _ IH2]; simpl.
  - done.
  - destruct (url x =? u)%string; by rewrite IH.
  - destruct (url x =? u)%string, (url y =? u)%string; [apply Permutation_swap | done..].
  - by rewrite IH1.
Qed.

Lemma selected_Permutation df df' u :
  NoDup (column_url df) -> df ≡ₚ df' ->
  selected_current df u = selected_current df' u
  /\ selected_historical df u = selected_historical df' u.
Proof.
  intros Hn Hp. unfold selected_current, selected_historical.
  pose proof (rows_of_unique df u Hn) as Hlen.
  pose proof (rows_of_Permutation df df' u Hp) as Hrows.
  destruct (rows_of df u) as [|r [|r' l]]; simpl in Hlen; [| |lia].
  - apply Permutation_nil_l in Hrows. by rewrite Hrows.
  - apply Permutation_singleton_l in Hrows. by rewrite Hrows.
Qed.

Lemma bind_Permutation_ext {A} (f g : string -> list A) l l' :
  l ≡ₚ l' -> (forall u, f u = g u) -> l ≫= f ≡ₚ l' ≫= g.
Proof.
  intros Hl Hfg. rewrite Hl. clear Hl.
  induction l' as [|u l' IH]; [done|]. by rewrite !bind_cons, Hfg, IH.
Qed.

Lemma iter_Permutation (order order' : SetOrder) l l' :
  (forall x, x ∈ l <-> x ∈ l') -> iter order l ≡ₚ iter order' l'.
Proof.
  intros H. apply NoDup_Permutation; [apply iter_NoDup..|].
  intros x. by rewrite !iter_elem.
Qed.

Lemma column_url_Permutation df df' : df ≡ₚ df' -> column_url df ≡ₚ column_url df'.
Proof. intros H. unfold column_url. change (url <$> df ≡ₚ url <$> df'). by rewrite H. Qed.

(** C6 (amended): for snapshots in which no URL occurs twice, permuting
    the rows of either snapshot changes neither the row selected per URL
    (first of current, last of historical) nor the report: both runs return,
    and their four lists are equal up to order, with equal counts, whatever
    order the sets are iterated in. *)
Theorem diff_order_independent :
  forall (order order' : SetOrder) (cur cur' hist hist' : list Row),
    NoDup (column_url cur) -> NoDup (column_url hist) ->
    cur ≡ₚ cur' -> hist ≡ₚ hist' ->
    (forall u, selected_current cur u = selected_current cur' u
               /\ selected_historical hist u = selected_historical hist' u)
    /\ exists r r',
         generate_comparison_report order cur hist = Return r
         /\ generate_comparison_report order' cur' hist' = Return r'
         /\ same_report r r'.
Proof.
  intros order order' cur cur' hist hist' Hnc Hnh Hc Hh.
  assert (Hsel : forall u, selected_current cur u = selected_current cur' u
               /\ selected_historical hist u = selected_historical hist' u).
  { intros u. split; [by apply selected_Permutation | by apply selected_Permutation]. }
  assert (Hselh : forall u, selected_historical hist u = selected_historical hist' u)
    by (intros u; apply Hsel).
  assert (Hselc : forall u, selected_current cur u = selected_current cur' u)
    by (intros u; apply Hsel).
  split; [done|].
  eexists _, _. rewrite !generate_comparison_report_shape.
  split; [done|]. split; [done|].
  destruct cur as [|c0 cur].
  { apply Permutation_nil_l in Hc as <-. done. }
  destruct cur' as [|c0' cur']; [by apply Permutation_nil_r in Hc|].
  destruct hist as [|h0 hist].
  { apply Permutation_nil_l in Hh as <-. done. }
  destruct hist' as [|h0' hist']; [by apply Permutation_nil_r in Hh|].
  pose proof (column_url_Permutation _ _ Hc) as Huc.
  pose proof (column_url_Permutation _ _ Hh) as Huh.
  set (C := c0 :: cur) in *. set (C' := c0' :: cur') in *.
  set (H := h0 :: hist) in *. set (H' := h0' :: hist') in *.
  assert (Hcommon : iter order (intersection (column_url C) (column_url H))
                    ≡ₚ iter order' (intersection (column_url C') (column_url H'))).
  { apply iter_Permutation. intros x. by rewrite !intersection_elem_of, Huc, Huh. }
  assert (Hnew : iter order (difference (column_url C) (column_url H))
                 ≡ₚ iter order' (difference (column_url C') (column_url H'))).
  { apply iter_Permutation. intros x. by rewrite !difference_elem_of, Huc, Huh. }
  assert (Hrem : iter order (difference (column_url H) (column_url C))
                 ≡ₚ iter order' (difference (column_url H') (column_url C'))).
  { apply iter_Permutation. intros x. by rewrite !difference_elem_of, Huc, Huh. }
  assert (Hpc : iter order (intersection (column_url C) (column_url H))
                  ≫= price_changes_for C H
                ≡ₚ iter order' (intersection (column_url C') (column_url H'))
                  ≫= price_changes_for C' H').
  { apply bind_Permutation_ext; [done|]. intros u. unfold price_changes_for.
    by rewrite Hselc, Hselh. }
  assert (Hac : iter order (intersection (column_url C) (column_url H))
                  ≫= availability_changes_for C H
                ≡ₚ iter order' (intersection (column_url C') (column_url H'))
                  ≫= availability_changes_for C' H').
  { apply bind_Permutation_ext; [done|]. intros u. unfold availability_changes_for.
    by rewrite Hselc, Hselh. }
  assert (Hnp : iter order (difference (column_url C) (column_url H)) ≫= new_product_for C
                ≡ₚ iter order' (difference (column_url C') (column_url H'))
                  ≫= new_product_for C').
  { apply bind_Permutation_ext; [done|]. intros u. unfold new_product_for.
    by rewrite Hselc. }
  assert (Hrp : iter order (difference (column_url H) (column_url C))
                  ≫= removed_product_for H
                ≡ₚ iter order' (difference (column_url H') (column_url C'))
                  ≫= removed_product_for H').
  { apply bind_Permutation_ext; [done|]. intros u. unfold removed_product_for.
    by rewrite Hselh. }
  subst C C' H H'. cbn [same_report report_of price_changes availability_changes
                        new_products removed_products summary].
  repeat split; try done.
  by rewrite (Permutation_length Hpc), (Permutation_length Hac),
             (Permutation_length Hnp), (Permutation_length Hrp).
Qed.

Lemma diff_order_independent_witness :
  NoDup (column_url sample_current)
  /\ NoDup (column_url [product "B" 20 "En stock"; product "C" 30 "En stock"])
  /\ exists r r',
       generate_comparison_report insertion_order sample_current
         [product "B" 20 "En stock"; product "C" 30 "En stock"] = Return r
       /\ generate_comparison_report insertion_order (reverse sample_current)
            [product "C" 30 "En stock"; product "B" 20 "En stock"] = Return r'
       /\ same_report r r'.
Proof.
  assert (H1 : NoDup (column_url sample_current)).
  { apply (bool_decide_unpack _). by vm_compute. }
  assert (H2 : NoDup (column_url [product "B" 20 "En stock"; product "C" 30 "En stock"])).
  { apply (bool_decide_unpack _). by vm_compute. }
  split; [done|]. split; [done|].
  apply (diff_order_independent insertion_order insertion_order
           sample_current (reverse sample_current)
           [product "B" 20 "En stock"; product "C" 30 "En stock"]
           [product "C" 30 "En stock"; product "B" 20 "En stock"] H1 H2).
  - apply Permutation_swap.
  - apply Permutation_swap.
Defined.

(* ===================================================================== *)
(** * Further properties of the code                                      *)
(* ===================================================================== *)

(** ** The selector cascade *)

Lemma truthy_true s : truthy s = true <-> s <> EmptyString.
Proof. unfold truthy. by destruct s. Qed.

Lemma truthy_false s : truthy s = false <-> s = EmptyString.
Proof. unfold truthy. by destruct s. Qed.

(** the stripped text a selector yields: none when nothing is selected *)
Definition selector_text (soup : Soup) (selector : string) : string :=
  match select_one soup selector with
  | Some element => text_stripped element
  | None => EmptyString
  end.

Lemma extract_text_cons soup selector rest :
  _extract_text soup (selector :: rest) =
    if truthy (selector_text soup selector) then selector_text soup selector
    else _extract_text soup rest.
Proof.
  cbn [_extract_text]. unfold selector_text.
  by destruct (select_one soup selector).
Qed.

(** X1: [_extract_text] returns the stripped text of the first selector, in
    the order given, whose first matched element has non-empty text, and
    the empty string exactly when no selector has one. *)
Theorem extract_text_first_nonempty :
  forall (soup : Soup) (selectors : list string),
    (_extract_text soup selectors = EmptyString <->
       forall selector, selector ∈ selectors -> selector_text soup selector = EmptyString)
    /\ (forall t, t <> EmptyString ->
          (_extract_text soup selectors = t <->
             exists before selector after,
               selectors = before ++ selector :: after
               /\ selector_text soup selector = t
               /\ forall earlier, earlier ∈ before ->
                    selector_text soup earlier = EmptyString)).
Proof.
  intros soup selectors. induction selectors as [|s rest [IH0 IH1]].
  - split.
    + split; [by intros _ ? ?%elem_of_nil | done].
    + intros t Ht. split; [by intros <-|].
      intros (before & selector & after & E & _). by destruct before.
  - rewrite extract_text_cons. destruct (truthy (selector_text soup s)) eqn:Hs.
    + apply truthy_true in Hs. split.
      * split; [done|]. intros H. apply H. by left.
      * intros t Ht. split.
        -- intros <-. exists [], s, rest. split; [done|]. split; [done|].
           by intros ? ?%elem_of_nil.
        -- intros (before & selector & after & E & Hsel & Hbefore).
           destruct before as [|b before]; simpl in E.
           ++ by injection E as -> ->.
           ++ injection E as -> ->. exfalso. apply Hs. apply Hbefore. by left.
    + apply truthy_false in Hs. split.
      * rewrite IH0. split.
        -- intros H selector [->|Hin]%elem_of_cons; auto.
        -- intros H selector Hin. apply H. by right.
      * intros t Ht. rewrite (IH1 t Ht). split.
        -- intros (before & selector & after & -> & Hsel & Hbefore).
           exists (s :: before), selector, after. split; [done|]. split; [done|].
           intros earlier [->|Hin]%elem_of_cons; auto.
        -- intros (before & selector & after & E & Hsel & Hbefore).
           destruct before as [|b before]; simpl in E.
           ++ injection E as -> ->. congruence.
           ++ injection E as -> ->. exists before, selector, after.
              split; [done|]. split; [done|]. intros earlier Hin. apply Hbefore. by right.
Qed.

(** ** The fetcher: what happens between two requests *)

(** the response was a block: status 403 or 429 *)
Definition blocked (o : Outcome) : bool :=
  match o with
  | Responds r => (status_code r =? 403) || (status_code r =? 429)
  | RequestException _ => false
  end.

(** the events of the attempt numbered [k] *)
Definition attempt_events (server : nat -> Outcome) (k : nat) : list Event :=
  (if (0 <? k)%nat then [SleepRetry] else [])
  ++ [Get k]
  ++ (if blocked (server k) then [SleepBlocked] else []).

Definition is_sleep_retry (e : Event) : bool :=
  match e with SleepRetry => true | _ => false end.

Lemma attempts_trace server n : forall a tr,
  exists m, (m <= n)%nat
    /\ (attempts server a n tr).2 = tr ++ (seq a m ≫= attempt_events server).
Proof.
  induction n as [|n IH]; intros a tr.
  - exists 0%nat. simpl. by rewrite app_nil_r.
  - rewrite attempts_step. cbv zeta.
    set (tr1 := (if (0 <? a)%nat then tr ++ [SleepRetry] else tr) ++ [Get a]).
    assert (Htr1 : forall tail, tr1 ++ tail
              = tr ++ (if (0 <? a)%nat then [SleepRetry] else []) ++ [Get a] ++ tail).
    { intros tail. subst tr1. destruct (0 <? a)%nat; by rewrite <- ?app_assoc. }
    destruct (server a) as [r|msg] eqn:Hs.
    + destruct (status_code r =? 200) eqn:H200.
      * exists 1%nat. split; [lia|]. cbn [snd seq]. rewrite bind_cons. change (@nil nat ≫= attempt_events server) with (@nil Event). rewrite app_nil_r.
        unfold attempt_events, blocked. rewrite Hs.
        replace ((status_code r =? 403) || (status_code r =? 429)) with false by lia.
        rewrite <- (app_nil_r tr1). apply Htr1.
      * destruct (IH (S a) (if (status_code r =? 403) || (status_code r =? 429)
                            then tr1 ++ [SleepBlocked] else tr1)) as (m & Hm & ->).
        exists (S m). split; [lia|]. cbn [seq]. rewrite bind_cons.
        unfold attempt_events at 2, blocked. rewrite Hs.
        destruct ((status_code r =? 403) || (status_code r =? 429)).
        -- rewrite Htr1. by rewrite <- !app_assoc.
        -- rewrite <- (app_nil_r tr1) at 1. rewrite Htr1. by rewrite <- !app_assoc.
    + destruct (IH (S a) tr1) as (m & Hm & ->).
      exists (S m). split; [lia|]. cbn [seq]. rewrite bind_cons.
      unfold attempt_events at 2, blocked. rewrite Hs.
      rewrite <- (app_nil_r tr1) at 1. rewrite Htr1. by rewrite <- !app_assoc.
Qed.

Lemma attempt_events_counts server a m :
  attempts_made (seq a m ≫= attempt_events server) = m
  /\ length (List.filter is_sleep_retry (seq a m ≫= attempt_events server))
     = (m - (if (0 <? a)%nat then 0 else if (0 <? m)%nat then 1 else 0))%nat.
Proof.
  revert a. induction m as [|m IH]; intros a; [by destruct (0 <? a)%nat|].
  cbn [seq]. rewrite bind_cons. destruct (IH (S a)) as [IH1 IH2].
  rewrite attempts_made_app, List.filter_app, length_app, IH1, IH2.
  unfold attempt_events, attempts_made.
  destruct (0 <? a)%nat eqn:Ha, (blocked (server a)); simpl; lia.
Qed.

(** X2: the events of [_make_request] are, attempt after attempt, an
    ordinary pause (for every attempt but the first), the GET, and the long
    pause when the answer was 403 or 429; so two GETs are never made without
    a pause between them, and the ordinary pauses number one less than the
    GETs. *)
Theorem make_request_paces_attempts :
  forall (server : nat -> Outcome) (max_retries : option Z),
    let trace := (_make_request server max_retries).2 in
    trace = seq 0 (attempts_made trace) ≫= attempt_events server
    /\ length (List.filter is_sleep_retry trace) = pred (attempts_made trace).
Proof.
  intros server max_retries. cbv zeta. unfold _make_request.
  destruct (attempts_trace server (Z.to_nat (effective_retries max_retries)) 0%nat [])
    as (m & _ & ->).
  rewrite app_nil_l. destruct (attempt_events_counts server 0 m) as [-> ->].
  split; [done|]. destruct m; simpl; lia.
Qed.

(** ** Fiverr: the rating loop *)

(** the values the loop obtains, in element order: of the elements with
    text, those whose text [float] accepts *)
Fixpoint parsed_ratings (py_float : string -> Result PyFloat)
    (rating_elements : list Element) : list PyFloat :=
  match rating_elements with
  | [] => []
  | element :: rest =>
      (if truthy (text_stripped element) then
         match py_float (replace_char "," "." (text_stripped element)) with
         | Return r => [r]
         | Raise _ => []
         end
       else []) ++ parsed_ratings py_float rest
  end.

Lemma fiverr_rating_loop_spec py_float els : forall init,
  FiverrScraper.rating_loop py_float els init =
    match List.find le5 (parsed_ratings py_float els) with
    | Some r => Some r
    | None =>
        match last (parsed_ratings py_float els) with
        | Some r => Some r
        | None => init
        end
    end.
Proof.
  induction els as [|e els IH]; intros init; [done|].
  cbn [FiverrScraper.rating_loop parsed_ratings].
  destruct (truthy (text_stripped e)); [|apply IH].
  destruct (py_float _) as [r|msg]; [|apply IH].
  cbn [app List.find]. destruct (le5 r); [done|].
  rewrite IH.
  destruct (List.find le5 (parsed_ratings py_float els)); [done|].
  rewrite last_cons. by destruct (last (parsed_ratings py_float els)).
Qed.

(** X3: the rating of [_extract_fiverr_reviews] is the first value, in
    element order, that [float] yields and that is at most 5; when no value
    is at most 5 it is the last value obtained, whatever its size, and it is
    absent only when no element yields a value. *)
Theorem fiverr_rating_first_at_most_five :
  forall (py_float : string -> Result PyFloat) (rating_elements : list Element),
    let parsed := parsed_ratings py_float rating_elements in
    let result := FiverrScraper.rating_loop py_float rating_elements None in
    result = match List.find le5 parsed with
             | Some r => Some r
             | None => last parsed
             end
    /\ (result = None <-> parsed = [])
    /\ (forall r, result = Some r -> le5 r = false ->
          last parsed = Some r /\ Forall (fun v => le5 v = false) parsed).
Proof.
  intros py_float els. cbv zeta. rewrite fiverr_rating_loop_spec.
  set (parsed := parsed_ratings py_float els).
  assert (Hlast : match last parsed with Some r => Some r | None => None end = last parsed)
    by (by destruct (last parsed)).
  rewrite Hlast. split; [done|]. split.
  - destruct (List.find le5 parsed) as [r|] eqn:Hf.
    + split; [done|]. intros E. by rewrite E in Hf.
    + rewrite last_None. done.
  - intros r. destruct (List.find le5 parsed) as [r'|] eqn:Hf.
    + intros [= ->] Hr. apply find_some in Hf as [_ Hf]. congruence.
    + intros Hl _. split; [done|]. apply Forall_forall. intros v Hv.
      apply list_elem_of_In in Hv. apply (find_none _ _ Hf) in Hv. done.
Qed.

(** ** Shopify: the labels and where they come from *)

(** the button makes the loop answer 'Rupture de stock' *)
Definition signals_out_of_stock (button : Element) : bool :=
  ShopifyScraper.is_disabled button
  || any_in ShopifyScraper.out_of_stock_keywords (lower (text_stripped button)).

Lemma scan_buttons_spec buttons :
  ShopifyScraper.scan_buttons buttons =
    if existsb signals_out_of_stock buttons then "Rupture de stock"
    else "Disponibilité inconnue".
Proof.
  induction buttons as [|b bs IH]; [done|].
  cbn [ShopifyScraper.scan_buttons existsb]. unfold signals_out_of_stock at 1.
  destruct (ShopifyScraper.is_disabled b); [done|].
  by destruct (any_in ShopifyScraper.out_of_stock_keywords (lower (text_stripped b))).
Qed.

(** X4: [_determine_availability] answers one of three labels and never
    the raw text.  It answers 'En stock' exactly when an in-stock keyword and
    no out-of-stock keyword occurs in the lowered text: the add-to-cart
    buttons are consulted only when no keyword matched, and they can only
    turn the answer into 'Rupture de stock' (a disabled button, or a button
    whose text holds an out-of-stock keyword), never into 'En stock'. *)
Theorem shopify_three_labels :
  forall (availability_text : string) (soup : Soup),
    let result := ShopifyScraper._determine_availability availability_text soup in
    let out := any_in ShopifyScraper.out_of_stock_keywords (lower availability_text) in
    let instock := any_in ShopifyScraper.in_stock_keywords (lower availability_text) in
    let button := existsb signals_out_of_stock (ShopifyScraper.add_to_cart_buttons soup) in
    (result = "En stock" \/ result = "Rupture de stock" \/ result = "Disponibilité inconnue")
    /\ (result = "En stock" <-> out = false /\ instock = true)
    /\ (result = "Rupture de stock" <->
          out = true \/ (instock = false /\ button = true))
    /\ (result = "Disponibilité inconnue" <->
          out = false /\ instock = false /\ button = false).
Proof.
  intros text soup. cbv zeta. unfold ShopifyScraper._determine_availability.
  rewrite scan_buttons_spec.
  destruct (any_in ShopifyScraper.out_of_stock_keywords (lower text)),
           (any_in ShopifyScraper.in_stock_keywords (lower text)),
           (existsb signals_out_of_stock (ShopifyScraper.add_to_cart_buttons soup));
    repeat split; try done; intros; try tauto;
    repeat match goal with
           | H : _ /\ _ |- _ => destruct H
           | H : _ \/ _ |- _ => destruct H
           end; try done; auto.
Qed.

(** ** The diff engine: what a price-change record holds *)

From Stdlib Require Import Lqa.








(** ** Amazon and Etsy: the price scan *)


(** the elements the scan looks at, in the order it looks at them *)
Definition price_candidates (soup : Soup) (price_selectors : list string) : list Element :=
  price_selectors ≫= select soup.

Definition has_positive_price (element : Element) : bool :=
  Qlt_bool 0 (_clean_price (text_stripped element)).

Lemma scan_prices_find elements :
  Scraping.scan_prices elements =
    (fun element => _clean_price (text_stripped element))
      <$> List.find has_positive_price elements.
Proof.
  induction elements as [|e els IH]; [done|].
  cbn [Scraping.scan_prices List.find]. unfold has_positive_price at 1.
  by destruct (Qlt_bool 0 (_clean_price (text_stripped e))).
Qed.

Lemma find_app_list {A} (f : A -> bool) l1 l2 :
  List.find f (l1 ++ l2) =
    match List.find f l1 with Some x => Some x | None => List.find f l2 end.
Proof. induction l1 as [|x l1 IH]; [done|]. simpl. by destruct (f x). Qed.

Lemma price_cascade_find soup selectors :
  Scraping.price_cascade soup selectors =
    match List.find has_positive_price (price_candidates soup selectors) with
    | Some element => _clean_price (text_stripped element)
    | None => 0.0%Q
    end.
Proof.
  unfold price_candidates. induction selectors as [|s rest IH]; [done|].
  cbn [Scraping.price_cascade]. rewrite bind_cons, find_app_list, scan_prices_find.
  destruct (List.find has_positive_price (select soup s)); [done | apply IH].
Qed.

(** X6: [_extract_amazon_price] and [_extract_etsy_price] return the cleaned
    price of the first element, in selector order and then document order,
    whose cleaned price is strictly positive, and 0.0 when there is none;
    so the result is either 0.0 or strictly positive, and it is positive
    exactly when some candidate element has a positive price. *)
Theorem price_scan_first_positive :
  forall (soup : Soup),
    let first_positive := fun selectors =>
      match List.find has_positive_price (price_candidates soup selectors) with
      | Some element => _clean_price (text_stripped element)
      | None => 0.0%Q
      end in
    let some_positive := fun selectors =>
      exists element, element ∈ price_candidates soup selectors
                      /\ (0 < _clean_price (text_stripped element))%Q in
    (Amazon._extract_amazon_price soup = first_positive Amazon.price_selectors
     /\ ((0 < Amazon._extract_amazon_price soup)%Q <-> some_positive Amazon.price_selectors)
     /\ (Amazon._extract_amazon_price soup = 0.0%Q
         \/ (0 < Amazon._extract_amazon_price soup)%Q))
    /\
    (Etsy._extract_etsy_price soup = first_positive Etsy.price_selectors
     /\ ((0 < Etsy._extract_etsy_price soup)%Q <-> some_positive Etsy.price_selectors)
     /\ (Etsy._extract_etsy_price soup = 0.0%Q \/ (0 < Etsy._extract_etsy_price soup)%Q)).
Proof.
  intros soup. cbv zeta.
  assert (H : forall selectors,
    let p := Scraping.price_cascade soup selectors in
    p = match List.find has_positive_price (price_candidates soup selectors) with
        | Some element => _clean_price (text_stripped element)
        | None => 0.0%Q
        end
    /\ ((0 < p)%Q <-> exists element, element ∈ price_candidates soup selectors
                        /\ (0 < _clean_price (text_stripped element))%Q)
    /\ (p = 0.0%Q \/ (0 < p)%Q)).
  { intros selectors. cbv zeta. rewrite price_cascade_find.
    destruct (List.find has_positive_price (price_candidates soup selectors))
      as [e|] eqn:Hf.
    - apply find_some in Hf as [Hin Hpos]. apply Qlt_bool_iff in Hpos.
      split; [done|]. split; [|by right].
      split; [|done]. intros _. exists e. split; [by apply list_elem_of_In | done].
    - split; [done|]. split; [|by left]. split; [by intros H|].
      intros (e & Hin & Hpos). apply list_elem_of_In in Hin.
      apply (find_none _ _ Hf) in Hin. unfold has_positive_price in Hin.
      apply Qlt_bool_iff in Hpos. congruence. }
  split; apply H.
Qed.

(** ** Etsy: ratings and review counts *)






(** ** The scrapers: when [scrape_product] raises *)

(** what [_make_request] and [_parse_html] make of a URL *)
Inductive Page : Type :=
| FetchFailed
| ParseFailed
| Parsed (soup : Soup).

Definition page_of (parser : string -> Result Soup)
    (server : string -> nat -> Outcome) (url : string) : Page :=
  match (_make_request (server url) None).1 with
  | None => FetchFailed
  | Some response =>
      match _parse_html parser response with
      | None => ParseFailed
      | Some soup => Parsed soup
      end
  end.

(** a response that [_make_request] returns is truthy: the test
    [if not response] fires on [None] only *)
Lemma fetch_and_parse_page parser server url fetch_failed parse_failed extract :
  Scraping.fetch_and_parse parser server url fetch_failed parse_failed extract =
  match page_of parser server url with
  | FetchFailed => Raise fetch_failed
  | ParseFailed => Raise parse_failed
  | Parsed soup => extract soup
  end.
Proof.
  unfold Scraping.fetch_and_parse, page_of.
  destruct (_make_request (server url) None) as [[response|] tr] eqn:Hreq;
    cbn [fst]; [|done].
  apply make_request_status in Hreq. unfold FiverrScraper.response_ok.
  rewrite Hreq. cbn [negb]. by destruct (_parse_html parser response).
Qed.


(** ** The scrapers: the record [scrape_product] returns *)

Definition extracted_keys : list string :=
  ["title"; "price"; "availability"; "rating"; "review_count"; "description"].



















(** ** The record of [get_product_data] with the registered scrapers *)

Definition base_keys : list string :=
  ["url"; "title"; "price"; "availability"; "rating"; "review_count"; "description";
   "scraped_at"; "scraping_duration"; "success"; "error_message"].

Definition info_keys : list string := ["product_name"; "category"; "site"].

(** the keys of a product record: the three of [info_keys] are there when
    [product_info] is given and not empty *)
Definition record_keys (product_info : option Dict) : gset string :=
  match product_info with
  | Some info =>
      if decide (info = ∅) then list_to_set base_keys
      else list_to_set info_keys ∪ list_to_set base_keys
  | None => list_to_set base_keys
  end.

Lemma dom_base_product_data clock url :
  dom (base_product_data clock url) = list_to_set base_keys.
Proof. unfold base_product_data. by rewrite !dom_insert_L, dom_empty_L. Qed.

Lemma dom_with_product_info clock url product_info :
  dom (with_product_info product_info (base_product_data clock url))
  = record_keys product_info.
Proof.
  unfold with_product_info, record_keys. destruct product_info as [info|].
  - destruct (decide (info = ∅)); [apply dom_base_product_data|].
    unfold update. rewrite dom_union_L, dom_base_product_data.
    by rewrite !dom_insert_L, dom_empty_L.
  - apply dom_base_product_data.
Qed.

Lemma base_keys_in_record_keys product_info :
  list_to_set base_keys ⊆ record_keys product_info.
Proof.
  unfold record_keys. destruct product_info as [info|]; [|done].
  destruct (decide (info = ∅)); [done|]. apply union_subseteq_r.
Qed.

Lemma dom_product_fields title price availability rating review_count description :
  dom (Scraping.product_fields title price availability rating review_count description)
  = list_to_set extracted_keys.
Proof. unfold Scraping.product_fields. by rewrite !dom_insert_L, dom_empty_L. Qed.

Lemma extracted_in_base : list_to_set (C := gset string) extracted_keys ⊆ list_to_set base_keys.
Proof.
  intros k. rewrite !elem_of_list_to_set. unfold extracted_keys, base_keys.
  rewrite !elem_of_cons. intuition.
Qed.

(** every registered scraper answers with a dict of the six extracted keys *)
Lemma registered_scraper_keys world site url product_info data :
  site ∈ ScraperFactory.SCRAPERS ->
  Registry.classes world site url product_info = Return data ->
  dom data = list_to_set extracted_keys.
Proof.
  intros Hsite. unfold ScraperFactory.SCRAPERS in Hsite.
  rewrite !elem_of_cons in Hsite.
  destruct Hsite as [->|[->|[->|[->|[->|[->|Hnil]]]]]];
    [| | | | | | by apply elem_of_nil in Hnil];
    cbn [Registry.classes Registry.SCRAPERS List.find String.eqb Ascii.eqb Bool.eqb fst snd];
    unfold Shopify.scrape_product, Etsy.scrape_product, Amazon.scrape_product,
      Leboncoin.scrape_product, Beacon.scrape_product, FiverrScraper.scrape_product;
    rewrite ?fetch_and_parse_page.
  - destruct (page_of _ _ _); [done|done|]. intros [= <-]. apply dom_product_fields.
  - destruct (page_of _ _ _) as [| |soup]; [done|done|].
    destruct (Amazon._is_blocked soup); [done|]. intros [= <-]. apply dom_product_fields.
  - destruct (page_of _ _ _) as [| |soup]; [done|done|].
    destruct (Etsy._extract_etsy_reviews soup); [|done].
    intros [= <-]. apply dom_product_fields.
  - destruct (page_of _ _ _); [done|done|]. intros [= <-]. apply dom_product_fields.
  - destruct (page_of _ _ _); [done|done|]. intros [= <-]. apply dom_product_fields.
  - destruct (_make_request _ _).1 as [response|]; [|done].
    destruct (negb _); [done|]. destruct (_parse_html _ _) as [soup|]; [|done].
    destruct (FiverrScraper._extract_fiverr_reviews _ soup); [|done].
    cbn [bind]. intros [= <-]. by rewrite !dom_insert_L, dom_empty_L.
Qed.

(** what [get_product_data] returns, for a [scrape_product] that returns
    extracted keys only *)
Lemma get_product_data_record scrape_product clock url product_info :
  get_product_data scrape_product clock url product_info =
  Return
    (<["scraping_duration" :=
         VFloat (Finite (round2 (end_time clock - start_time clock)))]>
       match scrape_product url product_info with
       | Return scraped_data =>
           <["success" := VBool true]>
             (update (with_product_info product_info (base_product_data clock url))
                scraped_data)
       | Raise e =>
           <["error_message" := VStr e]>
             (with_product_info product_info (base_product_data clock url))
       end).
Proof. unfold get_product_data. by destruct (scrape_product url product_info). Qed.

(** membership, or not, of a given key in a given list of keys *)
Ltac closed_elem :=
  match goal with |- ?P => apply (bool_decide_unpack P); by vm_compute end.

Lemma insert_present_dom (k : string) (v : Value) (d : Dict) (keys : gset string) :
  dom d = keys -> k ∈ keys -> dom (<[k := v]> d) = keys.
Proof.
  intros <- Hk. rewrite dom_insert_L. apply leibniz_equiv.
  apply subseteq_union_1. by apply singleton_subseteq_l.
Qed.

Lemma base_key_in_record_keys k product_info :
  k ∈ base_keys -> k ∈ record_keys product_info.
Proof.
  intros Hk. apply (base_keys_in_record_keys product_info).
  by apply elem_of_list_to_set.
Qed.

(** the record [get_product_data] makes with the scraper registered
    under [site] *)
Lemma registered_record world site clock url product_info :
  site ∈ ScraperFactory.SCRAPERS ->
  exists record,
    get_product_data (Registry.classes world site) clock url product_info
      = Return record
    /\ dom record = record_keys product_info
    /\ record !! "url" = Some (VStr url)
    /\ match Registry.classes world site url product_info with
       | Return scraped_data =>
           record !! "success" = Some (VBool true)
           /\ record !! "error_message" = Some (VStr "")
           /\ Forall (fun key => record !! key = scraped_data !! key) extracted_keys
       | Raise e =>
           record !! "success" = Some (VBool false)
           /\ record !! "error_message" = Some (VStr e)
       end
    /\ Forall (fun key =>
         record !! key
         = with_product_info product_info (base_product_data clock url) !! key)
         info_keys.
Proof.
  intros Hsite.
  rewrite get_product_data_record. eexists. split; [done|].
  pose proof (fun data => registered_scraper_keys world site url product_info data Hsite)
    as Hkeys.
  destruct (Registry.classes world site url product_info) as [data|e].
  - specialize (Hkeys data eq_refl).
    assert (Hno : forall k, k ∉ extracted_keys -> data !! k = None).
    { intros k Hk. apply not_elem_of_dom. rewrite Hkeys.
      by rewrite elem_of_list_to_set. }
    assert (Hyes : forall k, k ∈ extracted_keys -> is_Some (data !! k)).
    { intros k Hk. apply elem_of_dom. rewrite Hkeys.
      by rewrite elem_of_list_to_set. }
    repeat apply conj.
    + apply insert_present_dom; [|apply base_key_in_record_keys; closed_elem].
      apply insert_present_dom; [|apply base_key_in_record_keys; closed_elem].
      unfold update. rewrite dom_union_L, dom_with_product_info, Hkeys.
      apply leibniz_equiv, subseteq_union_1.
      etrans; [apply extracted_in_base|apply base_keys_in_record_keys].
    + do 2 (rewrite lookup_insert_ne by done). unfold update.
      rewrite lookup_union_r by (apply Hno; closed_elem).
      by rewrite with_product_info_other.
    + rewrite lookup_insert_ne by done. by rewrite lookup_insert_eq.
    + do 2 (rewrite lookup_insert_ne by done). unfold update.
      rewrite lookup_union_r by (apply Hno; closed_elem).
      by rewrite with_product_info_other.
    + apply Forall_forall. intros k Hk.
      assert (k <> "scraping_duration" /\ k <> "success") as [H1 H2].
      { split; intros ->; revert Hk; closed_elem. }
      do 2 (rewrite lookup_insert_ne by done). unfold update.
      destruct (Hyes k Hk) as [v Hv]. rewrite Hv.
      by apply lookup_union_Some_l.
    + repeat constructor; do 2 (rewrite lookup_insert_ne by done); unfold update;
        by rewrite lookup_union_r by (apply Hno; closed_elem).
  - repeat apply conj.
    + apply insert_present_dom; [|apply base_key_in_record_keys; closed_elem].
      apply insert_present_dom; [|apply base_key_in_record_keys; closed_elem].
      apply dom_with_product_info.
    + do 2 (rewrite lookup_insert_ne by done). by rewrite with_product_info_other.
    + do 2 (rewrite lookup_insert_ne by done). by rewrite with_product_info_other.
    + rewrite lookup_insert_ne by done. by rewrite lookup_insert_eq.
    + repeat constructor; by do 2 (rewrite lookup_insert_ne by done).
Qed.

(** X10: with each of the six registered scrapers, [get_product_data]
    returns a record with the same keys whether the scraper succeeded or
    raised: the eleven initial keys, and product_name, category and site
    when a non-empty [product_info] is given.  The record keeps the URL it
    was asked for.  If the scraper returned, success is True,
    error_message is '' and the six extracted fields are the scraper's; if it
    raised, success is False and error_message is the exception's text. *)
Theorem product_record_uniform_keys :
  forall (world : Registry.World) (clock : Clock) (url : string)
         (product_info : option Dict),
    Forall (fun site =>
      exists record,
        get_product_data (Registry.classes world site) clock url product_info
          = Return record
        /\ dom record = record_keys product_info
        /\ record !! "url" = Some (VStr url)
        /\ match Registry.classes world site url product_info with
           | Return scraped_data =>
               record !! "success" = Some (VBool true)
               /\ record !! "error_message" = Some (VStr "")
               /\ Forall (fun key => record !! key = scraped_data !! key) extracted_keys
           | Raise e =>
               record !! "success" = Some (VBool false)
               /\ record !! "error_message" = Some (VStr e)
           end)
      ScraperFactory.SCRAPERS.
Proof.
  intros world clock url info. apply Forall_forall. intros site Hsite.
  destruct (registered_record world site clock url info Hsite)
    as (record & Hrun & Hdom & Hurl & Hcases & _).
  by exists record.
Qed.

(** ** Site detection and the URLs that are kept *)

Lemma starts_with_app a b s :
  starts_with (a +:+ b) s = true ->
  exists r, s = a +:+ r /\ starts_with b r = true.
Proof.
  revert s. induction a as [|c a IH]; intros s.
  - rewrite str_app_nil_l. intros H. exists s. by rewrite str_app_nil_l.
  - rewrite str_app_cons. destruct s as [|d s]; cbn [starts_with]; [done|].
    intros [Hc Hs]%andb_prop. apply Ascii.eqb_eq in Hc as ->.
    destruct (IH s Hs) as (r & -> & Hr). exists r. by rewrite str_app_cons.
Qed.

Lemma contains_here sub s : starts_with sub s = true -> contains sub s = true.
Proof. intros H. destruct s; cbn [contains]; by rewrite H. Qed.

Lemma contains_skip sub a s : contains sub s = true -> contains sub (a +:+ s) = true.
Proof.
  intros H. induction a as [|c a IH]; [by rewrite str_app_nil_l|].
  rewrite str_app_cons. cbn [contains]. rewrite IH. apply orb_true_r.
Qed.

Lemma starts_with_prefix a b s :
  starts_with (a +:+ b) s = true -> starts_with a s = true.
Proof.
  revert s. induction a as [|c a IH]; intros s; [by destruct s|].
  rewrite str_app_cons. destruct s as [|d s]; cbn [starts_with]; [done|].
  intros [Hc Hs]%andb_prop. rewrite Hc. cbn [andb]. by apply IH.
Qed.

Lemma starts_with_middle before sub after s :
  starts_with (before +:+ sub +:+ after) s = true -> contains sub s = true.
Proof.
  intros H. apply starts_with_app in H as (r & -> & H).
  apply starts_with_prefix in H. by apply contains_skip, contains_here.
Qed.

(** a text with [before ++ sub ++ after] in it has [sub] in it *)
Lemma contains_middle before sub after s :
  contains (before +:+ sub +:+ after) s = true -> contains sub s = true.
Proof.
  induction s as [|c s IH]; cbn [contains]; intros [H|H]%orb_prop.
  - by apply (starts_with_middle before sub after "").
  - done.
  - by apply (starts_with_middle before sub after (String c s)).
  - change (contains sub (String c s) = true). cbn [contains].
    rewrite (IH H). apply orb_true_r.
Qed.

Lemma myshopify_is_shopify s :
  contains ".myshopify.com" s = true -> contains "shopify" s = true.
Proof. apply (contains_middle ".my" "shopify" ".com"). Qed.

(** X11: [_detect_site] answers one of the six registered site keys or
    'unknown', and the factory supports its answer exactly when the answer
    is not 'unknown'.  The tests are tried in the source's order on the
    lower-cased URL, so 'amazon.' wins over every other marker.  The second
    half of the Shopify test adds nothing: a URL with '.myshopify.com' in
    it already has 'shopify' in it. *)
Theorem detect_site_registered_or_unknown :
  forall url : string,
    let site := FileLoader._detect_site url in
    let has := fun marker => contains marker (lower url) in
    site ∈ "unknown" :: ScraperFactory.SCRAPERS
    /\ (existsb (String.eqb (lower site)) ScraperFactory.SCRAPERS = true
        <-> site <> "unknown")
    /\ (site = "amazon" <-> has "amazon." = true)
    /\ (site = "shopify" <-> has "amazon." = false /\ has "shopify" = true)
    /\ (site = "unknown" <->
        has "amazon." = false /\ has "shopify" = false /\ has "etsy.com" = false
        /\ has "leboncoin.fr" = false /\ has "beacon.by" = false
        /\ has "fiverr.com" = false).
Proof.
  intros url. cbv zeta. unfold FileLoader._detect_site.
  pose proof (myshopify_is_shopify (lower url)) as Hmy.
  destruct (contains "amazon." (lower url)) eqn:Ha.
  { repeat apply conj; try (by vm_compute); try (intros; by vm_compute);
      try (by intros [? ?]); try (by intros (? & ?)).
    closed_elem. }
  destruct (contains "shopify" (lower url)) eqn:Hs.
  { cbn [orb]. repeat apply conj; try (by vm_compute); try (intros; by vm_compute);
      try (by intros (? & ? & ?)); try done.
    closed_elem. }
  destruct (contains ".myshopify.com" (lower url)) eqn:Hm.
  { by specialize (Hmy eq_refl). }
  cbn [orb].
  destruct (contains "etsy.com" (lower url)) eqn:He.
  { repeat apply conj; try (by vm_compute); try (intros; by vm_compute);
      try (by intros (? & ? & ? & ?)); try (by intros [? ?]); try done.
    closed_elem. }
  destruct (contains "leboncoin.fr" (lower url)) eqn:Hl.
  { repeat apply conj; try (by vm_compute); try (intros; by vm_compute);
      try (by intros (? & ? & ? & ? & ?)); try (by intros [? ?]); try done.
    closed_elem. }
  destruct (contains "beacon.by" (lower url)) eqn:Hb.
  { repeat apply conj; try (by vm_compute); try (intros; by vm_compute);
      try (by intros (? & ? & ? & ? & ? & ?)); try (by intros [? ?]); try done.
    closed_elem. }
  destruct (contains "fiverr.com" (lower url)) eqn:Hf.
  { repeat apply conj; try (by vm_compute); try (intros; by vm_compute);
      try (by intros (? & ? & ? & ? & ? & ?)); try (by intros [? ?]); try done.
    closed_elem. }
  repeat apply conj; try (by vm_compute); try (intros; by vm_compute);
    try (by intros [? ?]); try done.
  closed_elem.
Qed.

(** ** Loading URLs from a text file *)

From Stdlib Require Import DecimalNat.

Lemma str_of_nat_inj a b : PyStr.str_of_nat a = PyStr.str_of_nat b -> a = b.
Proof.
  unfold PyStr.str_of_nat. intros H.
  assert (Hu : Nat.to_uint a = Nat.to_uint b).
  { apply (f_equal NilEmpty.uint_of_string) in H.
    rewrite !NilEmpty.usu in H. congruence. }
  apply (f_equal Nat.of_uint) in Hu. by rewrite !Unsigned.of_to in Hu.
Qed.

(** the name the TXT branch gives to the entry of line [line_num] *)
Definition product_name (line_num : nat) : string :=
  "Product_" +:+ PyStr.str_of_nat line_num.

Lemma product_name_inj a b : product_name a = product_name b -> a = b.
Proof.
  unfold product_name. rewrite !str_app_cons, !str_app_nil_l.
  intros [= H]. by apply str_of_nat_inj.
Qed.

(** a line is kept when, stripped, it is not empty and is not a comment *)
Definition kept (url : string) : bool := truthy url && negb (starts_with "#" url).

Definition name_of (entry : Main.UrlData) : option Value := Main.as_dict entry !! "name".

Lemma load_txt_entry line_num lines entry :
  entry ∈ FileLoader.load_txt line_num lines ->
  exists k line,
    lines !! k = Some line
    /\ entry = FileLoader.url_data (PyStr.strip line) (product_name (line_num + k)) ""
                 (FileLoader._detect_site (PyStr.strip line))
    /\ kept (PyStr.strip line) = true.
Proof.
  revert line_num. induction lines as [|line rest IH]; intros n.
  { intros H. by apply elem_of_nil in H. }
  cbn [FileLoader.load_txt]. fold (kept (PyStr.strip line)).
  assert (Hrest : entry ∈ FileLoader.load_txt (S n) rest ->
    exists k l, (line :: rest) !! k = Some l
      /\ entry = FileLoader.url_data (PyStr.strip l) (product_name (n + k)) ""
                   (FileLoader._detect_site (PyStr.strip l))
      /\ kept (PyStr.strip l) = true).
  { intros (k & l & Hk & -> & Hkept)%IH. exists (S k), l.
    split; [done|]. split; [|done]. by replace (n + S k)%nat with (S n + k)%nat by lia. }
  destruct (kept (PyStr.strip line)) eqn:Hkept; [|done].
  intros [->|H]%elem_of_cons; [|by apply Hrest].
  exists 0%nat, line. split; [done|]. split; [|done].
  by replace (n + 0)%nat with n by lia.
Qed.

Lemma load_txt_urls line_num lines :
  map Main.url (FileLoader.load_txt line_num lines)
  = List.filter kept (map PyStr.strip lines).
Proof.
  revert line_num. induction lines as [|line rest IH]; intros n; [done|].
  cbn [FileLoader.load_txt map List.filter]. fold (kept (PyStr.strip line)).
  destruct (kept (PyStr.strip line)); [|apply IH].
  cbn [map]. by rewrite IH.
Qed.

Lemma load_txt_names_NoDup line_num lines :
  NoDup (map name_of (FileLoader.load_txt line_num lines)).
Proof.
  revert line_num. induction lines as [|line rest IH]; intros n; [constructor|].
  cbn [FileLoader.load_txt]. destruct (_ && _); [|apply IH].
  cbn [map]. constructor; [|apply IH].
  intros (entry & Hname & Hentry)%list_elem_of_fmap.
  apply load_txt_entry in Hentry as (k & l & _ & -> & _).
  unfold name_of, FileLoader.url_data in Hname. cbn [Main.as_dict] in Hname.
  rewrite !(lookup_insert_ne _ "url" "name") in Hname by done.
  rewrite !lookup_insert_eq in Hname.
  fold (product_name n) in Hname.
  assert (Hn : product_name (S n + k) = product_name n) by congruence.
  apply product_name_inj in Hn. lia.
Qed.

(** X12: from a text file, [load_urls] makes one entry for every line
    that, once stripped, is neither empty nor a comment starting with '#',
    in file order.  The entry holds the stripped line as its URL, the site
    [_detect_site] finds in it, and the name 'Product_n' where n is the
    1-based number of the line in the file, skipped lines counted; so no
    two entries of a file share a name. *)
Theorem txt_entries_named_by_line :
  forall lines : list string,
    let entries := FileLoader.load_urls (FileLoader.Txt lines) in
    map Main.url entries = List.filter kept (map PyStr.strip lines)
    /\ (forall entry, entry ∈ entries ->
          exists k line,
            lines !! k = Some line
            /\ Main.url entry = PyStr.strip line
            /\ Main.site entry = FileLoader._detect_site (PyStr.strip line)
            /\ Main.as_dict entry !! "name" = Some (VStr (product_name (S k)))
            /\ Main.as_dict entry !! "category" = Some (VStr "")
            /\ Main.as_dict entry !! "url" = Some (VStr (Main.url entry))
            /\ Main.as_dict entry !! "site" = Some (VStr (Main.site entry)))
    /\ NoDup (map name_of entries).
Proof.
  intros lines. cbv zeta. cbn [FileLoader.load_urls].
  split; [apply load_txt_urls|]. split; [|apply load_txt_names_NoDup].
  intros entry (k & line & Hk & -> & _)%load_txt_entry.
  exists k, line. by repeat split.
Qed.

(** ** Loading URLs from a CSV file *)

Definition is_text (cell : FileLoader.Cell) : bool :=
  match cell with
  | FileLoader.Text _ => true
  | FileLoader.NotText => false
  end.

Definition cell_text (cell : FileLoader.Cell) : string :=
  match cell with
  | FileLoader.Text s => s
  | FileLoader.NotText => ""
  end.

(** a row all of whose cells [load_urls] reads are strings *)
Definition loadable (frame : FileLoader.Frame) (row : string -> FileLoader.Cell) : bool :=
  is_text (row "url")
  && is_text (FileLoader.row_get frame row "name")
  && is_text (FileLoader.row_get frame row "category").

(** the entry of a loadable row *)
Definition entry_of (frame : FileLoader.Frame) (row : string -> FileLoader.Cell)
    : Main.UrlData :=
  FileLoader.url_data
    (PyStr.strip (cell_text (row "url")))
    (PyStr.strip (cell_text (FileLoader.row_get frame row "name")))
    (PyStr.strip (cell_text (FileLoader.row_get frame row "category")))
    (FileLoader._detect_site (cell_text (row "url"))).

Lemma load_row_spec frame row :
  FileLoader.load_row frame row =
    if loadable frame row then Return (entry_of frame row) else Raise "AttributeError".
Proof.
  unfold FileLoader.load_row, loadable, entry_of.
  destruct (row "url"); cbn [FileLoader.strip_cell bind is_text andb cell_text]; [|done].
  destruct (FileLoader.row_get frame row "name");
    cbn [FileLoader.strip_cell bind is_text andb cell_text]; [|done].
  by destruct (FileLoader.row_get frame row "category").
Qed.

Lemma load_rows_spec frame rows :
  FileLoader.load_rows frame rows =
    if forallb (loadable frame) rows then Return (map (entry_of frame) rows)
    else Raise "AttributeError".
Proof.
  induction rows as [|row rest IH]; [done|].
  cbn [FileLoader.load_rows forallb map]. rewrite load_row_spec.
  destruct (loadable frame row); cbn [bind andb]; [|done].
  rewrite IH. by destruct (forallb (loadable frame) rest).
Qed.

(** X13: from a CSV file, [load_urls] returns either one entry for every
    row of the frame, in row order, or nothing at all.  It returns the
    entries when the frame has a column 'url' and every url, name and
    category cell it reads is a string (a missing name or category column
    reads as ''); a single cell that is not a string, such as the nan of
    an empty cell, makes the whole file load as the empty list. *)
Theorem csv_rows_all_or_none :
  forall frame : FileLoader.Frame,
    let entries := FileLoader.load_urls (FileLoader.Csv (Return frame)) in
    entries =
      (if FileLoader.has_column frame "url"
          && forallb (loadable frame) (FileLoader.rows frame)
       then map (entry_of frame) (FileLoader.rows frame)
       else [])
    /\ (forall row, row ∈ FileLoader.rows frame -> loadable frame row = false ->
          entries = [])
    /\ (entries = [] \/ length entries = length (FileLoader.rows frame)).
Proof.
  intros frame. cbv zeta.
  assert (Hclosed : FileLoader.load_urls (FileLoader.Csv (Return frame)) =
    if FileLoader.has_column frame "url"
       && forallb (loadable frame) (FileLoader.rows frame)
    then map (entry_of frame) (FileLoader.rows frame) else []).
  { cbn [FileLoader.load_urls bind forallb]. rewrite andb_true_r.
    destruct (FileLoader.has_column frame "url"); cbn [negb andb]; [|done].
    rewrite load_rows_spec. by destruct (forallb _ _). }
  split; [exact Hclosed|]. rewrite Hclosed. split.
  - intros row Hrow Hbad.
    assert (Hall : forallb (loadable frame) (FileLoader.rows frame) = false).
    { apply not_true_is_false. intros Hall.
      rewrite forallb_forall in Hall. apply list_elem_of_In in Hrow.
      rewrite (Hall row Hrow) in Hbad. done. }
    rewrite Hall. by rewrite andb_false_r.
  - destruct (_ && _); [right|by left]. by rewrite length_map.
Qed.

(** ** From the file of URLs to the batch of records *)

Lemma loaded_entry_shape file entry :
  entry ∈ FileLoader.load_urls file ->
  exists url name category site, entry = FileLoader.url_data url name category site.
Proof.
  destruct file as [|[frame|e]|lines|]; cbn [FileLoader.load_urls bind];
    try (intros H; by apply elem_of_nil in H).
  - destruct (negb _); [intros H; by apply elem_of_nil in H|].
    rewrite load_rows_spec. destruct (forallb _ _); [|intros H; by apply elem_of_nil in H].
    intros (row & -> & _)%list_elem_of_fmap. unfold entry_of. eauto 10.
  - intros (k & line & _ & -> & _)%load_txt_entry. eauto 10.
Qed.

Lemma competitive_load_urls_filter file :
  CompetitiveScraper.load_urls file
  = List.filter Main.supported (FileLoader.load_urls file).
Proof. unfold CompetitiveScraper.load_urls. by destruct (FileLoader.load_urls file). Qed.

Lemma supported_registered url_data :
  Main.supported url_data = true -> lower (Main.site url_data) ∈ ScraperFactory.SCRAPERS.
Proof.
  unfold Main.supported. intros (key & Hkey & Heq)%existsb_exists.
  apply String.eqb_eq in Heq as ->. by apply list_elem_of_In.
Qed.

(** the three keys [get_product_data] copies from a loaded entry *)
Lemma with_loaded_info url name category site base :
  let info := Main.as_dict (FileLoader.url_data url name category site) in
  with_product_info (Some info) base !! "product_name" = Some (VStr name)
  /\ with_product_info (Some info) base !! "category" = Some (VStr category)
  /\ with_product_info (Some info) base !! "site" = Some (VStr site).
Proof.
  cbv zeta. unfold with_product_info, FileLoader.url_data. cbn [Main.as_dict].
  destruct (decide _) as [Hempty|_]; [by apply insert_non_empty in Hempty|].
  unfold update, get.
  repeat split; apply lookup_union_Some_l.
  - rewrite lookup_insert_eq. do 1 (rewrite lookup_insert_ne by done).
    by rewrite lookup_insert_eq.
  - rewrite lookup_insert_ne by done. rewrite lookup_insert_eq.
    do 2 (rewrite lookup_insert_ne by done). by rewrite lookup_insert_eq.
  - do 2 (rewrite lookup_insert_ne by done). rewrite lookup_insert_eq.
    do 3 (rewrite lookup_insert_ne by done). by rewrite lookup_insert_eq.
Qed.

(** the record of a loaded, supported entry *)
Definition record_of_entry (url_data : Main.UrlData) (record : Dict) : Prop :=
  record !! "url" = Some (VStr (Main.url url_data))
  /\ record !! "site" = Some (VStr (Main.site url_data))
  /\ record !! "product_name" = Main.as_dict url_data !! "name"
  /\ record !! "category" = Main.as_dict url_data !! "category"
  /\ dom record = list_to_set info_keys ∪ list_to_set base_keys
  /\ (record !! "success" = Some (VBool true)
      \/ record !! "success" = Some (VBool false)).

Lemma scrape_one_loaded world clocks isoformat i url name category site :
  let url_data := FileLoader.url_data url name category site in
  Main.supported url_data = true ->
  exists record,
    Main.scrape_one (Registry.classes world) clocks isoformat i url_data = [record]
    /\ record_of_entry url_data record.
Proof.
  cbv zeta. intros Hsup. pose proof (supported_registered _ Hsup) as Hreg.
  unfold Main.scrape_one, ScraperFactory.get_scraper.
  unfold Main.supported in Hsup. rewrite Hsup.
  set (ud := FileLoader.url_data url name category site) in *.
  destruct (registered_record world (lower (Main.site ud)) (clocks i) (Main.url ud)
              (Some (Main.as_dict ud)) Hreg)
    as (record & -> & Hdom & Hurl & Hcases & Hinfo).
  cbn [bind]. exists record. split; [done|].
  apply Forall_cons in Hinfo as [Hname Hinfo].
  apply Forall_cons in Hinfo as [Hcat Hinfo].
  apply Forall_cons in Hinfo as [Hsite _].
  subst ud.
  destruct (with_loaded_info url name category site
              (base_product_data (clocks i)
                 (Main.url (FileLoader.url_data url name category site))))
    as (Wname & Wcat & Wsite).
  unfold record_of_entry. repeat apply conj.
  - exact Hurl.
  - rewrite Hsite. exact Wsite.
  - rewrite Hname, Wname. unfold FileLoader.url_data.
    cbn [Main.as_dict]. rewrite lookup_insert_ne by done. by rewrite lookup_insert_eq.
  - rewrite Hcat, Wcat. unfold FileLoader.url_data.
    cbn [Main.as_dict]. do 2 (rewrite lookup_insert_ne by done).
    by rewrite lookup_insert_eq.
  - rewrite Hdom. unfold record_keys.
    destruct (decide _) as [Hempty|_]; [|done].
    exfalso. revert Hempty. unfold FileLoader.url_data. cbn [Main.as_dict].
    apply insert_non_empty.
  - destruct (Registry.classes _ _ _ _); [left|right]; by destruct Hcases.
Qed.

Lemma scrape_from_loaded world clocks isoformat i urls_data :
  Forall (fun url_data =>
    Main.supported url_data = true
    /\ exists url name category site,
         url_data = FileLoader.url_data url name category site) urls_data ->
  Forall2 record_of_entry urls_data
    (Main.scrape_from (Registry.classes world) clocks isoformat i urls_data).
Proof.
  revert i. induction urls_data as [|ud rest IH]; intros i Hall; [constructor|].
  apply Forall_cons in Hall as [[Hsup (url & name & category & site & ->)] Hrest].
  cbn [Main.scrape_from].
  destruct (scrape_one_loaded world clocks isoformat i url name category site Hsup)
    as (record & -> & Hrecord).
  cbn [app]. constructor; [done|by apply IH].
Qed.

(** X14: the run from a file of URLs to the batch.  [load_urls] of
    [CompetitiveScraper] keeps, in file order, the loaded entries whose site
    the factory supports, and [scrape_products] with the registered scrapers
    then appends exactly one record per kept entry, in the same order.  The
    record of an entry carries the entry's URL and site, its name as
    product_name and its category, and has the fourteen keys of a product
    record, whether the scrape succeeded or failed. *)
Theorem loaded_urls_scraped_in_order :
  forall (world : Registry.World) (clocks : nat -> Clock) (isoformat : nat -> string)
         (file : FileLoader.File),
    let urls_data := CompetitiveScraper.load_urls file in
    let batch :=
      Main.scrape_products (Registry.classes world) clocks isoformat urls_data in
    urls_data = List.filter Main.supported (FileLoader.load_urls file)
    /\ Forall2 (fun url_data record =>
         record !! "url" = Some (VStr (Main.url url_data))
         /\ record !! "site" = Some (VStr (Main.site url_data))
         /\ record !! "product_name" = Main.as_dict url_data !! "name"
         /\ record !! "category" = Main.as_dict url_data !! "category"
         /\ dom record = list_to_set info_keys ∪ list_to_set base_keys
         /\ (record !! "success" = Some (VBool true)
             \/ record !! "success" = Some (VBool false)))
       urls_data batch.
Proof.
  intros world clocks isoformat file. cbv zeta.
  split; [apply competitive_load_urls_filter|].
  unfold Main.scrape_products. apply scrape_from_loaded.
  rewrite competitive_load_urls_filter. apply Forall_forall.
  intros ud Hud. apply list_elem_of_In, filter_In in Hud as [Hin Hsup].
  split; [done|]. by apply loaded_entry_shape with file, list_elem_of_In.
Qed.

(** ** The CSV report *)

Lemma set_column_rows df col cells :
  length (Reports.rows (Reports.set_column df col cells)) = length (Reports.rows df).
Proof. unfold Reports.set_column. cbn [Reports.rows]. apply length_imap. Qed.

Lemma column_set_column df col cells :
  length cells = length (Reports.rows df) ->
  Reports.column (Reports.set_column df col cells) col = cells.
Proof.
  intros Hlen. unfold Reports.column, Reports.set_column. cbn [Reports.rows].
  apply list_eq. intros i. rewrite list_lookup_fmap, list_lookup_imap.
  destruct (Reports.rows df !! i) as [row|] eqn:Hrow; cbn.
  - apply lookup_lt_Some in Hrow. rewrite <- Hlen in Hrow.
    apply lookup_lt_is_Some in Hrow as [v Hv]. rewrite Hv. cbn.
    unfold Reports.cell, get. by rewrite lookup_insert_eq.
  - apply lookup_ge_None in Hrow. rewrite <- Hlen in Hrow.
    symmetry. by apply lookup_ge_None.
Qed.

(** what [Series.map] leaves in the success column: 'Oui', 'Non' or nan *)
Definition success_label (v : Value) : Prop :=
  v = VStr "Oui" \/ v = VStr "Non" \/ v = Reports.nan.

Lemma map_success_label v : success_label (Reports.map_success v).
Proof.
  unfold success_label. destruct v as [|b|z|f|s]; cbn [Reports.map_success]; auto.
  - destruct b; auto.
  - destruct (z =? 1); auto. destruct (z =? 0); auto.
  - destruct f as [q| |]; auto.
    destruct (Qeq_bool q 1); auto. destruct (Qeq_bool q 0); auto.
Qed.

Section CsvReport.
Variable series_round : list Value -> Result (list Value).
Variable series_str_replace : string -> string -> list Value -> Result (list Value).
Variable to_csv : string -> Reports.Frame -> Result unit.
Variable path_join : string -> string -> string.

(** cleaning keeps the columns and the number of rows, and leaves only
    labels in the success column *)
Lemma clean_dataframe_spec df cleaned :
  Reports._clean_dataframe series_round series_str_replace df = Return cleaned ->
  Reports.columns cleaned = Reports.columns df
  /\ length (Reports.rows cleaned) = length (Reports.rows df)
  /\ (Reports.has_column cleaned "success" = true ->
      Forall success_label (Reports.column cleaned "success")).
Proof.
  unfold Reports._clean_dataframe.
  set (step1 := if Reports.has_column df "price" then _ else _).
  assert (H1 : forall df1, step1 = Return df1 ->
            Reports.columns df1 = Reports.columns df
            /\ length (Reports.rows df1) = length (Reports.rows df)).
  { subst step1. intros df1. destruct (Reports.has_column df "price").
    - destruct (series_round _) as [cells|]; [|done]. cbn [bind]. intros [= <-].
      split; [done|apply set_column_rows].
    - by intros [= <-]. }
  destruct step1 as [df1|]; [|done]. destruct (H1 df1 eq_refl) as [Hc1 Hr1].
  cbn [bind]. clear H1.
  set (step2 := if Reports.has_column df1 "description" then _ else _).
  assert (H2 : forall df2, step2 = Return df2 ->
            Reports.columns df2 = Reports.columns df1
            /\ length (Reports.rows df2) = length (Reports.rows df1)).
  { subst step2. intros df2. destruct (Reports.has_column df1 "description").
    - destruct (series_str_replace _ _ _) as [cells|]; [|done]. cbn [bind].
      destruct (series_str_replace _ _ _) as [cells'|]; [|done]. cbn [bind].
      intros [= <-]. split; [done|apply set_column_rows].
    - by intros [= <-]. }
  destruct step2 as [df2|]; [|done]. destruct (H2 df2 eq_refl) as [Hc2 Hr2].
  cbn [bind]. clear H2. intros [= <-].
  destruct (Reports.has_column df2 "success") eqn:Hs.
  - split; [by rewrite <- Hc1, <- Hc2|]. split.
    + rewrite set_column_rows. by rewrite Hr2.
    + intros _. rewrite column_set_column.
      * apply Forall_forall. intros v (w & -> & _)%list_elem_of_fmap.
        apply map_success_label.
      * unfold Reports.column. by rewrite !length_map.
  - split; [by rewrite Hc2|]. split; [by rewrite Hr2|]. by rewrite Hs.
Qed.

(** [sum] fails on the first string, and is nan when no string comes *)
Lemma py_sum_labels_from (total : Result Value) cells :
  (total = Return (VInt 0) \/ total = Return Reports.nan \/ exists e, total = Raise e) ->
  Forall success_label cells ->
  let result :=
    fold_left (fun total v => bind total (fun t => Reports.py_add t v)) cells total in
  (exists e, result = Raise e)
  \/ (result = total) /\ cells = []
  \/ (result = Return Reports.nan /\ Forall (fun v => v = Reports.nan) cells).
Proof.
  cbv zeta. revert total. induction cells as [|v rest IH]; intros total Ht Hall.
  { right. left. done. }
  apply Forall_cons in Hall as [Hv Hrest]. cbn [fold_left].
  set (next := bind total (fun t => Reports.py_add t v)).
  assert (Hnext : (exists e, next = Raise e) \/ (next = Return Reports.nan /\ v = Reports.nan)).
  { subst next. destruct Ht as [->|[->|[e ->]]]; cbn [bind];
      destruct Hv as [->|[->| ->]]; cbn; eauto. }
  destruct Hnext as [[e He]|[Hn Hvn]].
  - left. rewrite He. clear. induction rest as [|w rest IH]; cbn [fold_left bind]; eauto.
  - destruct (IH next) as [Hr|[[Hr ->]|[Hr Hnan]]]; [by right; left|done|by left| |].
    + right. right. cbn [fold_left]. split; [by rewrite Hn|]. by repeat constructor.
    + right. right. split; [done|]. by constructor.
Qed.

Lemma log_and_return_raises df filepath :
  Reports.rows df <> [] ->
  (Reports.has_column df "success" = true ->
     Forall success_label (Reports.column df "success")) ->
  exists e, Reports.log_and_return df filepath = Raise e.
Proof.
  intros Hrows Hlabels. unfold Reports.log_and_return, Reports.get_column.
  destruct (Reports.has_column df "success"); [|cbn; eauto].
  specialize (Hlabels eq_refl). cbn [bind].
  assert (Hne : Reports.column df "success" <> []).
  { unfold Reports.column. destruct (Reports.rows df); [done|]. done. }
  destruct (py_sum_labels_from (Return (VInt 0)) (Reports.column df "success"))
    as [[e He]|[[_ Hnil]|[Hsum Hnan]]]; [by left|done| | |].
  - unfold Reports.py_sum. rewrite He. cbn. eauto.
  - done.
  - unfold Reports.py_sum. rewrite Hsum. cbn [bind].
    destruct (Reports.column df "success") as [|v rest]; [done|].
    apply Forall_cons in Hnan as [-> _]. cbn. eauto.
Qed.

(** X15: [generate_csv_report] never returns the path of the report.
    With no data it returns '' at once.  Otherwise, when cleaning and
    writing succeed the file is written, but the log line that follows
    sums the success column after [_clean_dataframe] has turned it into
    'Oui' / 'Non' strings: [sum] raises on the first string (and [~] raises
    when the column holds nan only, or does not exist), the [except]
    clause takes over, and '' is returned although the file exists. *)
Theorem csv_report_path_never_returned :
  forall (df : Reports.Frame) (filename : option string) (timestamp : string),
    let result :=
      Reports.generate_csv_report series_round series_str_replace to_csv path_join
        df filename timestamp in
    result.1 = EmptyString
    /\ (forall cleaned,
          Reports.rows df <> [] ->
          Reports._clean_dataframe series_round series_str_replace
            (Reports.select_columns df (Reports.final_columns df)) = Return cleaned ->
          (forall filepath, to_csv filepath cleaned = Return tt) ->
          exists filepath,
            result.2 = [ {| Reports.path := filepath; Reports.frame := cleaned |} ]).
Proof.
  intros df filename timestamp. cbv zeta. unfold Reports.generate_csv_report.
  destruct (Reports.rows df) as [|row rest] eqn:Hrows; [done|].
  set (name := match filename with Some _ => _ | None => _ end).
  destruct (Reports._clean_dataframe _ _ _) as [cleaned|e] eqn:Hclean.
  2:{ split; [done|]. by intros cleaned _ [=]. }
  destruct (clean_dataframe_spec _ _ Hclean) as (_ & Hlen & Hlabels).
  assert (Hne : Reports.rows cleaned <> []).
  { cbn [Reports.select_columns Reports.rows] in Hlen. rewrite Hrows in Hlen.
    by destruct (Reports.rows cleaned). }
  destruct (log_and_return_raises cleaned (path_join Reports.REPORTS_DIR name) Hne Hlabels)
    as [e He].
  split.
  - destruct (to_csv _ cleaned); [|done]. by rewrite He.
  - intros cleaned' _ [= <-] Hwrite. rewrite Hwrite, He. eauto.
Qed.

End CsvReport.

(** ** The order of the columns of the CSV report *)

Lemma existsb_eqb_elem_of (col : string) (cols : list string) :
  existsb (String.eqb col) cols = true <-> col ∈ cols.
Proof.
  rewrite existsb_exists. split.
  - intros (x & Hx & ->%String.eqb_eq). by apply list_elem_of_In.
  - intros H. exists col. split; [by apply list_elem_of_In|apply String.eqb_refl].
Qed.

Lemma list_filter_sublist {A} (p : A -> bool) l : sublist (List.filter p l) l.
Proof.
  induction l as [|x l IH]; cbn [List.filter]; [constructor|].
  destruct (p x); by constructor.
Qed.

Lemma preferred_columns_NoDup : NoDup Reports.preferred_columns.
Proof. apply (bool_decide_unpack _). by vm_compute. Qed.

(** X16: for a frame whose column names are distinct, as those of a
    frame built from dicts are, the columns of the CSV report are a
    rearrangement of the frame's columns: none is lost, none is added and
    none is repeated.  The preferred columns the frame has come first, in
    the order of the preferred list; every other column follows, in the
    order it has in the frame. *)
Theorem csv_columns_preferred_first :
  forall df : Reports.Frame,
    NoDup (Reports.columns df) ->
    Reports.final_columns df ≡ₚ Reports.columns df
    /\ NoDup (Reports.final_columns df)
    /\ exists preferred others,
         Reports.final_columns df = preferred ++ others
         /\ sublist preferred Reports.preferred_columns
         /\ sublist others (Reports.columns df)
         /\ (forall col, col ∈ preferred <->
               col ∈ Reports.preferred_columns /\ col ∈ Reports.columns df)
         /\ (forall col, col ∈ others <->
               (col ∉ Reports.preferred_columns) /\ col ∈ Reports.columns df).
Proof.
  intros df Hnodup.
  assert (Hav : forall col, col ∈ Reports.available_columns df <->
            col ∈ Reports.preferred_columns /\ col ∈ Reports.columns df).
  { intros col. unfold Reports.available_columns, Reports.has_column.
    by rewrite filter_elem_of, existsb_eqb_elem_of. }
  assert (Hre : forall col, col ∈ Reports.remaining_columns df <->
            (col ∉ Reports.preferred_columns) /\ col ∈ Reports.columns df).
  { intros col. unfold Reports.remaining_columns.
    rewrite filter_elem_of, negb_true_iff.
    rewrite <- not_true_iff_false, existsb_eqb_elem_of, Hav. tauto. }
  assert (Hfinal : NoDup (Reports.final_columns df)).
  { unfold Reports.final_columns. apply NoDup_app. split; [|split].
    - unfold Reports.available_columns. eapply sublist_NoDup; [apply preferred_columns_NoDup|apply list_filter_sublist].
    - intros col Ha Hr. apply Hav in Ha. apply Hre in Hr. tauto.
    - unfold Reports.remaining_columns. eapply sublist_NoDup; [exact Hnodup|apply list_filter_sublist]. }
  split; [|split; [done|]].
  - apply NoDup_Permutation; [done|done|].
    intros col. unfold Reports.final_columns. rewrite elem_of_app, Hav, Hre.
    destruct (decide (col ∈ Reports.preferred_columns)); tauto.
  - exists (Reports.available_columns df), (Reports.remaining_columns df).
    split; [done|]. split; [apply list_filter_sublist|].
    split; [apply list_filter_sublist|]. done.
Qed.

Definition sample_frame : Reports.Frame :=
  {| Reports.columns := ["url"; "scraping_duration"; "title"; "success"];
     Reports.rows := [] |}.

Lemma csv_columns_preferred_first_witness :
  Reports.final_columns sample_frame = ["title"; "url"; "success"; "scraping_duration"]
  /\ Reports.final_columns sample_frame ≡ₚ Reports.columns sample_frame.
Proof.
  split; [by vm_compute|].
  apply (csv_columns_preferred_first sample_frame).
  apply (bool_decide_unpack _). by vm_compute.
Defined.

(** ** The comparison report on disk *)

Section ComparisonFile.
Variable path_join : string -> string -> string.
Variable str_of_float : Q -> string.
Variable changes_to_csv : string -> list (list (string * option string)) -> Result unit.

(** the path [save_comparison_report] builds *)
Definition comparison_path (filename : option string) (timestamp : string) : string :=
  path_join Reports.REPORTS_DIR
    (match filename with
     | Some name =>
         if truthy name then name else "comparison_report_" +:+ timestamp +:+ ".csv"
     | None => "comparison_report_" +:+ timestamp +:+ ".csv"
     end).

(** the rows [save_comparison_report] collects *)
Definition comparison_rows (rep : Report) : list (list (string * option string)) :=
  map (Reports.price_row str_of_float) (price_changes rep)
  ++ map Reports.availability_row (availability_changes rep).

(** X17: what [save_comparison_report] does with a report of
    [generate_comparison_report].  It collects one row per price change,
    then one row per availability change, as many rows as the two totals
    of the report's summary; new and removed products give no row.  With
    no row it writes nothing and still returns the path of the file; with
    rows it writes them all to one file and returns its path, or returns ''
    when the write fails. *)
Theorem comparison_file_holds_changes_only :
  forall (order : SetOrder) (current_data historical_data : list Row) (rep : Report)
         (filename : option string) (timestamp : string),
    generate_comparison_report order current_data historical_data = Return (Some rep) ->
    let result :=
      Reports.save_comparison_report path_join str_of_float changes_to_csv
        rep filename timestamp in
    let filepath := comparison_path filename timestamp in
    let total :=
      (total_price_changes (summary rep) + total_availability_changes (summary rep))%nat in
    length (comparison_rows rep) = total
    /\ Forall (fun row => row !! 0%nat = Some ("type", Some "Prix"))
         (take (total_price_changes (summary rep)) (comparison_rows rep))
    /\ Forall (fun row => row !! 0%nat = Some ("type", Some "Disponibilité"))
         (drop (total_price_changes (summary rep)) (comparison_rows rep))
    /\ (total = 0%nat -> result = (filepath, []))
    /\ (total <> 0%nat ->
        result =
          match changes_to_csv filepath (comparison_rows rep) with
          | Return _ => (filepath, [(filepath, comparison_rows rep)])
          | Raise _ => (EmptyString, [])
          end).
Proof.
  intros order cur hist rep filename timestamp Hrep. cbv zeta.
  rewrite generate_comparison_report_shape in Hrep.
  assert (Hsum : total_price_changes (summary rep) = length (price_changes rep)
                 /\ total_availability_changes (summary rep)
                    = length (availability_changes rep)).
  { destruct cur; [done|]. destruct hist; [done|]. by injection Hrep as <-. }
  destruct Hsum as [-> ->]. clear Hrep.
  unfold Reports.save_comparison_report. fold (comparison_path filename timestamp).
  fold (comparison_rows rep). unfold comparison_rows.
  split; [by rewrite length_app, !length_map|].
  split.
  { rewrite take_app_length' by (by rewrite length_map).
    apply Forall_forall. by intros row (pc & -> & _)%list_elem_of_fmap. }
  split.
  { rewrite drop_app_length' by (by rewrite length_map).
    apply Forall_forall. by intros row (ac & -> & _)%list_elem_of_fmap. }
  destruct (price_changes rep) as [|pc pcs]; [destruct (availability_changes rep)|];
    cbn [map app length Nat.add]; split; try done; try lia.
Qed.

End ComparisonFile.

Lemma comparison_file_holds_changes_only_witness :
  exists rep,
    generate_comparison_report insertion_order
      [product "X" 94 "Rupture de stock"] [product "X" 100 "En stock"] = Return (Some rep)
    /\ length (comparison_rows (fun _ => "n") rep) = 2%nat.
Proof.
  exists (report_of insertion_order
            [product "X" 94 "Rupture de stock"] [product "X" 100 "En stock"]).
  assert (Hrep : generate_comparison_report insertion_order
            [product "X" 94 "Rupture de stock"] [product "X" 100 "En stock"]
          = Return (Some (report_of insertion_order
              [product "X" 94 "Rupture de stock"] [product "X" 100 "En stock"])))
    by apply generate_comparison_report_shape.
  split; [exact Hrep|].
  destruct (comparison_file_holds_changes_only (fun a b => a +:+ "/" +:+ b)
              (fun _ => "n") (fun _ _ => Return tt) _ _ _ _
              None "20240101_120000" Hrep) as (Hlen & _).
  rewrite Hlen. by vm_compute.
Defined.

(** ** The e-mail alert *)

(** [split] never returns an empty list *)
Lemma split_on_nonempty c s : PyStr.split_on c s <> [].
Proof.
  destruct s as [|d r]; cbn [PyStr.split_on]; [done|].
  destruct (Ascii.eqb d c); [done|]. by destruct (PyStr.split_on c r).
Qed.

(** X18: in [send_alert] the test [not recipients] never fires: the
    recipients are the non-empty list given by the caller or else
    [EMAIL_RECIPIENTS], which comes from [split] and so has at least one
    element; when the variable EMAIL_RECIPIENTS is not set it is [''], and
    the message goes out with an empty To header.  Hence [send_alert]
    hands exactly one message to the SMTP session when alerts are enabled
    and a user and a password are set, returns True exactly when that
    session succeeds, and sends nothing otherwise. *)
Theorem alert_recipients_never_missing :
  forall (environ : string -> option string)
         (smtp : EmailNotifier.Message -> Result unit)
         (subject message : string) (recipients : option (list string)),
    let used :=
      match recipients with
      | Some (first :: others) => first :: others
      | _ => EmailNotifier.EMAIL_RECIPIENTS environ
      end in
    let msg :=
      {| EmailNotifier.From := EmailNotifier.EMAIL_USER environ;
         EmailNotifier.To := PyStr.join ", " used;
         EmailNotifier.Subject := subject;
         EmailNotifier.body := message;
         EmailNotifier.subtype := if contains "<html>" message then "html" else "plain" |} in
    let ready :=
      EmailNotifier.EMAIL_ENABLED environ
      && truthy (EmailNotifier.EMAIL_USER environ)
      && truthy (EmailNotifier.EMAIL_PASSWORD environ) in
    let result := EmailNotifier.send_alert environ smtp subject message recipients in
    used <> []
    /\ (environ "EMAIL_RECIPIENTS" = None -> EmailNotifier.EMAIL_RECIPIENTS environ = [""])
    /\ (environ "EMAIL_RECIPIENTS" = None -> (recipients = None \/ recipients = Some []) ->
        EmailNotifier.To msg = "")
    /\ result =
         (if ready
          then match smtp msg with
               | Return _ => (true, [msg])
               | Raise _ => (false, [])
               end
          else (false, []))
    /\ (result.1 = true <-> ready = true /\ smtp msg = Return tt)
    /\ (environ "EMAIL_ENABLED" = None -> result = (false, [])).
Proof.
  intros environ smtp subject message recipients. cbv zeta.
  set (used := match recipients with Some (first :: others) => _ | _ => _ end).
  assert (Hused : used <> []).
  { subst used. destruct recipients as [[|r rs]|]; [|done|];
      apply split_on_nonempty. }
  assert (Hunset : environ "EMAIL_RECIPIENTS" = None ->
            EmailNotifier.EMAIL_RECIPIENTS environ = [""]).
  { intros H. unfold EmailNotifier.EMAIL_RECIPIENTS, EmailNotifier.getenv. by rewrite H. }
  set (msg := {| EmailNotifier.From := EmailNotifier.EMAIL_USER environ;
                 EmailNotifier.To := PyStr.join ", " used;
                 EmailNotifier.Subject := subject;
                 EmailNotifier.body := message;
                 EmailNotifier.subtype :=
                   if contains "<html>" message then "html" else "plain" |}).
  assert (Hclosed : EmailNotifier.send_alert environ smtp subject message recipients =
    if EmailNotifier.EMAIL_ENABLED environ
       && truthy (EmailNotifier.EMAIL_USER environ)
       && truthy (EmailNotifier.EMAIL_PASSWORD environ)
    then match smtp msg with
         | Return _ => (true, [msg])
         | Raise _ => (false, [])
         end
    else (false, [])).
  { unfold EmailNotifier.send_alert. fold used. fold msg.
    destruct (EmailNotifier.EMAIL_ENABLED environ); cbn [negb andb]; [|done].
    destruct used as [|u us]; [done|]. cbn [orb].
    destruct (truthy (EmailNotifier.EMAIL_USER environ)); cbn [negb orb andb]; [|done].
    by destruct (truthy (EmailNotifier.EMAIL_PASSWORD environ)). }
  split; [done|]. split; [done|]. split.
  { intros H Hrec. subst msg. cbn [EmailNotifier.To]. subst used.
    destruct Hrec as [->| ->]; by rewrite (Hunset H). }
  split; [done|]. rewrite Hclosed. split.
  - destruct (_ && _ && _); [|by split; [|intros [? _]]].
    destruct (smtp _) as [[]|e]; cbn [fst]; by split; [|intros [_ ?]].
  - intros H. unfold EmailNotifier.EMAIL_ENABLED, EmailNotifier.getenv. by rewrite H.
Qed.

(** ** The summary of a batch *)

(** the success flag of a record that has one *)
Definition succeeded (record : Dict) : bool :=
  match record !! "success" with
  | Some (VBool true) => true
  | _ => false
  end.

Definition is_flag (v : Value) : Prop := exists b, v = VBool b.

Lemma py_sum_flags_from (acc : Z) cells :
  Forall is_flag cells ->
  fold_left (fun total v => bind total (fun t => Reports.py_add t v)) cells
    (Return (VInt acc))
  = Return (VInt (acc + Z.of_nat (length (List.filter
                                            (fun v => match v with
                                                      | VBool true => true
                                                      | _ => false
                                                      end) cells)))).
Proof.
  revert acc. induction cells as [|v rest IH]; intros acc Hall.
  { cbn. by rewrite Z.add_0_r. }
  apply Forall_cons in Hall as [[b ->] Hrest]. cbn [fold_left bind List.filter].
  change (Reports.py_add (VInt acc) (VBool b)) with (Return (VInt (acc + Z.b2z b))).
  rewrite IH by done. destruct b; cbn [Z.b2z length]; do 2 f_equal; lia.
Qed.

Lemma series_invert_flags cells :
  Forall is_flag cells ->
  exists inverted,
    Reports.series_invert cells = Return inverted
    /\ Forall is_flag inverted
    /\ length (List.filter (fun v => match v with VBool true => true | _ => false end)
                 inverted)
       = (length cells
          - length (List.filter (fun v => match v with VBool true => true | _ => false end)
                      cells))%nat.
Proof.
  induction cells as [|v rest IH]; intros Hall.
  { exists []. by repeat split. }
  apply Forall_cons in Hall as [[b ->] Hrest].
  destruct (IH Hrest) as (inverted & Hinv & Hflags & Hcount).
  exists (VBool (negb b) :: inverted). cbn [Reports.series_invert Reports.invert_cell bind].
  rewrite Hinv. cbn [bind]. split; [done|]. split.
  - constructor; [by exists (negb b)|done].
  - pose proof (filter_length_le
                  (fun v => match v with VBool true => true | _ => false end) rest).
    destruct b; cbn [negb List.filter length]; lia.
Qed.

Lemma success_cells_of_batch rows :
  Forall (fun record => record !! "success" = Some (VBool true)
                        \/ record !! "success" = Some (VBool false)) rows ->
  Forall is_flag (map (fun row => Reports.cell row "success") rows)
  /\ length (List.filter (fun v => match v with VBool true => true | _ => false end)
               (map (fun row => Reports.cell row "success") rows))
     = length (List.filter succeeded rows).
Proof.
  induction rows as [|row rest IH]; intros Hall; [by split|].
  apply Forall_cons in Hall as [Hrow Hrest]. destruct (IH Hrest) as [Hflags Hcount].
  cbn [map List.filter]. unfold Reports.cell at 1 3, get, succeeded at 1.
  destruct Hrow as [-> | ->]; (split; [constructor; [by eexists|done]|]);
    cbn [length]; by rewrite ?Hcount.
Qed.

Lemma records_have_flags urls_data batch :
  Forall2 record_of_entry urls_data batch ->
  Forall (fun record => record !! "success" = Some (VBool true)
                        \/ record !! "success" = Some (VBool false)) batch.
Proof.
  induction 1 as [|ud record uds records Hrecord _ IH]; constructor; [|done].
  by destruct Hrecord as (_ & _ & _ & _ & _ & Hflag).
Qed.

Section BatchSummary.
Variable Statistics : Type.
Variable statistics : Reports.Frame -> Result Statistics.

(** X19: the summary of a batch.  For the records [scrape_products]
    makes of a file of URLs with the registered scrapers, put in a frame
    that has the success column, [generate_summary_report] counts every
    record exactly once: total_products is the number of URLs kept,
    successful_scrapes is the number of records with success True,
    failed_scrapes is the number of the others, and the two add up to the
    total.  Neither sum can raise; the summary is returned if the
    remaining statistics are, and is empty for an empty batch. *)
Theorem batch_summary_counts_add_up :
  forall (world : Registry.World) (clocks : nat -> Clock) (isoformat : nat -> string)
         (file : FileLoader.File) (columns : list string),
    "success" ∈ columns ->
    let urls_data := CompetitiveScraper.load_urls file in
    let batch :=
      Main.scrape_products (Registry.classes world) clocks isoformat urls_data in
    let df := {| Reports.columns := columns; Reports.rows := batch |} in
    let successful := length (List.filter succeeded batch) in
    match Reports.generate_summary_report Statistics statistics df with
    | Return None => urls_data = []
    | Return (Some (counts, others)) =>
        statistics df = Return others
        /\ Reports.total_products counts = length urls_data
        /\ Reports.successful_scrapes counts = VInt (Z.of_nat successful)
        /\ Reports.failed_scrapes counts
           = VInt (Z.of_nat (length urls_data - successful))
        /\ (successful <= length urls_data)%nat
    | Raise e => urls_data <> [] /\ statistics df = Raise e
    end.
Proof.
  intros world clocks isoformat file columns Hcol. cbv zeta.
  set (urls_data := CompetitiveScraper.load_urls file).
  assert (Hbatch : Forall2 record_of_entry urls_data
            (Main.scrape_products (Registry.classes world) clocks isoformat urls_data)).
  { unfold Main.scrape_products. apply scrape_from_loaded.
    subst urls_data. rewrite competitive_load_urls_filter. apply Forall_forall.
    intros ud Hud. apply list_elem_of_In, filter_In in Hud as [Hin Hsup].
    split; [done|]. by apply loaded_entry_shape with file, list_elem_of_In. }
  set (batch := Main.scrape_products _ _ _ _) in *.
  assert (Hlen : length batch = length urls_data).
  { symmetry. by eapply Forall2_length. }
  assert (Hflags : Forall (fun record => record !! "success" = Some (VBool true)
                             \/ record !! "success" = Some (VBool false)) batch).
  { by apply records_have_flags with urls_data. }
  unfold Reports.generate_summary_report. cbn [Reports.rows].
  destruct batch as [|record rest] eqn:Hb.
  { by destruct urls_data. }
  assert (Hpos : urls_data <> []).
  { intros Hnil. by rewrite Hnil in Hlen. }
  rewrite <- Hb in *. clear Hb.
  assert (Hhas : Reports.has_column {| Reports.columns := columns; Reports.rows := batch |}
                   "success" = true).
  { unfold Reports.has_column. cbn [Reports.columns]. by apply existsb_eqb_elem_of. }
  unfold Reports.get_success. rewrite Hhas. unfold Reports.column. cbn [Reports.rows].
  destruct (success_cells_of_batch batch Hflags) as [Hcells Hcount].
  unfold Reports.py_sum at 1. rewrite (py_sum_flags_from 0) by done. cbn [bind].
  destruct (series_invert_flags _ Hcells) as (inverted & -> & Hinv & Hicount).
  cbn [bind]. unfold Reports.py_sum. rewrite (py_sum_flags_from 0) by done. cbn [bind].
  rewrite Hicount, Hcount, length_map, Hlen.
  pose proof (filter_length_le succeeded batch) as Hle. rewrite Hlen in Hle.
  destruct (statistics _) as [others|e]; cbn [bind].
  - by repeat split.
  - by split.
Qed.

End BatchSummary.

(** a world without network: every GET raises *)
Definition offline : Registry.World :=
  {| Registry.parser := fun _ => Raise "no parser";
     Registry.server := fun _ _ => RequestException "unreachable";
     Registry.find_all_li := fun _ => [];
     Registry.py_float := fun _ => Raise "ValueError" |}.

Lemma batch_summary_counts_add_up_witness :
  "success" ∈ ["url"; "success"]
  /\ let urls_data :=
       CompetitiveScraper.load_urls
         (FileLoader.Txt ["https://www.etsy.com/listing/1"; "# a comment"]) in
     let batch :=
       Main.scrape_products (Registry.classes offline) (fun _ => noon) (fun _ => "")
         urls_data in
     let df := {| Reports.columns := ["url"; "success"]; Reports.rows := batch |} in
     let successful := length (List.filter succeeded batch) in
     match Reports.generate_summary_report unit (fun _ => Return tt) df with
     | Return None => urls_data = []
     | Return (Some (counts, others)) =>
         (fun _ : Reports.Frame => Return tt) df = Return others
         /\ Reports.total_products counts = length urls_data
         /\ Reports.successful_scrapes counts = VInt (Z.of_nat successful)
         /\ Reports.failed_scrapes counts
            = VInt (Z.of_nat (length urls_data - successful))
         /\ (successful <= length urls_data)%nat
     | Raise e => urls_data <> [] /\ (fun _ : Reports.Frame => Return tt) df = Raise e
     end.
Proof.
  split; [closed_elem|].
  apply (batch_summary_counts_add_up unit (fun _ => Return tt) offline (fun _ => noon)
           (fun _ => "")
           (FileLoader.Txt ["https://www.etsy.com/listing/1"; "# a comment"])
           ["url"; "success"]).
  closed_elem.
Defined.
